(** * The Draft SelectPlane command (gui_selectplane.py)

    A shallow embedding of [Draft_SelectPlane]: the command object (its
    history [states], its task panel and its event callback), the global
    working plane [FreeCAD.DraftWorkingPlane] and the part of the host GUI
    the command talks to.  Every method is a computation in a state monad
    that can raise a Python exception; the state written before a raise
    stays written, as in Python.

    Floating-point values are binary64 floats (Rocq's primitive floats).
    The collaborators that live outside this file (WorkingPlane.py,
    DraftVecUtils, the Python runtime, Qt, Coin) are the fields of a
    record [Host]; every definition and theorem is parametric in it. *)

From Stdlib Require Import ZArith String List Bool Lia.
From Stdlib Require Import Floats.PrimFloat Numbers.Cyclic.Int63.Uint63.
From stdpp Require Import base option list gmap strings pretty.

Local Open Scope string_scope.

(* ===================================================================== *)
(** ** Python values *)
(* ===================================================================== *)

(** [FreeCAD.Vector]: three floats.  The source never mutates a vector in
    place (it rebinds attributes), so vectors are values here. *)
Record Vector := mkVector { vx : float; vy : float; vz : float }.

(** [FreeCAD.Vector()] *)
Definition Vector0 : Vector := mkVector 0 0 0.

(** A Python number: the tuples [(0, 0, 1)] hold ints, vectors hold floats. *)
Inductive PyNum :=
| PyInt (n : Z)
| PyFloat (f : float).

Definition Triple : Type := PyNum * PyNum * PyNum.

(** int -> float conversion, exact below 2^53 (the tool only converts the
    literals 0, 1 and -1). *)
Definition float_of_int (n : Z) : float :=
  let a := PrimFloat.of_uint63 (Uint63.of_Z (Z.abs n)) in
  if (n <? 0)%Z then PrimFloat.opp a else a.

Definition float_of_num (n : PyNum) : float :=
  match n with
  | PyInt k => float_of_int k
  | PyFloat f => f
  end.

(** [FreeCAD.Vector(x, y, z)] *)
Definition vector_of_triple (t : Triple) : Vector :=
  let '(a, b, c) := t in
  mkVector (float_of_num a) (float_of_num b) (float_of_num c).

Definition triple_of_vector (p : Vector) : Triple :=
  (PyFloat (vx p), PyFloat (vy p), PyFloat (vz p)).

Definition triple_of_ints (a b c : Z) : Triple := (PyInt a, PyInt b, PyInt c).

(** [Vector.add] and [Vector.negative] return new vectors. *)
Definition vec_add (a b : Vector) : Vector :=
  mkVector (vx a + vx b)%float (vy a + vy b)%float (vz a + vz b)%float.

Definition vec_negative (a : Vector) : Vector :=
  mkVector (- vx a)%float (- vy a)%float (- vz a)%float.

(** [Vector.multiply(k)] on a copy. *)
Definition vec_scale (k : float) (a : Vector) : Vector :=
  mkVector (vx a * k)%float (vy a * k)%float (vz a * k)%float.

(** Truth value of a float: [if o:] is [o != 0.0] (NaN is true). *)
Definition float_truthy (o : float) : bool := negb (o =? 0)%float.

(** A float whose [str] is a Python literal: [str] of NaN and of the
    infinities is [nan] and [inf], which are names, not literals. *)
Definition float_finite (o : float) : bool :=
  negb (PrimFloat.is_nan o) && negb (PrimFloat.is_infinity o).

(** [needle in hay] on strings *)
Definition str_in (needle hay : string) : bool :=
  match String.index 0 needle hay with
  | Some _ => true
  | None => false
  end.

(** [s[:n]] *)
Definition str_prefix (n : nat) (s : string) : string := String.substring 0 n s.

(** The double quote character, as it appears inside a command text. *)
Definition dquote : string := String (Ascii.ascii_of_nat 34) EmptyString.

(* ===================================================================== *)
(** ** Geometry and document objects handed over by the host *)
(* ===================================================================== *)

Record Quaternion := mkQuat { q0 : float; q1 : float; q2 : float; q3 : float }.

Record Placement := mkPlacement { Base : Vector; Rotation : Quaternion }.

Record Edge := mkEdge { edge_start : Vector; edge_end : Vector }.

Record Face := mkFace { face_normal : Vector; face_point : Vector }.

(** A picked sub-shape ([Part.Vertex], [Part.Face], [Part.Edge]). *)
Inductive SubShape :=
| ShVertex (Point : Vector)
| ShFace (f : Face)
| ShEdge (e : Edge).

Record TopoShape := mkShape { Faces : list Face; Edges : list Edge }.

(** The view provider of a document object.  [hasattr(vobj, name)] is
    [Some _]; the value is the property. *)
Record ViewObject := mkViewObject {
  AutoWorkingPlane : option bool;
  CutView : option bool;
  AutoCutView : option bool;
  RestoreView : option bool;
  ViewData : option (list float);
  RestoreState : option bool;
  VisibilityMap : option (list (string * string))
}.

Record DocObject := mkDocObject {
  Name : string;
  Label : string;
  DraftType : string;            (* Draft.getType(obj) *)
  isPartFeature : bool;          (* obj.isDerivedFrom("Part::Feature") *)
  ObjPlacement : Placement;
  Shape : TopoShape;
  ViewObj : ViewObject
}.

(** One element of [FreeCADGui.Selection.getSelectionEx()]. *)
Record SelectionObject := mkSelectionObject {
  Object : DocObject;
  HasSubObjects : bool;
  SubElementNames : list string;
  SubObjects : list SubShape
}.

Inductive CameraKind := SoOrthographicCamera | SoPerspectiveCamera.

(** The camera node of the active view. *)
Record Camera := mkCamera {
  cam_kind : CameraKind;
  cam_position : Vector;
  cam_orientation : Quaternion;
  nearDistance : float;
  farDistance : float;
  aspectRatio : float;
  focalDistance : float;
  height : float;
  heightAngle : float
}.

(* ===================================================================== *)
(** ** The working plane *)
(* ===================================================================== *)

(** [FreeCAD.DraftWorkingPlane].  The tool reads and writes [u], [v],
    [axis], [position] and [weak]; [hidden] is whatever else the object
    keeps (what [save()] stored, its document), of a type the tool never
    looks into. *)
Record WorkingPlane (Hidden : Type) := mkWorkingPlane {
  u : Vector;
  v : Vector;
  axis : Vector;
  position : Vector;
  weak : bool;
  hidden : Hidden
}.
Arguments mkWorkingPlane {Hidden}.
Arguments u {Hidden}.
Arguments v {Hidden}.
Arguments axis {Hidden}.
Arguments position {Hidden}.
Arguments weak {Hidden}.
Arguments hidden {Hidden}.

(** One history entry: the list [[p.u, p.v, p.axis, p.position]]. *)
Record Snapshot := mkSnapshot {
  s_u : Vector;          (* s[0] *)
  s_v : Vector;          (* s[1] *)
  s_axis : Vector;       (* s[2] *)
  s_position : Vector    (* s[3] *)
}.

Definition snapshot {Hidden} (p : WorkingPlane Hidden) : Snapshot :=
  mkSnapshot (u p) (v p) (axis p) (position p).

(** [p.u = s[0]; p.v = s[1]; p.axis = s[2]; p.position = s[3]] *)
Definition apply_snapshot {Hidden} (s : Snapshot) (p : WorkingPlane Hidden)
  : WorkingPlane Hidden :=
  mkWorkingPlane (s_u s) (s_v s) (s_axis s) (s_position s) (weak p) (hidden p).

Definition set_position {Hidden} (t : Vector) (p : WorkingPlane Hidden)
  : WorkingPlane Hidden :=
  mkWorkingPlane (u p) (v p) (axis p) t (weak p) (hidden p).

Definition set_weak {Hidden} (b : bool) (p : WorkingPlane Hidden)
  : WorkingPlane Hidden :=
  mkWorkingPlane (u p) (v p) (axis p) (position p) b (hidden p).

(* ===================================================================== *)
(** ** The collaborators outside this file *)
(* ===================================================================== *)

(** What the tool calls and does not define.  An aligner of the working
    plane returns the new plane together with the value the Python method
    returns (its success flag). *)
Record Host (Hidden : Type) := mkHost {
  (* Python runtime, Qt, units *)
  py_str_float : float -> string;              (* str(x), x a float *)
  py_float : string -> option float;           (* float(text); None: it raises *)
  quantity_value : string -> option float;     (* Quantity(text).Value; None: it raises *)
  quantity_user_string : float -> string;      (* Quantity(x, Length).UserString *)
  py_cos : float -> float;                     (* math.cos *)
  translate : string -> string -> string;      (* translate(context, text) *)
  ui_offset_text : string;                     (* fieldOffset of a new task panel *)
  shape_bool : TopoShape -> bool;              (* truth value of obj.Shape *)
  py_eval_bool : string -> option bool;        (* truth of an expression text; None: it raises *)
  (* DraftVecUtils and Base.Vector *)
  vec_project : Vector -> Vector -> Vector;    (* DraftVecUtils.project *)
  vec_getAngle : Vector -> Vector -> float;    (* a.getAngle(b) *)
  vec_Length : Vector -> float;                (* a.Length *)
  vec_scaleTo : Vector -> float -> Vector;     (* DraftVecUtils.scaleTo *)
  (* the 3D view *)
  getViewDirection : Camera -> Vector;
  (* WorkingPlane.py *)
  wp_setup : Camera -> WorkingPlane Hidden -> WorkingPlane Hidden;
  wp_setup_force : Camera -> WorkingPlane Hidden -> WorkingPlane Hidden;
  wp_reset : WorkingPlane Hidden -> WorkingPlane Hidden;
  wp_restore : WorkingPlane Hidden -> WorkingPlane Hidden;
  wp_alignToEdges : list Edge -> WorkingPlane Hidden -> WorkingPlane Hidden * bool;
  wp_setFromPlacement : Placement -> WorkingPlane Hidden -> WorkingPlane Hidden * bool;
  wp_alignToFace : SubShape -> float -> WorkingPlane Hidden -> WorkingPlane Hidden * bool;
  wp_alignTo3Points :
    Vector -> Vector -> Vector -> float -> WorkingPlane Hidden -> WorkingPlane Hidden * bool;
  wp_alignToSelection :
    list SelectionObject -> WorkingPlane Hidden -> WorkingPlane Hidden * bool;
  wp_basis : Vector -> Vector -> float -> WorkingPlane Hidden -> WorkingPlane Hidden;
  wp_projectPoint : WorkingPlane Hidden -> Vector -> option Vector -> Vector;
  wp_getRotationQ : WorkingPlane Hidden -> Quaternion
}.
Arguments py_str_float {Hidden}.
Arguments py_float {Hidden}.
Arguments quantity_value {Hidden}.
Arguments quantity_user_string {Hidden}.
Arguments py_cos {Hidden}.
Arguments translate {Hidden}.
Arguments ui_offset_text {Hidden}.
Arguments shape_bool {Hidden}.
Arguments py_eval_bool {Hidden}.
Arguments vec_project {Hidden}.
Arguments vec_getAngle {Hidden}.
Arguments vec_Length {Hidden}.
Arguments vec_scaleTo {Hidden}.
Arguments getViewDirection {Hidden}.
Arguments wp_setup {Hidden}.
Arguments wp_setup_force {Hidden}.
Arguments wp_reset {Hidden}.
Arguments wp_restore {Hidden}.
Arguments wp_alignToEdges {Hidden}.
Arguments wp_setFromPlacement {Hidden}.
Arguments wp_alignToFace {Hidden}.
Arguments wp_alignTo3Points {Hidden}.
Arguments wp_alignToSelection {Hidden}.
Arguments wp_basis {Hidden}.
Arguments wp_projectPoint {Hidden}.
Arguments wp_getRotationQ {Hidden}.

(* ===================================================================== *)
(** ** The state: command object, working plane, host GUI *)
(* ===================================================================== *)

(** The widgets of the task panel the tool reads or fills. *)
Record Form := mkForm {
  checkCenter : bool;
  fieldOffset : string;
  fieldGridSpacing : string;
  fieldGridMainLine : Z;
  fieldSnapRadius : Z
}.

(** The parameter group [BaseApp/Preferences/Mod/Draft]: one dictionary
    per value type. *)
Record Params := mkParams {
  p_bool : gmap string bool;
  p_int : gmap string Z;
  p_float : gmap string float
}.

(** The attribute [self.call]: never assigned, [None], or the handle that
    [addEventCallback] returned. *)
Inductive CallAttr :=
| CallUnset
| CallNone
| Callback (id : nat).

(** What [todo.delay] can be asked to run. *)
Inductive Task :=
| TaskCheckSelection.

(** Calls into the host that the tool only makes and never reads back. *)
Inductive HostCall :=
| Msg (m : string)              (* _msg(m) *)
| CloseDialog                   (* FreeCADGui.Control.closeDialog() *)
| ShowDialog                    (* FreeCADGui.Control.showDialog(taskd) *)
| ResetEdit                     (* FreeCADGui.ActiveDocument.resetEdit() *)
| ClearSelection                (* FreeCADGui.Selection.clearSelection() *)
| SetCutView (name : string)    (* vobj.CutView = True *)
| SetCameraType (t : string)    (* ActiveView.setCameraType(t) *)
| Command (text : string)       (* doCommand(text), doCommandGui(text) *)
| SetGrid                       (* Snapper.setGrid() *)
| ShowRadius.                   (* Snapper.showradius() *)

Section Data.
Context {Hidden : Type}.

Record World := mkWorld {
  (* the Draft_SelectPlane object *)
  states : list Snapshot;            (* self.states *)
  taskd : option Form;               (* self.taskd, bound by Activated together
                                        with self.view and self.wpButton *)
  call : CallAttr;                   (* self.call *)
  (* FreeCAD.DraftWorkingPlane *)
  wp : WorkingPlane Hidden;
  (* the host *)
  param : Params;                    (* self.param *)
  selection : list SelectionObject;  (* Selection.getSelectionEx() *)
  camera : Camera;                   (* ActiveView.getCameraNode() *)
  dialog : bool;                     (* a task dialog is open *)
  wpText : string;                   (* draftToolBar.wplabel text *)
  wpToolTip : string;                (* draftToolBar.wplabel tooltip *)
  callbacks : list nat;              (* event callbacks installed on the view *)
  next_callback : nat;
  itinerary : list Task;             (* tasks waiting in todo *)
  trace : list HostCall;
  snapper : bool;                    (* hasattr(FreeCADGui, "Snapper") *)
  view_alive : bool;                 (* the view of self.view still exists *)
  visibility : gmap string bool      (* Visibility of the GUI document's objects *)
}.

Definition set_states (l : list Snapshot) (w : World) : World :=
  mkWorld l (taskd w) (call w) (wp w) (param w) (selection w) (camera w)
    (dialog w) (wpText w) (wpToolTip w) (callbacks w) (next_callback w)
    (itinerary w) (trace w) (snapper w) (view_alive w)
    (visibility w).

Definition set_taskd (t : option Form) (w : World) : World :=
  mkWorld (states w) t (call w) (wp w) (param w) (selection w) (camera w)
    (dialog w) (wpText w) (wpToolTip w) (callbacks w) (next_callback w)
    (itinerary w) (trace w) (snapper w) (view_alive w)
    (visibility w).

Definition set_call (c : CallAttr) (w : World) : World :=
  mkWorld (states w) (taskd w) c (wp w) (param w) (selection w) (camera w)
    (dialog w) (wpText w) (wpToolTip w) (callbacks w) (next_callback w)
    (itinerary w) (trace w) (snapper w) (view_alive w)
    (visibility w).

Definition set_wp (p : WorkingPlane Hidden) (w : World) : World :=
  mkWorld (states w) (taskd w) (call w) p (param w) (selection w) (camera w)
    (dialog w) (wpText w) (wpToolTip w) (callbacks w) (next_callback w)
    (itinerary w) (trace w) (snapper w) (view_alive w)
    (visibility w).

Definition set_param (p : Params) (w : World) : World :=
  mkWorld (states w) (taskd w) (call w) (wp w) p (selection w) (camera w)
    (dialog w) (wpText w) (wpToolTip w) (callbacks w) (next_callback w)
    (itinerary w) (trace w) (snapper w) (view_alive w)
    (visibility w).

Definition set_selection (s : list SelectionObject) (w : World) : World :=
  mkWorld (states w) (taskd w) (call w) (wp w) (param w) s (camera w)
    (dialog w) (wpText w) (wpToolTip w) (callbacks w) (next_callback w)
    (itinerary w) (trace w) (snapper w) (view_alive w)
    (visibility w).

Definition set_camera (c : Camera) (w : World) : World :=
  mkWorld (states w) (taskd w) (call w) (wp w) (param w) (selection w) c
    (dialog w) (wpText w) (wpToolTip w) (callbacks w) (next_callback w)
    (itinerary w) (trace w) (snapper w) (view_alive w)
    (visibility w).

Definition set_dialog (b : bool) (w : World) : World :=
  mkWorld (states w) (taskd w) (call w) (wp w) (param w) (selection w) (camera w)
    b (wpText w) (wpToolTip w) (callbacks w) (next_callback w)
    (itinerary w) (trace w) (snapper w) (view_alive w)
    (visibility w).

Definition set_wpText (s : string) (w : World) : World :=
  mkWorld (states w) (taskd w) (call w) (wp w) (param w) (selection w) (camera w)
    (dialog w) s (wpToolTip w) (callbacks w) (next_callback w)
    (itinerary w) (trace w) (snapper w) (view_alive w)
    (visibility w).

Definition set_wpToolTip (s : string) (w : World) : World :=
  mkWorld (states w) (taskd w) (call w) (wp w) (param w) (selection w) (camera w)
    (dialog w) (wpText w) s (callbacks w) (next_callback w)
    (itinerary w) (trace w) (snapper w) (view_alive w)
    (visibility w).

Definition set_callbacks (l : list nat) (n : nat) (w : World) : World :=
  mkWorld (states w) (taskd w) (call w) (wp w) (param w) (selection w) (camera w)
    (dialog w) (wpText w) (wpToolTip w) l n
    (itinerary w) (trace w) (snapper w) (view_alive w)
    (visibility w).

Definition set_itinerary (l : list Task) (w : World) : World :=
  mkWorld (states w) (taskd w) (call w) (wp w) (param w) (selection w) (camera w)
    (dialog w) (wpText w) (wpToolTip w) (callbacks w) (next_callback w)
    l (trace w) (snapper w) (view_alive w)
    (visibility w).

Definition set_trace (l : list HostCall) (w : World) : World :=
  mkWorld (states w) (taskd w) (call w) (wp w) (param w) (selection w) (camera w)
    (dialog w) (wpText w) (wpToolTip w) (callbacks w) (next_callback w)
    (itinerary w) l (snapper w) (view_alive w)
    (visibility w).

End Data.
Arguments World : clear implicits.

(* ===================================================================== *)
(** ** Computations: state and Python exceptions *)
(* ===================================================================== *)

Inductive PyExn :=
| AttributeError
| ValueError
| IndexError
| ZeroDivisionError
| NameError.

Inductive Res (A : Type) :=
| Ok (a : A)
| Raise (e : PyExn).
Arguments Ok {A}.
Arguments Raise {A}.

(** A method: it runs on a state and either returns or raises; the state it
    leaves behind is there in both cases. *)
Definition M (Hidden A : Type) : Type := World Hidden -> Res A * World Hidden.

Definition ret {Hidden A} (a : A) : M Hidden A := fun w => (Ok a, w).

Definition bind {Hidden A B} (c : M Hidden A) (k : A -> M Hidden B) : M Hidden B :=
  fun w =>
    match c w with
    | (Ok a, w') => k a w'
    | (Raise e, w') => (Raise e, w')
    end.

Definition raise {Hidden A} (e : PyExn) : M Hidden A := fun w => (Raise e, w).

Definition get {Hidden} : M Hidden (World Hidden) := fun w => (Ok w, w).

Definition modify {Hidden} (f : World Hidden -> World Hidden) : M Hidden unit :=
  fun w => (Ok tt, f w).

Declare Scope py_scope.
Delimit Scope py_scope with py.
Notation "x <- c ;; k" := (bind c (fun x => k))
  (at level 100, c at next level, k at level 200, right associativity) : py_scope.
Notation "c ;; k" := (bind c (fun _ => k))
  (at level 100, k at level 200, right associativity) : py_scope.

(** [try: c  except Exception: pass] *)
Definition try_pass {Hidden} (c : M Hidden unit) : M Hidden unit :=
  fun w =>
    match c w with
    | (Ok tt, w') => (Ok tt, w')
    | (Raise _, w') => (Ok tt, w')
    end.

(** [l[i]] *)
Definition getitem {Hidden A} (l : list A) (i : nat) : M Hidden A :=
  match nth_error l i with
  | Some a => ret a
  | None => raise IndexError
  end.

(** [so.Point] *)
Definition Point_of {Hidden} (so : SubShape) : M Hidden Vector :=
  match so with
  | ShVertex p => ret p
  | _ => raise AttributeError
  end.

Definition log {Hidden} (c : HostCall) : M Hidden unit :=
  modify (fun w => set_trace (trace w ++ [c]) w).

(* ===================================================================== *)
(** ** Draft_SelectPlane *)
(* ===================================================================== *)

(** [ParamGet(...)]: typed reads with a default, typed writes. *)
Definition GetBool (name : string) (d : bool) (p : Params) : bool :=
  default d (p_bool p !! name).
Definition GetInt (name : string) (d : Z) (p : Params) : Z :=
  default d (p_int p !! name).
Definition GetFloat (name : string) (d : float) (p : Params) : float :=
  default d (p_float p !! name).
Definition SetBool (name : string) (b : bool) (p : Params) : Params :=
  mkParams (<[name := b]> (p_bool p)) (p_int p) (p_float p).
Definition SetInt (name : string) (i : Z) (p : Params) : Params :=
  mkParams (p_bool p) (<[name := i]> (p_int p)) (p_float p).
Definition SetFloat (name : string) (x : float) (p : Params) : Params :=
  mkParams (p_bool p) (p_int p) (<[name := x]> (p_float p)).

(** The argument of [display]: a label or a vector. *)
Inductive DisplayArg :=
| ArgStr (s : string)
| ArgVector (a : Vector).

(** The command texts handed to the interpreter. *)
Inductive GuiCommand :=
| CmdAlignToPointAndAxis (point dir : Triple) (offset : float)
| CmdSetupForce
| CmdReset
| CmdSetGrid
| CmdSetVisibility (k val : string).

Definition triple_finite (t : Triple) : bool :=
  let fin n := match n with PyInt _ => true | PyFloat f => float_finite f end in
  let '(a, b, c) := t in fin a && fin b && fin c.

(** The binary64 value of the literal [0.0001]. *)
Definition angle_epsilon : float := 0x1.a36e2eb1c432dp-14%float.

Section Tool.
Context {Hidden : Type} (H : Host Hidden).
Local Open Scope py_scope.

Local Abbreviation M := (M Hidden).
Local Abbreviation World := (World Hidden).
Local Abbreviation WorkingPlane := (WorkingPlane Hidden).

(** [str(x)] *)
Definition py_str (n : PyNum) : string :=
  match n with
  | PyInt k => pretty k
  | PyFloat f => py_str_float H f
  end.

(** [self.ac], set in [__init__] *)
Definition ac : string := "FreeCAD.DraftWorkingPlane.alignToPointAndAxis".

Definition tostr (t : Triple) : string :=
  let '(a, b, c) := t in
  let string := "FreeCAD.Vector(" in
  let string := string +:+ py_str a +:+ ", " in
  let string := string +:+ py_str b +:+ ", " in
  let string := string +:+ py_str c +:+ ")" in
  string.

Definition command_text (c : GuiCommand) : string :=
  match c with
  | CmdAlignToPointAndAxis point dir offset =>
      ac +:+ "(" +:+ tostr point +:+ ", " +:+ tostr dir +:+ ", "
         +:+ py_str (PyFloat offset) +:+ ")"
  | CmdSetupForce => "FreeCAD.DraftWorkingPlane.setup(force=True)"
  | CmdReset => "FreeCAD.DraftWorkingPlane.reset()"
  | CmdSetGrid => "FreeCADGui.Snapper.setGrid()"
  | CmdSetVisibility k val =>
      "FreeCADGui.ActiveDocument.getObject(" +:+ dquote +:+ k +:+ dquote
         +:+ ").Visibility = " +:+ val
  end.

(** Modelled from the spec: [alignToPointAndAxis(point, axis, offset)] of
    WorkingPlane.py, which is not among the sources.  Section 4.1,
    Canonical(direction): the plane's normal is the direction and its
    origin is the given point "offset along direction by offset"; the basis
    is "an arbitrary-but-deterministic orthonormal completion", which is
    left to the host ([wp_basis]) together with the fields the spec does
    not mention. *)
Definition alignToPointAndAxis (point dir : Vector) (offset : float)
  (p : WorkingPlane) : WorkingPlane :=
  let q := wp_basis H point dir offset p in
  mkWorkingPlane (u q) (v q) dir (vec_add point (vec_scale offset dir))
    (weak q) (hidden q).

(** [FreeCADGui.Snapper.setGrid()]; without a Snapper the attribute lookup
    fails. *)
Definition Snapper_setGrid : M unit :=
  w <- get;;
  if snapper w then log SetGrid else raise AttributeError.

Definition Snapper_showradius : M unit :=
  w <- get;;
  if snapper w then log ShowRadius else raise AttributeError.

(** What running a command text does.  [str] of a float that is not finite
    is a name the interpreter does not know. *)
Definition run_command (c : GuiCommand) : M unit :=
  match c with
  | CmdAlignToPointAndAxis point dir offset =>
      if triple_finite point && triple_finite dir && float_finite offset then
        modify (fun w =>
          set_wp (alignToPointAndAxis (vector_of_triple point)
                    (vector_of_triple dir) offset (wp w)) w)
      else raise NameError
  | CmdSetupForce =>
      modify (fun w => set_wp (wp_setup_force H (camera w) (wp w)) w)
  | CmdReset =>
      modify (fun w => set_wp (wp_reset H (wp w)) w)
  | CmdSetGrid => Snapper_setGrid
  | CmdSetVisibility k val =>
      match py_eval_bool H val with
      | Some b =>
          modify (fun w =>
            mkWorld (states w) (taskd w) (call w) (wp w) (param w) (selection w)
              (camera w) (dialog w) (wpText w) (wpToolTip w) (callbacks w)
              (next_callback w) (itinerary w) (trace w) (snapper w)
              (view_alive w) (<[k := b]> (visibility w)))
      | None => raise NameError
      end
  end.

(** [FreeCADGui.doCommandGui(text)] and [FreeCADGui.doCommand(text)] *)
Definition doCommandGui (c : GuiCommand) : M unit :=
  log (Command (command_text c));;
  run_command c.

Definition closeDialog : M unit :=
  modify (set_dialog false);; log CloseDialog.

Definition showDialog : M unit :=
  modify (set_dialog true);; log ShowDialog.

(** [self.taskd.form]; before any activation the attribute does not exist. *)
Definition the_form : M Form :=
  w <- get;;
  match taskd w with
  | Some form => ret form
  | None => raise AttributeError
  end.

(** Run an aligner of the working plane; the result is what the Python
    method returns. *)
Definition align (f : WorkingPlane -> WorkingPlane * bool) : M bool :=
  w <- get;;
  let r := f (wp w) in
  modify (set_wp (fst r));;
  ret (snd r).

Definition getOffset : M float :=
  form <- the_form;;
  match py_float H (fieldOffset form) with
  | Some o => ret o
  | None =>
      match quantity_value H (fieldOffset form) with
      | Some o => ret o
      | None => raise ValueError
      end
  end.

Definition getCenterPoint (x y z : Z) : M Vector :=
  form <- the_form;;
  if negb (checkCenter form) then ret Vector0 else
  w <- get;;
  let v_ := vector_of_triple (triple_of_ints x y z) in
  let cam1 := cam_position (camera w) in
  let cam2 := getViewDirection H (camera w) in
  let vcam1 := vec_project H cam1 v_ in
  let a := vec_getAngle H vcam1 cam2 in
  if (a <? angle_epsilon)%float then ret Vector0 else
  let d := vec_Length H vcam1 in
  let c := py_cos H a in
  if (c =? 0)%float then raise ZeroDivisionError else
  let L := (d / c)%float in
  let vcam2 := vec_scaleTo H cam2 L in
  let cp := vec_add cam1 vcam2 in
  ret cp.

Definition finish : M bool :=
  (* Store values *)
  form <- the_form;;
  modify (fun w => set_param (SetBool "CenterPlaneOnView" (checkCenter form) (param w)) w);;
  (* Terminate coin callbacks *)
  w <- get;;
  match call w with
  | CallUnset => raise AttributeError
  | CallNone => ret tt
  | Callback id =>
      (* removeEventCallback raises RuntimeError on a deleted view; the
         source passes *)
      (if view_alive w
       then modify (fun w => set_callbacks (filter (fun i => i ≠ id) (callbacks w))
                                           (next_callback w) w)
       else ret tt);;
      modify (set_call CallNone)
  end;;
  (* Reset everything else *)
  closeDialog;;
  modify (fun w => set_wp (wp_restore H (wp w)) w);;
  log ResetEdit;;
  ret true.

Definition reject : M bool :=
  finish;;
  ret true.

Definition display (arg : DisplayArg) : M unit :=
  o <- getOffset;;
  let suffix :=
    if float_truthy o then
      if (0 <? o)%float then " +O" else " -O"
    else "" in
  w <- get;;
  let _vdir := axis (wp w) in
  let vdir := "(" in
  let vdir := vdir +:+ str_prefix 4 (py_str_float H (vx _vdir)) +:+ "," in
  let vdir := vdir +:+ str_prefix 4 (py_str_float H (vy _vdir)) +:+ "," in
  let vdir := vdir +:+ str_prefix 4 (py_str_float H (vz _vdir)) in
  let vdir := vdir +:+ ")" in
  let vdir := " " +:+ translate H "draft" "Dir" +:+ ": " +:+ vdir in
  match arg with
  | ArgStr s =>
      modify (set_wpText (s +:+ suffix));;
      let o_ :=
        if negb (o =? 0)%float
        then " " +:+ translate H "draft" "Offset" +:+ ": " +:+ py_str_float H o
        else "" in
      let _tool := translate H "draft" "Current working plane" +:+ ": " in
      w <- get;;
      let _tool := _tool +:+ wpText w +:+ o_ +:+ vdir in
      modify (set_wpToolTip _tool)
  | ArgVector a =>
      let plv := "(" in
      let plv := plv +:+ str_prefix 6 (py_str_float H (vx a)) +:+ "," in
      let plv := plv +:+ str_prefix 6 (py_str_float H (vy a)) +:+ "," in
      let plv := plv +:+ str_prefix 6 (py_str_float H (vz a)) in
      let plv := plv +:+ ")" in
      modify (set_wpText (translate H "draft" "Custom"));;
      let _tool := translate H "draft" "Current working plane" in
      let _tool := _tool +:+ ": " +:+ plv +:+ vdir in
      modify (set_wpToolTip _tool)
  end;;
  modify (fun w => set_states (states w ++ [snapshot (wp w)]) w);;
  doCommandGui CmdSetGrid.

(** [self.display(FreeCAD.DraftWorkingPlane.axis)] *)
Definition display_axis : M unit :=
  w <- get;;
  display (ArgVector (axis (wp w))).

(** The camera part of the proxy branch of [handle]: with [RestoreView]
    set and at least 12 values in [ViewData], the camera type and fields
    are set from the values [d[0]] .. [d[11]] ([d[12]], when it is the
    13th and last, selects the perspective camera). *)
Definition restore_view (vobj : ViewObject) : M unit :=
  match RestoreView vobj with
  | Some true =>
      match ViewData vobj with
      | Some (d0 :: d1 :: d2 :: d3 :: d4 :: d5 :: d6 :: d7 :: d8 :: d9 :: d10
                 :: d11 :: rest) =>
          let camtype :=
            match rest with
            | [d12] => if (d12 =? 1)%float then "perspective" else "orthographic"
            | _ => "orthographic"
            end in
          w <- get;;
          match cam_kind (camera w) with
          | SoOrthographicCamera =>
              if (camtype =? "perspective")%string then
                log (SetCameraType "Perspective");;
                modify (fun w =>
                  let c := camera w in
                  set_camera (mkCamera SoPerspectiveCamera (cam_position c)
                    (cam_orientation c) (nearDistance c) (farDistance c)
                    (aspectRatio c) (focalDistance c) (height c) (heightAngle c)) w)
              else ret tt
          | SoPerspectiveCamera =>
              if (camtype =? "orthographic")%string then
                log (SetCameraType "Orthographic");;
                modify (fun w =>
                  let c := camera w in
                  set_camera (mkCamera SoOrthographicCamera (cam_position c)
                    (cam_orientation c) (nearDistance c) (farDistance c)
                    (aspectRatio c) (focalDistance c) (height c) (heightAngle c)) w)
              else ret tt
          end;;
          modify (fun w =>
            let c := camera w in
            set_camera (mkCamera (cam_kind c) (mkVector d0 d1 d2)
              (mkQuat d3 d4 d5 d6) d7 d8 d9 d10
              (if (camtype =? "orthographic")%string then d11 else height c)
              (if (camtype =? "orthographic")%string then heightAngle c else d11)) w)
      | _ => ret tt
      end
  | _ => ret tt
  end.

(** The loop over [VisibilityMap.items()]. *)
Fixpoint restore_visibility (items : list (string * string)) : M unit :=
  match items with
  | [] => ret tt
  | (k, val) :: rest =>
      w <- get;;
      match visibility w !! k with            (* o = getObject(k); if o: *)
      | Some vis =>
          if negb (Bool.eqb vis (val =? "True")%string)
          then doCommandGui (CmdSetVisibility k val)
          else ret tt
      | None => ret tt
      end;;
      restore_visibility rest
  end.

Definition restore_state (vobj : ViewObject) : M unit :=
  match RestoreState vobj with
  | Some true =>
      match VisibilityMap vobj with
      | Some (item :: items) => restore_visibility (item :: items)
      | _ => ret tt
      end
  | _ => ret tt
  end.

(** [self.wpButton.setText(sel.Object.Label)] and the tooltip after it. *)
Definition label_button (lbl : string) : M unit :=
  modify (set_wpText lbl);;
  w <- get;;
  modify (set_wpToolTip
            (translate H "draft" "Current working plane" +:+ ": " +:+ wpText w)).

Definition isVertex (so : SubShape) : bool :=
  match so with
  | ShVertex _ => true
  | _ => false
  end.

(** [[so for s in sel for so in s.SubObjects if isinstance(so, Part.Vertex)]] *)
Definition picked_vertices (sel : list SelectionObject) : list SubShape :=
  flat_map (fun s => List.filter isVertex (SubObjects s)) sel.

Definition handle : M bool :=
  w <- get;;
  match selection w with
  | [sel] =>
      let obj := Object sel in
      let vobj := ViewObj obj in
      if (DraftType obj =? "Axis")%string then
        align (wp_alignToEdges H (Edges (Shape obj)));;
        display_axis;;
        ret true
      else if (DraftType obj =? "WorkingPlaneProxy")%string
              || (DraftType obj =? "BuildingPart")%string then
        align (wp_setFromPlacement H (ObjPlacement obj));;
        modify (fun w => set_wp (set_weak false (wp w)) w);;
        match AutoWorkingPlane vobj with
        | Some true => modify (fun w => set_wp (set_weak true (wp w)) w)
        | _ => ret tt
        end;;
        match CutView vobj, AutoCutView vobj with
        | Some _, Some true => log (SetCutView (Name obj))
        | _, _ => ret tt
        end;;
        restore_view vobj;;
        restore_state vobj;;
        display_axis;;
        label_button (Label obj);;
        ret true
      else if (DraftType obj =? "SectionPlane")%string then
        align (wp_setFromPlacement H (ObjPlacement obj));;
        modify (fun w => set_wp (set_weak false (wp w)) w);;
        display_axis;;
        label_button (Label obj);;
        ret true
      else if HasSubObjects sel then
        match SubElementNames sel with
        | [n0] =>
            if str_in "Face" n0 then
              so <- getitem (SubObjects sel) 0;;
              o <- getOffset;;
              align (wp_alignToFace H so o);;
              display_axis;;
              ret true
            else if (n0 =? "Plane")%string then
              align (wp_setFromPlacement H (ObjPlacement obj));;
              display_axis;;
              ret true
            else ret false
        | [n0; n1; n2] =>
            if str_in "Vertex" n0 && str_in "Vertex" n1 && str_in "Vertex" n2 then
              so0 <- getitem (SubObjects sel) 0;;
              p0 <- Point_of so0;;
              so1 <- getitem (SubObjects sel) 1;;
              p1 <- Point_of so1;;
              so2 <- getitem (SubObjects sel) 2;;
              p2 <- Point_of so2;;
              o <- getOffset;;
              align (wp_alignTo3Points H p0 p1 p2 o);;
              display_axis;;
              ret true
            else ret false
        | _ => ret false
        end
      else if isPartFeature obj then
        if shape_bool H (Shape obj) then
          match Faces (Shape obj) with
          | [f] =>
              o <- getOffset;;
              align (wp_alignToFace H (ShFace f) o);;
              display_axis;;
              ret true
          | _ => ret false
          end
        else ret false
      else ret false
  | [] => ret false
  | sel =>
      match picked_vertices sel with
      | [so0; so1; so2] =>
          p0 <- Point_of so0;;
          p1 <- Point_of so1;;
          p2 <- Point_of so2;;
          o <- getOffset;;
          align (wp_alignTo3Points H p0 p1 p2 o);;
          display_axis;;
          ret true
      | _ => ret false
      end
  end.

Definition checkSelection : M unit :=
  r <- handle;;
  if r then finish;; ret tt else ret tt.

(** Modelled from the spec: [todo.delay(f, arg)] of draftutils/todo.py,
    which is not among the sources.  Section 5: the call is deferred "to
    the next iteration of the host's event queue (a one-step delay)"; the
    task waits in the itinerary until the host runs [doTasks]. *)
Definition todo_delay (t : Task) : M unit :=
  modify (fun w => set_itinerary (itinerary w ++ [t]) w).

Definition Activated : M unit :=
  (* Reset variables *)
  modify (fun w => set_wp (wp_setup H (camera w) (wp w)) w);;
  (* Write current WP if states are empty *)
  w <- get;;
  match states w with
  | [] => modify (fun w => set_states (states w ++ [snapshot (wp w)]) w)
  | _ => ret tt
  end;;
  log (Msg (translate H "draft"
              "Pick a face, 3 vertices or a WP Proxy to define the drawing plane"));;
  (* Create task panel, fill values *)
  closeDialog;;
  modify (fun w =>
    set_taskd (Some (mkForm
      (GetBool "CenterPlaneOnView" false (param w))
      (ui_offset_text H)
      (quantity_user_string H (GetFloat "gridSpacing" 1 (param w)))
      (GetInt "gridEvery" 10 (param w))
      (GetInt "snapRange" 8 (param w)))) w);;
  (* Try to find a WP from the current selection *)
  r <- handle;;
  if r then ret tt else
  (* Try another method *)
  w <- get;;
  ok <- align (wp_alignToSelection H (selection w));;
  if ok then
    modify (set_selection []);; log ClearSelection;;
    display_axis;;
    finish;;
    ret tt
  else
    (* Execute the actual task panel *)
    showDialog;;
    modify (fun w =>
      set_call (Callback (next_callback w))
        (set_callbacks (callbacks w ++ [next_callback w]) (S (next_callback w)) w)).

(** The argument of a view callback: the dictionary of a Coin event. *)
Inductive SoEvent :=
| SoKeyboardEvent (Key State : string)
| SoMouseButtonEvent (State Button : string)
| SoOtherEvent (Type_ : string).

Definition action (arg : SoEvent) : M unit :=
  match arg with
  | SoKeyboardEvent Key _ =>
      if (Key =? "ESCAPE")%string then finish;; ret tt else ret tt
  | SoMouseButtonEvent State Button =>
      if (State =? "DOWN")%string && (Button =? "BUTTON1")%string then
        (* Coin detection happens before the selection got a chance of
           being updated, so we must delay *)
        todo_delay TaskCheckSelection
      else ret tt
  | SoOtherEvent _ => ret tt
  end.

Definition run_task (t : Task) : M unit :=
  match t with
  | TaskCheckSelection => checkSelection
  end.

(** Modelled from the spec: the next iteration of the host's event queue
    (todo.py's [doTasks]) runs the waiting tasks in order and empties the
    itinerary; section 7: errors are absorbed, none goes past the queue. *)
Definition doTasks : M unit :=
  w <- get;;
  modify (set_itinerary []);;
  fold_right (fun t k => try_pass (run_task t);; k) (ret tt) (itinerary w).

(** The three canonical buttons share this text of the source, with the
    direction and the label as the only differences. *)
Definition canonical (x y z : Z) (name : string) : M unit :=
  offset <- getOffset;;
  cp <- getCenterPoint x y z;;
  let _cmd := CmdAlignToPointAndAxis (triple_of_vector cp) (triple_of_ints x y z)
                offset in
  doCommandGui _cmd;;
  display (ArgStr name);;
  finish;;
  ret tt.

Definition onClickTop : M unit := canonical 0 0 1 "Top".
Definition onClickFront : M unit := canonical 0 (-1) 0 "Front".
Definition onClickSide : M unit := canonical 1 0 0 "Side".

Definition onClickAlign : M unit :=
  doCommandGui CmdSetupForce;;
  _ <- the_form;;                                  (* self.view *)
  w <- get;;
  let d := vec_negative (getViewDirection H (camera w)) in
  display (ArgVector d);;
  finish;;
  ret tt.

Definition onClickAuto : M unit :=
  doCommandGui CmdReset;;
  display (ArgStr "Auto");;
  finish;;
  ret tt.

Definition onClickMove : M unit :=
  w <- get;;
  match selection w with
  | [] =>
      (* move the WP to the center of the current view *)
      let p := cam_position (camera w) in
      let d := getViewDirection H (camera w) in
      let pp := wp_projectPoint H (wp w) p (Some d) in
      modify (fun w => set_wp (set_position pp (wp w)) w);;
      display (ArgVector pp);;
      finish;;
      ret tt
  | sel =>
      match picked_vertices sel with
      | [so] =>
          target <- Point_of so;;
          modify (fun w => set_wp (set_position target (wp w)) w);;
          display (ArgVector target);;
          finish;;
          ret tt
      | _ => ret tt
      end
  end.

Definition onClickCenter : M unit :=
  w <- get;;
  let c := camera w in
  let r := wp_getRotationQ H (wp w) in
  (* calculate delta *)
  let p := cam_position c in
  let pp := wp_projectPoint H (wp w) p None in
  let delta := vec_negative pp in                 (* to bring it above the (0,0) point *)
  let np := vec_add p delta in
  modify (set_camera (mkCamera (cam_kind c) np r (nearDistance c) (farDistance c)
                        (aspectRatio c) (focalDistance c) (height c) (heightAngle c)));;
  finish;;
  ret tt.

Definition onClickPrevious : M unit :=
  w <- get;;
  if (1 <? length (states w))%nat then
    modify (set_states (removelast (states w)));;  (* discard the last one *)
    w <- get;;
    match last (states w) with                     (* s = self.states[-1] *)
    | Some s => modify (fun w => set_wp (apply_snapshot s (wp w)) w)
    | None => raise IndexError
    end;;
    Snapper_setGrid;;
    finish;;
    ret tt
  else ret tt.

Definition onSetGridSize (text : string) : M unit :=
  match quantity_value H text with
  | None => ret tt
  | Some q =>
      modify (fun w => set_param (SetFloat "gridSpacing" q (param w)) w);;
      w <- get;;
      if snapper w then Snapper_setGrid else ret tt
  end.

Definition onSetMainline (i : Z) : M unit :=
  if (1 <? i)%Z then
    modify (fun w => set_param (SetInt "gridEvery" i (param w)) w);;
    w <- get;;
    if snapper w then Snapper_setGrid else ret tt
  else ret tt.

Definition onSetSnapRadius (i : Z) : M unit :=
  modify (fun w => set_param (SetInt "snapRange" i (param w)) w);;
  w <- get;;
  if snapper w then Snapper_showradius else ret tt.

(** *** The session as the host drives it *)

(** What can happen to the command: the host calls [Activated], a slot
    connected in [Activated], [reject], the view callback or the task
    queue; the user changes the selection or edits the task panel. *)
Inductive Event :=
| EvActivated
| EvClickTop
| EvClickFront
| EvClickSide
| EvClickAlign
| EvClickAuto
| EvClickMove
| EvClickCenter
| EvClickPrevious
| EvSetGridSize (text : string)
| EvSetMainline (i : Z)
| EvSetSnapRadius (i : Z)
| EvReject
| EvSoEvent (arg : SoEvent)
| EvDoTasks
| EvSelect (sel : list SelectionObject)
| EvEditOffset (text : string)
| EvToggleCenter (b : bool).

Definition edit_form (f : Form -> Form) : M unit :=
  modify (fun w => set_taskd (option_map f (taskd w)) w).

Definition fire (e : Event) : M unit :=
  match e with
  | EvActivated => Activated
  | EvClickTop => onClickTop
  | EvClickFront => onClickFront
  | EvClickSide => onClickSide
  | EvClickAlign => onClickAlign
  | EvClickAuto => onClickAuto
  | EvClickMove => onClickMove
  | EvClickCenter => onClickCenter
  | EvClickPrevious => onClickPrevious
  | EvSetGridSize text => onSetGridSize text
  | EvSetMainline i => onSetMainline i
  | EvSetSnapRadius i => onSetSnapRadius i
  | EvReject => reject;; ret tt
  | EvSoEvent arg => action arg
  | EvDoTasks => doTasks
  | EvSelect sel => modify (set_selection sel)
  | EvEditOffset text =>
      edit_form (fun f => mkForm (checkCenter f) text (fieldGridSpacing f)
                            (fieldGridMainLine f) (fieldSnapRadius f))
  | EvToggleCenter b =>
      edit_form (fun f => mkForm b (fieldOffset f) (fieldGridSpacing f)
                            (fieldGridMainLine f) (fieldSnapRadius f))
  end.

(** One turn of the host's event loop: the state the event leaves, whether
    the slot returned or raised. *)
Definition step (e : Event) (w : World) : World := snd (fire e w).

Definition run (evs : list Event) (w : World) : World :=
  fold_left (fun w e => step e w) evs w.

End Tool.

(* ===================================================================== *)
(** ** A sample host *)
(* ===================================================================== *)

(** Enough of the collaborators to run the tool on concrete inputs: numbers
    and vectors along the coordinate axes, a working plane that stores
    nothing ([Hidden] is [unit], so [restore()] finds nothing to restore),
    no translation loaded.  Each function says on which inputs it is the
    real one. *)
Module Sample.

(** The integer a float stands for, when it is one. *)
Definition int_of_float (x : float) : option Z :=
  if PrimFloat.is_nan x || PrimFloat.is_infinity x then None
  else if PrimFloat.is_zero x then Some 0%Z
  else
    let '(m, e) := PrimFloat.frshiftexp (PrimFloat.abs x) in
    let mant := Uint63.to_Z (PrimFloat.normfr_mantissa m) in
    let k := (Uint63.to_Z e - 2101 - 53)%Z in     (* 2101: the exponent shift *)
    let sgn := if PrimFloat.get_sign x then (-1)%Z else 1%Z in
    if (0 <=? k)%Z then Some (sgn * (mant * 2 ^ k))%Z
    else if (mant mod 2 ^ (- k) =? 0)%Z then Some (sgn * (mant / 2 ^ (- k)))%Z
    else None.

(** [str(x)] on the integer-valued floats below 10^16 (digits, then [.0]);
    [nan] stands for every other float. *)
Definition str_float (x : float) : string :=
  match int_of_float x with
  | Some n =>
      if (Z.abs n <? 10 ^ 16)%Z then
        (if PrimFloat.get_sign x then "-" else "") +:+ pretty (Z.abs n) +:+ ".0"
      else "nan"
  | None => "nan"
  end.

Fixpoint digits_value (s : string) (acc : Z) : option Z :=
  match s with
  | EmptyString => Some acc
  | String c rest =>
      let n := Z.of_nat (Ascii.nat_of_ascii c) in
      if (48 <=? n)%Z && (n <=? 57)%Z then digits_value rest (10 * acc + (n - 48))%Z
      else None
  end.

(** [float(text)] on decimal integers with an optional minus sign. *)
Definition parse_float (text : string) : option float :=
  match text with
  | EmptyString => None
  | String c (String d r) =>
      if (Ascii.nat_of_ascii c =? 45)%nat                       (* a minus sign *)
      then option_map (fun n => float_of_int (- n)) (digits_value (String d r) 0)
      else option_map float_of_int (digits_value text 0)
  | _ => option_map float_of_int (digits_value text 0)
  end.

(** [Quantity(text).Value] on a decimal integer followed by [ mm]. *)
Definition parse_quantity (text : string) : option float :=
  let n := String.length text in
  if (3 <? n)%nat && (String.substring (n - 3) 3 text =? " mm")%string
  then parse_float (String.substring 0 (n - 3) text)
  else None.

Definition dot (a b : Vector) : float :=
  (vx a * vx b + vy a * vy b + vz a * vz b)%float.

Definition cross (a b : Vector) : Vector :=
  mkVector (vy a * vz b - vz a * vy b)%float
           (vz a * vx b - vx a * vz b)%float
           (vx a * vy b - vy a * vx b)%float.

Definition sub (a b : Vector) : Vector := vec_add a (vec_negative b).

Definition norm (a : Vector) : float := PrimFloat.sqrt (dot a a).

Definition is_null (a : Vector) : bool :=
  PrimFloat.is_zero (vx a) && PrimFloat.is_zero (vy a) && PrimFloat.is_zero (vz a).

(** [DraftVecUtils.project(a, b)]: the component of [a] along [b]. *)
Definition project (a b : Vector) : Vector :=
  if PrimFloat.is_zero (dot b b) then Vector0
  else vec_scale (dot a b / dot b b)%float b.

Definition scaleTo (a : Vector) (l : float) : Vector :=
  if PrimFloat.is_zero (norm a) then a else vec_scale (l / norm a)%float a.

Definition half_pi : float := 0x1.921fb54442d18p+0%float.

(** [a.getAngle(b)] for parallel (0), opposite (pi) and perpendicular
    (pi/2) vectors; 1 stands for every other angle. *)
Definition getAngle (a b : Vector) : float :=
  if is_null (cross a b) then
    (if (0 <? dot a b)%float then 0%float else (2 * half_pi)%float)
  else if PrimFloat.is_zero (dot a b) then half_pi
  else 1%float.

(** [math.cos] at 0, pi/2 and pi; one half stands for every other value. *)
Definition cos (a : float) : float :=
  if PrimFloat.is_zero a then 1%float
  else if (a =? half_pi)%float then 0x1.1a62633145c07p-54%float
  else if (a =? 2 * half_pi)%float then (-1)%float
  else 0.5%float.

(** A camera looking down the Z axis. *)
Definition view_direction (_ : Camera) : Vector := mkVector 0 0 (-1).

Definition WP : Type := WorkingPlane unit.

Definition with_axis (a pos : Vector) (p : WP) : WP :=
  mkWorkingPlane (u p) (v p) a pos (weak p) (hidden p).

(** [alignToFace]: a face gives its normal and a point; anything else is
    not a face and the plane stays. *)
Definition alignToFace (s : SubShape) (o : float) (p : WP) : WP * bool :=
  match s with
  | ShFace f =>
      (with_axis (face_normal f) (vec_add (face_point f) (vec_scale o (face_normal f))) p,
       true)
  | _ => (p, false)
  end.

(** [alignTo3Points]: three points on a line span no plane; the method
    reports failure and the plane stays (spec 4.1, DegenerateGeometry). *)
Definition alignTo3Points (p0 p1 p2 : Vector) (o : float) (p : WP) : WP * bool :=
  let n := cross (sub p1 p0) (sub p2 p0) in
  if is_null n then (p, false)
  else
    let a := vec_scale (1 / norm n)%float n in
    (with_axis a (vec_add p0 (vec_scale o a)) p, true).

Definition setFromPlacement (pl : Placement) (p : WP) : WP * bool :=
  (with_axis (axis p) (Base pl) p, true).

Definition host : Host unit :=
  {| py_str_float := str_float;
     py_float := parse_float;
     quantity_value := parse_quantity;
     quantity_user_string := fun x => str_float x +:+ " mm";
     py_cos := cos;
     translate := fun _ text => text;
     ui_offset_text := "0";
     shape_bool := fun _ => true;
     py_eval_bool := fun t =>
       if (t =? "True")%string then Some true
       else if (t =? "False")%string then Some false else None;
     vec_project := project;
     vec_getAngle := getAngle;
     vec_Length := norm;
     vec_scaleTo := scaleTo;
     getViewDirection := view_direction;
     wp_setup := fun _ p => p;
     wp_setup_force := fun c p => with_axis (vec_negative (view_direction c)) Vector0 p;
     wp_reset := fun p => with_axis (mkVector 0 0 1) Vector0 p;
     wp_restore := fun p => p;
     wp_alignToEdges := fun _ p => (p, false);
     wp_setFromPlacement := setFromPlacement;
     wp_alignToFace := alignToFace;
     wp_alignTo3Points := alignTo3Points;
     wp_alignToSelection := fun _ p => (p, false);
     wp_basis := fun _ _ _ p => p;
     wp_projectPoint := fun _ pt _ => pt;
     wp_getRotationQ := fun _ => mkQuat 0 0 0 1 |}.

Definition X : Vector := mkVector 1 0 0.
Definition Y : Vector := mkVector 0 1 0.
Definition Z_ : Vector := mkVector 0 0 1.

Definition camera0 : Camera :=
  mkCamera SoOrthographicCamera (mkVector 0 0 10) (mkQuat 0 0 0 1) 1 100 1 10 20 0.

(** The state before the command is first used: nothing in the history, no
    task panel, [self.call] never assigned; the working plane is the XY
    plane through the origin. *)
Definition world0 : World unit :=
  {| states := [];
     taskd := None;
     call := CallUnset;
     wp := mkWorkingPlane X Y Z_ Vector0 false tt;
     param := mkParams ∅ ∅ ∅;
     selection := [];
     camera := camera0;
     dialog := false;
     wpText := "";
     wpToolTip := "";
     callbacks := [];
     next_callback := 0;
     itinerary := [];
     trace := [];
     snapper := true;
     view_alive := true;
     visibility := ∅ |}.

End Sample.

(* ===================================================================== *)
(** ** What a computation leaves alone *)
(* ===================================================================== *)

Section Frame.
Context {Hidden : Type}.
Local Open Scope py_scope.

(** [preserves obs c]: [c] leaves the observation [obs] of the state as it
    found it, whether it returns or raises. *)
Definition preserves {X A} (obs : World Hidden -> X) (c : M Hidden A) : Prop :=
  forall w, obs (snd (c w)) = obs w.

Lemma preserves_ret {X A} (obs : World Hidden -> X) (a : A) :
  preserves obs (ret a).
Proof. intros w. reflexivity. Qed.

Lemma preserves_raise {X A} (obs : World Hidden -> X) (e : PyExn) :
  preserves obs (@raise Hidden A e).
Proof. intros w. reflexivity. Qed.

Lemma preserves_get {X} (obs : World Hidden -> X) : preserves obs get.
Proof. intros w. reflexivity. Qed.

Lemma preserves_modify {X} (obs : World Hidden -> X) (f : World Hidden -> World Hidden) :
  (forall w, obs (f w) = obs w) -> preserves obs (modify f).
Proof. intros Hf w. apply Hf. Qed.

Lemma preserves_bind {X A B} (obs : World Hidden -> X)
  (c : M Hidden A) (k : A -> M Hidden B) :
  preserves obs c -> (forall a, preserves obs (k a)) -> preserves obs (bind c k).
Proof.
  intros Hc Hk w. unfold bind. specialize (Hc w).
  destruct (c w) as [[a|e] w1]; simpl in *.
  - rewrite Hk. exact Hc.
  - exact Hc.
Qed.

Lemma preserves_try_pass {X} (obs : World Hidden -> X) (c : M Hidden unit) :
  preserves obs c -> preserves obs (try_pass c).
Proof.
  intros Hc w. unfold try_pass. specialize (Hc w).
  destruct (c w) as [[[]|e] w1]; exact Hc.
Qed.

(** The first steps of a computation, run by hand. *)
Lemma bind_get {A} (k : World Hidden -> M Hidden A) (w : World Hidden) :
  bind get k w = k w w.
Proof. reflexivity. Qed.

Lemma bind_modify {A} (f : World Hidden -> World Hidden) (k : unit -> M Hidden A)
  (w : World Hidden) :
  bind (modify f) k w = k tt (f w).
Proof. reflexivity. Qed.

Lemma bind_ret {A B} (a : A) (k : A -> M Hidden B) (w : World Hidden) :
  bind (ret a) k w = k a w.
Proof. reflexivity. Qed.

Lemma bind_Ok {A B} (c : M Hidden A) (k : A -> M Hidden B) (w w' : World Hidden) (a : A) :
  c w = (Ok a, w') -> bind c k w = k a w'.
Proof. intros E. unfold bind. rewrite E. reflexivity. Qed.

Lemma bind_Raise {A B} (c : M Hidden A) (k : A -> M Hidden B) (w w' : World Hidden)
  (e : PyExn) :
  c w = (Raise e, w') -> bind c k w = (Raise e, w').
Proof. intros E. unfold bind. rewrite E. reflexivity. Qed.

End Frame.

Create HintDb preserves.

#[export] Hint Resolve preserves_ret preserves_raise preserves_get : preserves.

Ltac head_of c :=
  match c with
  | ?f _ => head_of f
  | _ => c
  end.

(** Walk down a computation, opening the methods on the way; it stops at a
    write to the observed part of the state. *)
Ltac preserves_tac :=
  intros; cbv zeta;
  first
    [ solve [ eauto with preserves ]
    | match goal with
      | |- preserves _ (bind _ _) =>
          apply preserves_bind; [ preserves_tac | intros; preserves_tac ]
      | |- preserves _ (match ?x with _ => _ end) => destruct x; preserves_tac
      | |- preserves _ (modify _) => apply preserves_modify; intros; reflexivity
      | |- preserves _ (try_pass _) => apply preserves_try_pass; preserves_tac
      | |- preserves _ ?c => let h := head_of c in progress unfold h; preserves_tac
      end ].

(* ===================================================================== *)
(** ** How the history grows *)
(* ===================================================================== *)

Section History.
Context {Hidden : Type} (H : Host Hidden).
Local Open Scope py_scope.
Local Open Scope list_scope.

(** [growsP P c]: whatever [c] does, it only appends to the history, and
    when it returns [a] the number [k] of appended entries satisfies
    [P a k]. *)
Definition growsP {A} (P : A -> nat -> Prop) (c : M Hidden A) : Prop :=
  forall w, exists l,
    states (snd (c w)) = states w ++ l /\
    forall a, fst (c w) = Ok a -> P a (length l).

(** It appends exactly [n] entries when it returns. *)
Definition grows {A} (n : nat) (c : M Hidden A) : Prop :=
  growsP (fun _ k => k = n) c.

(** It only appends. *)
Definition extends {A} (c : M Hidden A) : Prop :=
  growsP (fun _ _ => True) c.

Lemma growsP_ret {A} (P : A -> nat -> Prop) (a : A) :
  P a 0 -> growsP P (ret a).
Proof.
  intros HP w. exists []. simpl. rewrite app_nil_r. split; [reflexivity|].
  intros b [= <-]. exact HP.
Qed.

Lemma growsP_raise {A} (P : A -> nat -> Prop) (e : PyExn) :
  growsP P (raise e).
Proof.
  intros w. exists []. simpl. rewrite app_nil_r. split; [reflexivity|].
  intros b [=].
Qed.

Lemma growsP_bind_gen {A B} (Q : A -> nat -> Prop) (P : B -> nat -> Prop)
  (c : M Hidden A) (k : A -> M Hidden B) :
  growsP Q c ->
  (forall a, growsP (fun b m => forall n, Q a n -> P b (n + m)) (k a)) ->
  growsP P (bind c k).
Proof.
  intros Hc Hk w. unfold bind.
  destruct (Hc w) as (l1 & E1 & Q1).
  destruct (c w) as [[a|e] w1]; simpl in *.
  - destruct (Hk a w1) as (l2 & E2 & Q2).
    exists (l1 ++ l2). rewrite E2, E1, app_assoc. split; [reflexivity|].
    intros b Eb. rewrite length_app. apply Q2; [exact Eb | apply Q1; reflexivity].
  - exists l1. split; [exact E1|]. intros b [=].
Qed.

Lemma growsP_bind {A B} (n : nat) (P : B -> nat -> Prop)
  (c : M Hidden A) (k : A -> M Hidden B) :
  grows n c ->
  (forall a, growsP (fun b m => P b (n + m)) (k a)) ->
  growsP P (bind c k).
Proof.
  intros Hc Hk. apply growsP_bind_gen with (Q := fun _ m => m = n); [exact Hc|].
  intros a w. destruct (Hk a w) as (l & E & Q). exists l. split; [exact E|].
  intros b Eb m ->. apply Q, Eb.
Qed.

Lemma growsP_weaken {A} (P Q : A -> nat -> Prop) (c : M Hidden A) :
  growsP Q c -> (forall a n, Q a n -> P a n) -> growsP P c.
Proof.
  intros Hc HPQ w. destruct (Hc w) as (l & E & HQ). exists l.
  split; [exact E|]. intros a Ea. apply HPQ, HQ, Ea.
Qed.

Lemma grows_weaken {A} (n : nat) (P : A -> nat -> Prop) (c : M Hidden A) :
  grows n c -> (forall a, P a n) -> growsP P c.
Proof.
  intros Hc HP. apply growsP_weaken with (Q := fun _ k => k = n); [exact Hc|].
  intros a m ->. apply HP.
Qed.

Lemma growsP_extends {A} (P : A -> nat -> Prop) (c : M Hidden A) :
  growsP P c -> extends c.
Proof. intros Hc. apply growsP_weaken with (Q := P); [exact Hc | trivial]. Qed.

Lemma grows_extends {A} (n : nat) (c : M Hidden A) : grows n c -> extends c.
Proof. apply growsP_extends. Qed.

Lemma grows_get : grows 0 (@get Hidden).
Proof.
  intros w. exists []. simpl. rewrite app_nil_r. split; [reflexivity|].
  intros a _. reflexivity.
Qed.

Lemma grows_modify (f : World Hidden -> World Hidden) :
  (forall w, states (f w) = states w) -> grows 0 (modify f).
Proof.
  intros Hf w. exists []. simpl. rewrite app_nil_r, Hf. split; [reflexivity|].
  intros a _. reflexivity.
Qed.

Lemma grows_ret {A} (a : A) : grows 0 (@ret Hidden A a).
Proof. apply growsP_ret. reflexivity. Qed.

Lemma grows_raise {A} (n : nat) (e : PyExn) : grows n (@raise Hidden A e).
Proof. apply growsP_raise. Qed.

Lemma grows_bind {A B} (n m p : nat) (c : M Hidden A) (k : A -> M Hidden B) :
  grows n c -> (forall a, grows m (k a)) -> n + m = p -> grows p (bind c k).
Proof.
  intros Hc Hk <-. apply growsP_bind with (n := n); [exact Hc|].
  intros a. apply grows_weaken with (n := m); [apply Hk | reflexivity].
Qed.

Lemma grows_try_pass (c : M Hidden unit) : extends c -> extends (try_pass c).
Proof.
  intros Hc w. destruct (Hc w) as (l & E & _). exists l. unfold try_pass.
  destruct (c w) as [[[]|e] w1]; simpl in *; auto.
Qed.

Lemma extends_nonempty {A} (c : M Hidden A) (w : World Hidden) :
  extends c -> states w <> [] -> states (snd (c w)) <> [].
Proof.
  intros Hc Hw. destruct (Hc w) as (l & E & _). rewrite E.
  destruct (states w); [congruence | discriminate].
Qed.

End History.

Create HintDb grows.

#[export] Hint Resolve grows_get grows_ret grows_raise : grows.
#[export] Hint Extern 1 (grows _ (modify _)) =>
  apply grows_modify; intros; reflexivity : grows.

(** Walk down a computation: one rule per construct, the lemmas of the
    database [grows] at the calls. *)
Ltac grows_leaf :=
  solve
    [ eauto with grows
    | match goal with
      | |- grows _ (match ?x with _ => _ end) => destruct x; grows_leaf
      | |- grows _ (bind _ _) =>
          eapply grows_bind; [ grows_leaf | intros; grows_leaf | reflexivity ]
      end ].

Ltac grows_tac :=
  repeat first
    [ progress intros
    | progress cbv zeta
    | apply growsP_ret; cbv beta; first [ reflexivity | exact I | simpl; lia ]
    | apply growsP_raise
    | eapply growsP_bind; [ grows_leaf | ]
    | match goal with
      | |- growsP _ (match ?x with _ => _ end) => destruct x
      end
    | eapply grows_weaken;
        [ grows_leaf | intros; cbv beta; first [ reflexivity | exact I | simpl; lia ] ] ].

Section HistoryOfTool.
Context {Hidden : Type} (H : Host Hidden).
Local Open Scope py_scope.
Local Open Scope list_scope.

Lemma grows_log (c : HostCall) : grows 0 (@log Hidden c).
Proof. unfold log. eauto with grows. Qed.
Hint Resolve grows_log : grows.

Lemma grows_getitem {A} (l : list A) (i : nat) : grows 0 (@getitem Hidden A l i).
Proof. unfold getitem, grows. grows_tac. Qed.
Hint Resolve grows_getitem : grows.

Lemma grows_Point_of (so : SubShape) : grows 0 (@Point_of Hidden so).
Proof. unfold Point_of, grows. grows_tac. Qed.
Hint Resolve grows_Point_of : grows.

Lemma grows_the_form : grows 0 (@the_form Hidden).
Proof. unfold the_form, grows. grows_tac. Qed.
Hint Resolve grows_the_form : grows.

Lemma grows_getOffset : grows 0 (getOffset H).
Proof. unfold getOffset, grows. grows_tac. Qed.
Hint Resolve grows_getOffset : grows.

Lemma grows_getCenterPoint (x y z : Z) : grows 0 (getCenterPoint H x y z).
Proof. unfold getCenterPoint, grows. grows_tac. Qed.
Hint Resolve grows_getCenterPoint : grows.

Lemma grows_align (f : WorkingPlane Hidden -> WorkingPlane Hidden * bool) :
  grows 0 (align f).
Proof. unfold align, grows. grows_tac. Qed.
Hint Resolve grows_align : grows.

Lemma grows_Snapper_setGrid : grows 0 (@Snapper_setGrid Hidden).
Proof. unfold Snapper_setGrid, grows. grows_tac. Qed.
Hint Resolve grows_Snapper_setGrid : grows.

Lemma grows_Snapper_showradius : grows 0 (@Snapper_showradius Hidden).
Proof. unfold Snapper_showradius, grows. grows_tac. Qed.
Hint Resolve grows_Snapper_showradius : grows.

Lemma grows_run_command (c : GuiCommand) : grows 0 (run_command H c).
Proof. unfold run_command, grows. grows_tac. Qed.
Hint Resolve grows_run_command : grows.

Lemma grows_doCommandGui (c : GuiCommand) : grows 0 (doCommandGui H c).
Proof. unfold doCommandGui, grows. grows_tac. Qed.
Hint Resolve grows_doCommandGui : grows.

Lemma grows_closeDialog : grows 0 (@closeDialog Hidden).
Proof. unfold closeDialog, grows. grows_tac. Qed.
Hint Resolve grows_closeDialog : grows.

Lemma grows_showDialog : grows 0 (@showDialog Hidden).
Proof. unfold showDialog, grows. grows_tac. Qed.
Hint Resolve grows_showDialog : grows.

Lemma grows_finish : grows 0 (finish H).
Proof. unfold finish, grows. grows_tac. Qed.
Hint Resolve grows_finish : grows.

Lemma grows_reject : grows 0 (reject H).
Proof. unfold reject, grows. grows_tac. Qed.
Hint Resolve grows_reject : grows.

(** The one place where the history gets longer. *)
Lemma grows_push :
  grows 1 (modify (fun w : World Hidden => set_states (states w ++ [snapshot (wp w)]) w)).
Proof.
  intros w. exists [snapshot (wp w)]. simpl. split; [reflexivity|].
  intros a _. reflexivity.
Qed.
Hint Resolve grows_push : grows.

Lemma grows_display (arg : DisplayArg) : grows 1 (display H arg).
Proof. unfold display, grows. grows_tac. Qed.
Hint Resolve grows_display : grows.

Lemma grows_display_axis : grows 1 (display_axis H).
Proof. unfold display_axis, grows. grows_tac. Qed.
Hint Resolve grows_display_axis : grows.

Lemma grows_restore_view (vobj : ViewObject) : grows 0 (@restore_view Hidden vobj).
Proof. unfold restore_view, grows. grows_tac. Qed.
Hint Resolve grows_restore_view : grows.

Lemma grows_restore_visibility (items : list (string * string)) :
  grows 0 (restore_visibility H items).
Proof.
  induction items as [|[k val] rest IH]; simpl; unfold grows; grows_tac.
Qed.
Hint Resolve grows_restore_visibility : grows.

Lemma grows_restore_state (vobj : ViewObject) : grows 0 (restore_state H vobj).
Proof. unfold restore_state, grows. grows_tac. Qed.
Hint Resolve grows_restore_state : grows.

Lemma grows_label_button (lbl : string) : grows 0 (label_button H lbl).
Proof. unfold label_button, grows. grows_tac. Qed.
Hint Resolve grows_label_button : grows.

Lemma grows_todo_delay (t : Task) : grows 0 (@todo_delay Hidden t).
Proof. unfold todo_delay. eauto with grows. Qed.
Hint Resolve grows_todo_delay : grows.

(** [handle] appends one entry when it returns [True] and none when it
    returns [False]. *)
Lemma growsP_handle :
  growsP (fun (b : bool) k => k = if b then 1 else 0) (handle H).
Proof. unfold handle. grows_tac. Qed.

Lemma extends_handle : extends (handle H).
Proof. exact (growsP_extends _ _ growsP_handle). Qed.

End HistoryOfTool.

Section FrameOfTool.
Context {Hidden : Type} (H : Host Hidden).
Local Open Scope py_scope.
Local Open Scope list_scope.

(** [finish] and [reject] never touch the history. *)
Lemma finish_preserves_states : preserves states (finish H).
Proof. preserves_tac. Qed.

Lemma reject_preserves_states : preserves states (reject H).
Proof. preserves_tac. Qed.

End FrameOfTool.

(* ===================================================================== *)
(** ** Sample sessions *)
(* ===================================================================== *)

Module Sessions.
Import Sample.

(** First use: the command is activated, the user types an offset of 5 and
    clicks Front; the command is activated again and waits. *)
Definition after_front : World unit :=
  run host [EvActivated; EvEditOffset "5"; EvClickFront] world0.

Definition awaiting_again : World unit :=
  run host [EvActivated] after_front.

(** A document object with nothing special about it. *)
Definition plain_object (name type : string) (shape : TopoShape) : DocObject :=
  mkDocObject name name type true (mkPlacement Vector0 (mkQuat 0 0 0 1)) shape
    (mkViewObject None None None None None None None).

(** Three picked vertices of one object, on the X axis. *)
Definition collinear_pick : list SelectionObject :=
  [ mkSelectionObject (plain_object "Wire" "Wire" (mkShape [] []))
      true ["Vertex1"; "Vertex2"; "Vertex3"]
      [ShVertex (mkVector 0 0 0); ShVertex (mkVector 1 0 0); ShVertex (mkVector 2 0 0)] ].

(** A box face picked in the plane z = 2. *)
Definition face_pick : list SelectionObject :=
  [ mkSelectionObject
      (plain_object "Box" "Part" (mkShape [] []))
      true ["Face6"] [ShFace (mkFace Z_ (mkVector 0 0 2))] ].

(** The task panel as [Activated] fills it from empty preferences. *)
Definition panel : Form := mkForm false "0" "1.0 mm" 10 8.

(** The command waits for a pick, the offset field reads 5. *)
Definition awaiting_offset5 : World unit :=
  run host [EvActivated; EvEditOffset "5"] world0.

(** Centering is ticked and the camera sits on the Z axis, looking along
    it: its position projected on the Z axis is parallel to the view
    direction. *)
Definition looking_along_Z : World unit :=
  run host [EvActivated; EvToggleCenter true]
    (set_camera (mkCamera SoOrthographicCamera (mkVector 0 0 (-10))
                   (mkQuat 0 0 0 1) 1 100 1 10 20 0) world0).

Definition panel_centered : Form := mkForm true "0" "1.0 mm" 10 8.

End Sessions.

(* ===================================================================== *)
(** ** The claims *)
(* ===================================================================== *)

(** Two snapshots that differ in a coordinate are different. *)
Ltac differ_by f :=
  let E := fresh "E" in
  intros E; apply (f_equal f) in E; vm_compute in E; discriminate E.

Section Mainline.
Context {Hidden : Type}.
Local Open Scope list_scope.

(** C10: [onSetMainline(i)] with [i <= 1] returns without touching
    anything (no preference written, no call to the Snapper); with [i > 1]
    it stores [i] under [gridEvery] and asks the Snapper, when there is
    one, to redraw the grid. *)
Theorem onSetMainline_gate (w : World Hidden) (i : Z) :
  ((i <= 1)%Z -> onSetMainline i w = (Ok tt, w)) /\
  ((1 < i)%Z ->
     fst (onSetMainline i w) = Ok tt /\
     p_int (param (snd (onSetMainline i w)))
       = <["gridEvery" := i]> (p_int (param w)) /\
     GetInt "gridEvery" 10 (param (snd (onSetMainline i w))) = i /\
     trace (snd (onSetMainline i w))
       = trace w ++ (if snapper w then [SetGrid] else [])).
Proof.
  split; intros Hi.
  - unfold onSetMainline.
    destruct (1 <? i)%Z eqn:E; [apply Z.ltb_lt in E; lia | reflexivity].
  - apply Z.ltb_lt in Hi.
    assert (E : onSetMainline i w =
                (Ok tt,
                 if snapper w
                 then set_trace (trace w ++ [SetGrid])
                        (set_param (SetInt "gridEvery" i (param w)) w)
                 else set_param (SetInt "gridEvery" i (param w)) w)).
    { unfold onSetMainline. rewrite Hi, bind_modify, bind_get.
      change (snapper (set_param (SetInt "gridEvery" i (param w)) w))
        with (snapper w).
      destruct (snapper w) eqn:Es; [|reflexivity].
      unfold Snapper_setGrid. rewrite bind_get.
      change (snapper (set_param (SetInt "gridEvery" i (param w)) w))
        with (snapper w).
      rewrite Es. reflexivity. }
    rewrite E. cbn [fst snd].
    assert (P : param (if snapper w
                       then set_trace (trace w ++ [SetGrid])
                              (set_param (SetInt "gridEvery" i (param w)) w)
                       else set_param (SetInt "gridEvery" i (param w)) w)
                = SetInt "gridEvery" i (param w))
      by (destruct (snapper w); reflexivity).
    rewrite P. unfold GetInt. cbn [p_int SetInt].
    rewrite lookup_insert_eq.
    repeat split. destruct (snapper w); cbn [trace set_trace set_param];
      rewrite ?app_nil_r; reflexivity.
Qed.

End Mainline.

(** C10 at 1 (nothing happens) and at 12 (stored). *)
Lemma onSetMainline_gate_witness :
  onSetMainline 1 Sample.world0 = (Ok tt, Sample.world0) /\
  GetInt "gridEvery" 10 (param (snd (onSetMainline 12 Sample.world0))) = 12%Z.
Proof.
  split.
  - apply (proj1 (onSetMainline_gate Sample.world0 1)). discriminate.
  - apply (proj2 (onSetMainline_gate Sample.world0 12)). reflexivity.
Defined.

Section Centering.
Context {Hidden : Type} (H : Host Hidden).

Lemma canonical_preserves_camera (x y z : Z) (name : string) :
  preserves camera (canonical H x y z name).
Proof. preserves_tac. Qed.

(** C7: when the angle between the camera position projected on the
    direction and the view direction is below 0.0001, [getCenterPoint]
    returns the zero vector, normally and without changing anything; a
    canonical button never moves the camera. *)
Theorem getCenterPoint_degenerate (w : World Hidden) (form : Form) (x y z : Z) :
  taskd w = Some form ->
  (vec_getAngle H
     (vec_project H (cam_position (camera w))
        (vector_of_triple (triple_of_ints x y z)))
     (getViewDirection H (camera w)) <? angle_epsilon)%float = true ->
  getCenterPoint H x y z w = (Ok Vector0, w) /\
  forall name, camera (snd (canonical H x y z name w)) = camera w.
Proof.
  intros Ht Ha. split.
  - unfold getCenterPoint, the_form, bind, get, ret. rewrite Ht.
    destruct (checkCenter form); simpl; [|reflexivity].
    unfold triple_of_ints in Ha. simpl in Ha. rewrite Ha. reflexivity.
  - intros name. apply canonical_preserves_camera.
Qed.

End Centering.

(** C7 on a camera that looks along the Z axis, for the Top direction. *)
Lemma getCenterPoint_degenerate_witness :
  taskd Sessions.looking_along_Z = Some Sessions.panel_centered /\
  getCenterPoint Sample.host 0 0 1 Sessions.looking_along_Z
    = (Ok Vector0, Sessions.looking_along_Z).
Proof.
  assert (Ht : taskd Sessions.looking_along_Z = Some Sessions.panel_centered)
    by (vm_compute; reflexivity).
  split; [exact Ht|].
  refine (proj1 (getCenterPoint_degenerate Sample.host Sessions.looking_along_Z
                   Sessions.panel_centered 0 0 1 Ht _)).
  vm_compute. reflexivity.
Defined.

Section Deferral.
Context {Hidden : Type} (H : Host Hidden).
Local Open Scope list_scope.

(** C9: on a BUTTON1 DOWN event [action] only puts [checkSelection] on the
    task queue: it returns normally, changes nothing else, and does the
    same whatever the selection is; the check runs when the host next
    empties the queue, on the selection as it is then. *)
Theorem action_defers_selection_check (w : World Hidden) :
  action H (SoMouseButtonEvent "DOWN" "BUTTON1") w
    = (Ok tt, set_itinerary (itinerary w ++ [TaskCheckSelection]) w) /\
  (forall sel,
     action H (SoMouseButtonEvent "DOWN" "BUTTON1") (set_selection sel w)
       = (Ok tt,
          set_selection sel
            (snd (action H (SoMouseButtonEvent "DOWN" "BUTTON1") w)))) /\
  (itinerary w = [] ->
   forall sel,
     step H EvDoTasks
       (step H (EvSelect sel)
          (step H (EvSoEvent (SoMouseButtonEvent "DOWN" "BUTTON1")) w))
     = snd (try_pass (checkSelection H) (set_selection sel w))).
Proof.
  split; [reflexivity|]. split; [reflexivity|].
  intros Hi sel. unfold step, fire.
  change (snd (action H (SoMouseButtonEvent "DOWN" "BUTTON1") w))
    with (set_itinerary (itinerary w ++ [TaskCheckSelection]) w).
  change (snd (modify (set_selection sel)
                 (set_itinerary (itinerary w ++ [TaskCheckSelection]) w)))
    with (set_selection sel
            (set_itinerary (itinerary w ++ [TaskCheckSelection]) w)).
  unfold doTasks. rewrite bind_get, bind_modify.
  cbn [itinerary set_selection set_itinerary]. rewrite Hi. cbn [app fold_right].
  assert (E : set_itinerary []
                (set_selection sel (set_itinerary [TaskCheckSelection] w))
              = set_selection sel w).
  { unfold set_itinerary, set_selection. cbn. rewrite Hi. reflexivity. }
  rewrite E. unfold bind, run_task, try_pass.
  destruct (checkSelection H (set_selection sel w)) as [[[]|e] w1]; reflexivity.
Qed.

End Deferral.

(** C9 on a session that waits with an empty queue: a face is picked after
    the click, and the queued check finds it. *)
Lemma action_defers_selection_check_witness :
  itinerary Sessions.awaiting_offset5 = [] /\
  step Sample.host EvDoTasks
    (step Sample.host (EvSelect Sessions.face_pick)
       (step Sample.host (EvSoEvent (SoMouseButtonEvent "DOWN" "BUTTON1"))
          Sessions.awaiting_offset5))
  = snd (try_pass (checkSelection Sample.host)
           (set_selection Sessions.face_pick Sessions.awaiting_offset5)).
Proof.
  assert (Hi : itinerary Sessions.awaiting_offset5 = [])
    by (vm_compute; reflexivity).
  split; [exact Hi|].
  exact (proj2 (proj2 (action_defers_selection_check Sample.host
                         Sessions.awaiting_offset5)) Hi Sessions.face_pick).
Defined.

(* ===================================================================== *)
(** ** Running [display] and [finish] *)
(* ===================================================================== *)

Lemma append_assoc (a b c : string) : (a +:+ b) +:+ c = a +:+ (b +:+ c).
Proof.
  induction a as [|ch a IH]; [reflexivity|].
  change (String ch ((a +:+ b) +:+ c) = String ch (a +:+ (b +:+ c))).
  f_equal. exact IH.
Qed.

Lemma append_empty_r (a : string) : a +:+ "" = a.
Proof.
  induction a as [|ch a IH]; [reflexivity|].
  change (String ch (a +:+ "") = String ch a). f_equal. exact IH.
Qed.

Section Running.
Context {Hidden : Type} (H : Host Hidden).
Local Open Scope list_scope.

(** The text of a vector for the status line: each coordinate is [str] cut
    to [n] characters. *)
Definition triple_text (n : nat) (a : Vector) : string :=
  "(" +:+ str_prefix n (py_str_float H (vx a)) +:+ ","
      +:+ str_prefix n (py_str_float H (vy a)) +:+ ","
      +:+ str_prefix n (py_str_float H (vz a)) +:+ ")".

(** The direction part of the tooltip. *)
Definition dir_text (a : Vector) : string :=
  " " +:+ translate H "draft" "Dir" +:+ ": " +:+ triple_text 4 a.

(** The offset field is read from the task panel only. *)
Lemma getOffset_frame (w w1 : World Hidden) (o : float) :
  taskd w1 = taskd w -> getOffset H w = (Ok o, w) -> getOffset H w1 = (Ok o, w1).
Proof.
  unfold getOffset, the_form, bind, get, ret, raise. intros ->.
  destruct (taskd w) as [form|]; [|discriminate].
  destruct (py_float H (fieldOffset form)) as [a|].
  - intros [= ->]. reflexivity.
  - destruct (quantity_value H (fieldOffset form)) as [a|]; [|discriminate].
    intros [= ->]. reflexivity.
Qed.

Lemma getOffset_taskd (w w1 : World Hidden) (r : Res float) :
  getOffset H w = (r, w1) -> w1 = w.
Proof.
  unfold getOffset, the_form, bind, get, ret, raise.
  destruct (taskd w) as [form|]; [|intros [= _ <-]; reflexivity].
  destruct (py_float H (fieldOffset form)) as [a|]; [intros [= _ <-]; reflexivity|].
  destruct (quantity_value H (fieldOffset form)) as [a|]; intros [= _ <-]; reflexivity.
Qed.

(** What [display] does when the offset field reads [o] and there is a
    Snapper. *)
Lemma display_run (w : World Hidden) (arg : DisplayArg) (o : float) :
  getOffset H w = (Ok o, w) -> snapper w = true ->
  exists w',
    display H arg w = (Ok tt, w') /\
    states w' = states w ++ [snapshot (wp w)] /\
    wp w' = wp w /\ taskd w' = taskd w /\ call w' = call w /\
    snapper w' = snapper w /\ view_alive w' = view_alive w /\
    camera w' = camera w /\ dialog w' = dialog w /\
    trace w' = trace w ++ [Command "FreeCADGui.Snapper.setGrid()"; SetGrid] /\
    match arg with
    | ArgStr s =>
        wpText w' =
          s +:+ (if float_truthy o then if (0 <? o)%float then " +O" else " -O"
                 else "") /\
        wpToolTip w' =
          translate H "draft" "Current working plane" +:+ ": "
            +:+ wpText w'
            +:+ (if negb (o =? 0)%float
                 then " " +:+ translate H "draft" "Offset" +:+ ": " +:+ py_str_float H o
                 else "")
            +:+ dir_text (axis (wp w))
    | ArgVector a =>
        wpText w' = translate H "draft" "Custom" /\
        wpToolTip w' =
          translate H "draft" "Current working plane" +:+ ": "
            +:+ triple_text 6 a +:+ dir_text (axis (wp w))
    end.
Proof.
  intros Ho Hs. unfold display, bind. rewrite Ho.
  unfold doCommandGui, log, run_command, Snapper_setGrid, bind, get, modify, ret.
  destruct arg as [s|a]; cbn; rewrite Hs; cbn;
    (eexists; split; [reflexivity|]); cbn; unfold dir_text, triple_text;
    rewrite <- ?app_assoc, ?append_assoc; repeat split; auto.
Qed.

(** What [finish] does on a command that has a task panel and an assigned
    [call]. *)
Lemma finish_run (w : World Hidden) (form : Form) :
  taskd w = Some form -> call w <> CallUnset ->
  exists w',
    finish H w = (Ok true, w') /\
    states w' = states w /\
    wp w' = wp_restore H (wp w) /\
    taskd w' = taskd w /\ call w' = CallNone /\ dialog w' = false /\
    wpText w' = wpText w /\ wpToolTip w' = wpToolTip w /\
    camera w' = camera w /\ snapper w' = snapper w /\
    trace w' = trace w ++ [CloseDialog; ResetEdit].
Proof.
  intros Ht Hc.
  unfold finish, the_form, closeDialog, log, bind, get, modify, ret.
  cbn. rewrite Ht. cbn.
  destruct (call w) as [| |id] eqn:Ec; [congruence| |]; cbn.
  - eexists. split; [reflexivity|]. cbn. rewrite <- app_assoc.
    repeat split; auto.
  - destruct (view_alive w); cbn; (eexists; split; [reflexivity|]); cbn;
      rewrite <- app_assoc; repeat split; auto.
Qed.

Lemma getOffset_Ok_taskd (w w1 : World Hidden) (o : float) :
  getOffset H w = (Ok o, w1) -> exists form, taskd w = Some form.
Proof.
  unfold getOffset, the_form, bind, get, ret, raise.
  destruct (taskd w) as [form|]; [eauto | discriminate].
Qed.

Lemma getCenterPoint_unchecked (w : World Hidden) (form : Form) (x y z : Z) :
  taskd w = Some form -> checkCenter form = false ->
  getCenterPoint H x y z w = (Ok Vector0, w).
Proof.
  intros Ht Hc. unfold getCenterPoint, the_form, bind, get, ret.
  rewrite Ht, Hc. reflexivity.
Qed.

(** What "previous" does with more than one entry in the history. *)
Lemma previous_run (w : World Hidden) (form : Form) :
  1 < length (states w) -> snapper w = true ->
  taskd w = Some form -> call w <> CallUnset ->
  exists s w',
    last (removelast (states w)) = Some s /\
    onClickPrevious H w = (Ok tt, w') /\
    states w' = removelast (states w) /\
    wp w' = wp_restore H (apply_snapshot s (wp w)) /\
    wpText w' = wpText w /\ wpToolTip w' = wpToolTip w /\
    dialog w' = false /\ call w' = CallNone /\
    trace w' = trace w ++ [SetGrid; CloseDialog; ResetEdit].
Proof.
  intros Hl Hs Ht Hc.
  destruct (last (removelast (states w))) as [s|] eqn:El.
  2:{ apply last_None in El.
      destruct (states w) as [|a [|b l]]; simpl in *; try lia; discriminate. }
  set (w1 := set_wp (apply_snapshot s (wp w)) (set_states (removelast (states w)) w)).
  set (w2 := set_trace (trace w1 ++ [SetGrid]) w1).
  destruct (finish_run w2 form) as (w' & Ef & F1 & F2 & F3 & F4 & F5 & F6 & F7 & F8 & F9 & F10);
    [exact Ht | exact Hc |].
  exists s, w'. split; [reflexivity|].
  split.
  - unfold onClickPrevious. rewrite bind_get.
    apply Nat.ltb_lt in Hl. rewrite Hl.
    rewrite bind_modify, bind_get. cbn [states set_states]. rewrite El.
    rewrite bind_modify. unfold Snapper_setGrid at 1.
    rewrite (bind_Ok _ _ w1 w2 tt).
    + rewrite (bind_Ok _ _ _ _ _ Ef). reflexivity.
    + rewrite bind_get. change (snapper w1) with (snapper w). rewrite Hs. reflexivity.
  - rewrite F1, F2, F6, F7, F10. cbn. rewrite <- app_assoc.
    repeat split; auto.
Qed.

End Running.

Section Previous.
Context {Hidden : Type} (H : Host Hidden).
Local Open Scope list_scope.

(** C4, as amended: "previous" with more than one entry in the history (on
    a command with a Snapper, a task panel and an assigned [call]) returns
    normally; it drops the last entry, writes the [u], [v], [axis] and
    [position] of the new last entry into the working plane, redraws the
    grid and finishes the command, which hands the plane to its own
    [restore()].  The text and the tooltip of the button stay as they
    were. *)
Theorem previous_applies_entry (w : World Hidden) (form : Form) :
  1 < length (states w) -> snapper w = true ->
  taskd w = Some form -> call w <> CallUnset ->
  exists s w',
    last (removelast (states w)) = Some s /\
    onClickPrevious H w = (Ok tt, w') /\
    states w' = removelast (states w) /\
    wp w' = wp_restore H (apply_snapshot s (wp w)) /\
    snapshot (apply_snapshot s (wp w)) = s /\
    wpText w' = wpText w /\ wpToolTip w' = wpToolTip w /\
    trace w' = trace w ++ [SetGrid; CloseDialog; ResetEdit].
Proof.
  intros Hl Hs Ht Hc.
  destruct (previous_run H w form Hl Hs Ht Hc)
    as (s & w' & P1 & P2 & P3 & P4 & P5 & P6 & _ & _ & P9).
  exists s, w'. destruct s. repeat split; auto.
Qed.

(** C5: on a history that is not empty, [display] pushes the current plane
    and "previous" right after it pops it again: the history is what it was
    before the push, and the entry written into the working plane is the
    one that was last before the push.  ([finish] then hands the plane to
    its own [restore()]; where that changes nothing, the working plane is
    that entry.) *)
Theorem push_then_previous (w : World Hidden) (arg : DisplayArg) (o : float)
  (top : Snapshot) :
  last (states w) = Some top ->
  getOffset H w = (Ok o, w) -> snapper w = true -> call w <> CallUnset ->
  exists w1 w2,
    display H arg w = (Ok tt, w1) /\
    states w1 = states w ++ [snapshot (wp w)] /\
    onClickPrevious H w1 = (Ok tt, w2) /\
    states w2 = states w /\
    last (states w2) = Some top /\
    wp w2 = wp_restore H (apply_snapshot top (wp w)) /\
    snapshot (apply_snapshot top (wp w)) = top /\
    (wp_restore H (apply_snapshot top (wp w)) = apply_snapshot top (wp w) ->
     snapshot (wp w2) = top).
Proof.
  intros Hl Ho Hs Hc.
  destruct (getOffset_Ok_taskd H w w o Ho) as [form Ht].
  destruct (display_run H w arg o Ho Hs)
    as (w1 & Ed & D1 & D2 & D3 & D4 & D5 & _).
  assert (Hne : states w <> []) by (intros E; rewrite E in Hl; discriminate).
  destruct (previous_run H w1 form) as (s & w2 & P1 & P2 & P3 & P4 & _).
  { rewrite D1, length_app. simpl. destruct (states w); [congruence | simpl; lia]. }
  { rewrite D5. exact Hs. }
  { rewrite D3. exact Ht. }
  { rewrite D4. exact Hc. }
  rewrite D1, removelast_last in P1, P3. rewrite Hl in P1. injection P1 as <-.
  exists w1, w2. rewrite P3, P4, D2.
  repeat split; auto.
  - destruct top; reflexivity.
  - intros ->. destruct top; reflexivity.
Qed.

End Previous.

(** C4 on the waiting session whose history holds the original plane and
    the Front plane. *)
Lemma previous_applies_entry_witness :
  1 < length (states Sessions.awaiting_again) /\
  snapper Sessions.awaiting_again = true /\
  taskd Sessions.awaiting_again = Some Sessions.panel /\
  call Sessions.awaiting_again <> CallUnset /\
  exists s w',
    onClickPrevious Sample.host Sessions.awaiting_again = (Ok tt, w') /\
    states w' = removelast (states Sessions.awaiting_again) /\
    wp w' = apply_snapshot s (wp Sessions.awaiting_again).
Proof.
  assert (Hl : 1 < length (states Sessions.awaiting_again))
    by (vm_compute; lia).
  assert (Hs : snapper Sessions.awaiting_again = true)
    by (vm_compute; reflexivity).
  assert (Ht : taskd Sessions.awaiting_again = Some Sessions.panel)
    by (vm_compute; reflexivity).
  assert (Hc : call Sessions.awaiting_again <> CallUnset)
    by (vm_compute; discriminate).
  split; [exact Hl|]. split; [exact Hs|]. split; [exact Ht|]. split; [exact Hc|].
  destruct (previous_applies_entry Sample.host Sessions.awaiting_again
              Sessions.panel Hl Hs Ht Hc)
    as (s & w' & _ & P2 & P3 & P4 & _).
  exists s, w'. split; [exact P2|]. split; [exact P3|exact P4].
Defined.

(** C4 as stated fails: after "previous" the working plane is the original
    one (normal along Z), yet the button still reads [Front +O] and its
    tooltip still shows the direction of the discarded Front plane, not
    the direction of the restored one. *)
Lemma previous_leaves_status_stale :
  exists w',
    onClickPrevious Sample.host Sessions.awaiting_again = (Ok tt, w') /\
    length (states Sessions.awaiting_again) = 2 /\
    length (states w') = 1 /\
    axis (wp w') = Sample.Z_ /\
    wpText w' = "Front +O" /\
    wpToolTip w'
      = "Current working plane: Front +O Offset: 5.0 Dir: (0.0,-1.0,0.0)" /\
    str_in (triple_text Sample.host 4 (axis (wp w'))) (wpToolTip w') = false.
Proof.
  eexists. split; [vm_compute; reflexivity|].
  repeat split; vm_compute; reflexivity.
Qed.

(** C5 on the waiting session with an offset of 5: the Top label is
    displayed, then "previous" is clicked. *)
Lemma push_then_previous_witness :
  last (states Sessions.awaiting_offset5) = Some (snapshot (wp Sample.world0)) /\
  snapper Sessions.awaiting_offset5 = true /\
  call Sessions.awaiting_offset5 <> CallUnset /\
  exists w1 w2,
    display Sample.host (ArgStr "Top") Sessions.awaiting_offset5 = (Ok tt, w1) /\
    onClickPrevious Sample.host w1 = (Ok tt, w2) /\
    states w2 = states Sessions.awaiting_offset5 /\
    snapshot (wp w2) = snapshot (wp Sample.world0).
Proof.
  assert (Hl : last (states Sessions.awaiting_offset5)
               = Some (snapshot (wp Sample.world0)))
    by (vm_compute; reflexivity).
  assert (Ho : getOffset Sample.host Sessions.awaiting_offset5
               = (Ok 5%float, Sessions.awaiting_offset5))
    by (vm_compute; reflexivity).
  assert (Hs : snapper Sessions.awaiting_offset5 = true)
    by (vm_compute; reflexivity).
  assert (Hc : call Sessions.awaiting_offset5 <> CallUnset)
    by (vm_compute; discriminate).
  split; [exact Hl|]. split; [exact Hs|]. split; [exact Hc|].
  destruct (push_then_previous Sample.host Sessions.awaiting_offset5
              (ArgStr "Top") 5%float _ Hl Ho Hs Hc)
    as (w1 & w2 & Q1 & _ & Q3 & Q4 & _ & _ & _ & Q8).
  exists w1, w2. split; [exact Q1|]. split; [exact Q3|]. split; [exact Q4|].
  apply Q8. reflexivity.
Defined.

(* ===================================================================== *)
(** ** The history is never empty *)
(* ===================================================================== *)

#[export] Hint Resolve grows_log grows_getitem grows_Point_of grows_the_form
  grows_getOffset grows_getCenterPoint grows_align grows_Snapper_setGrid
  grows_Snapper_showradius grows_run_command grows_doCommandGui
  grows_closeDialog grows_showDialog grows_finish grows_reject grows_push
  grows_display grows_display_axis grows_restore_view grows_restore_visibility
  grows_restore_state grows_label_button grows_todo_delay
  grows_extends extends_handle : grows.

Section Extends.
Context {Hidden : Type}.

Lemma extends_bind {A B} (c : M Hidden A) (k : A -> M Hidden B) :
  extends c -> (forall a, extends (k a)) -> extends (bind c k).
Proof.
  intros Hc Hk. apply growsP_bind_gen with (Q := fun _ _ => True); [exact Hc|].
  intros a. apply growsP_weaken with (Q := fun _ _ => True); [apply Hk | trivial].
Qed.

End Extends.

(** Like [preserves_tac], for computations that only append to the
    history. *)
Ltac extends_tac :=
  intros; cbv zeta;
  first
    [ solve [ eauto with grows ]
    | match goal with
      | |- extends (bind _ _) =>
          apply extends_bind; [ extends_tac | intros; extends_tac ]
      | |- extends (match ?x with _ => _ end) => destruct x; extends_tac
      | |- extends (try_pass _) => apply grows_try_pass; extends_tac
      | |- extends ?c => let h := head_of c in progress unfold h; extends_tac
      end ].

Section Invariant.
Context {Hidden : Type} (H : Host Hidden).
Local Open Scope list_scope.
Local Open Scope py_scope.

Lemma grows_one_run {A} (c : M Hidden A) (w w' : World Hidden) (a : A) :
  grows 1 c -> c w = (Ok a, w') -> exists s, states w' = states w ++ [s].
Proof.
  intros Hc E. destruct (Hc w) as (l & El & Hl). rewrite E in El, Hl.
  specialize (Hl a eq_refl). destruct l as [|s [|]]; try discriminate.
  exists s. exact El.
Qed.

Lemma grows_canonical (x y z : Z) (name : string) : grows 1 (canonical H x y z name).
Proof. unfold canonical, grows. grows_tac. Qed.

Lemma grows_onClickAlign : grows 1 (onClickAlign H).
Proof. unfold onClickAlign, grows. grows_tac. Qed.

Lemma grows_onClickAuto : grows 1 (onClickAuto H).
Proof. unfold onClickAuto, grows. grows_tac. Qed.

Lemma extends_checkSelection : extends (checkSelection H).
Proof. extends_tac. Qed.

Lemma extends_doTasks : extends (doTasks H).
Proof.
  unfold doTasks. apply extends_bind; [eauto with grows|]. intros w.
  apply extends_bind; [eauto with grows|]. intros _.
  induction (itinerary w) as [|t l IH]; simpl; [eauto with grows|].
  apply extends_bind; [|intros; exact IH].
  apply grows_try_pass. destruct t. apply extends_checkSelection.
Qed.

Lemma extends_Activated : extends (Activated H).
Proof. extends_tac. Qed.

(** Every event but "previous" only appends to the history. *)
Lemma extends_fire (e : Event) : e <> EvClickPrevious -> extends (fire H e).
Proof.
  destruct e; intros He; try congruence; cbn [fire];
    first [ apply extends_Activated | apply extends_doTasks | extends_tac ].
Qed.

(** "previous" with at most one entry does nothing at all. *)
Lemma previous_floor (w : World Hidden) :
  length (states w) <= 1 -> onClickPrevious H w = (Ok tt, w).
Proof.
  intros Hl. unfold onClickPrevious. rewrite bind_get.
  destruct (1 <? length (states w))%nat eqn:E; [apply Nat.ltb_lt in E; lia | reflexivity].
Qed.

(** "previous" with more than one entry removes exactly the last one,
    whether or not the rest of the method returns. *)
Lemma previous_pops (w : World Hidden) :
  1 < length (states w) ->
  states (snd (onClickPrevious H w)) = removelast (states w).
Proof.
  intros Hl. unfold onClickPrevious. rewrite bind_get.
  apply Nat.ltb_lt in Hl. rewrite Hl. rewrite bind_modify. cbv beta.
  match goal with
  | |- states (snd (?c ?w0)) = _ =>
      assert (P : preserves states c) by preserves_tac; rewrite (P w0)
  end.
  reflexivity.
Qed.

Lemma previous_nonempty (w : World Hidden) :
  states w <> [] -> states (snd (onClickPrevious H w)) <> [].
Proof.
  intros Hne. destruct (le_lt_dec (length (states w)) 1) as [Hl|Hl].
  - rewrite (previous_floor w Hl). exact Hne.
  - rewrite (previous_pops w Hl).
    destruct (states w) as [|a [|b l]]; simpl in *; try lia; discriminate.
Qed.

Lemma step_nonempty (e : Event) (w : World Hidden) :
  states w <> [] -> states (step H e w) <> [].
Proof.
  intros Hne. unfold step.
  assert (D : e = EvClickPrevious \/ e <> EvClickPrevious)
    by (destruct e; first [ left; reflexivity | right; discriminate ]).
  destruct D as [->|He].
  - apply previous_nonempty, Hne.
  - apply extends_nonempty; [apply extends_fire, He | exact Hne].
Qed.

Lemma run_nonempty (evs : list Event) (w : World Hidden) :
  states w <> [] -> states (run H evs w) <> [].
Proof.
  revert w. induction evs as [|e evs IH]; intros w Hne; [exact Hne|].
  apply IH, step_nonempty, Hne.
Qed.

(** [Activated] leaves the history with the seed in front when it was
    empty, and with what it held in front otherwise. *)
Lemma Activated_history (w : World Hidden) :
  exists l,
    states (snd (Activated H w)) =
      match states w with
      | [] => [snapshot (wp_setup H (camera w) (wp w))]
      | l0 => l0
      end ++ l.
Proof.
  unfold Activated. rewrite bind_modify, bind_get.
  cbn [states set_wp wp camera].
  destruct (states w) as [|s0 l0] eqn:E.
  - rewrite bind_modify. cbn [states set_wp wp camera set_states]. cbv beta.
    match goal with
    | |- exists l, states (snd (?c ?w0)) = _ =>
        assert (X : extends c) by extends_tac;
        destruct (X w0) as (l & El & _)
    end.
    exists l. rewrite El. cbn [states set_states set_wp]. rewrite E. reflexivity.
  - rewrite bind_ret. cbv beta.
    match goal with
    | |- exists l, states (snd (?c ?w0)) = _ =>
        assert (X : extends c) by extends_tac;
        destruct (X w0) as (l & El & _)
    end.
    exists l. rewrite El. cbn [states set_wp]. rewrite E. reflexivity.
Qed.

Lemma display_pushes (w w' : World Hidden) (arg : DisplayArg) :
  display H arg w = (Ok tt, w') -> states w' = states w ++ [snapshot (wp w)].
Proof.
  intros E.
  destruct (getOffset H w) as [[o|e] w1] eqn:Eo.
  - pose proof (getOffset_taskd H _ _ _ Eo) as ->.
    destruct (snapper w) eqn:Es.
    + destruct (display_run H w arg o Eo Es) as (w2 & E2 & D1 & _).
      rewrite E2 in E. injection E as <-. exact D1.
    + exfalso. revert E. unfold display. rewrite (bind_Ok _ _ _ _ _ Eo).
      unfold doCommandGui, log, run_command, Snapper_setGrid, bind, get, modify, ret.
      destruct arg; cbn; rewrite Es; discriminate.
  - exfalso. revert E. unfold display. rewrite (bind_Raise _ _ _ _ _ Eo).
    discriminate.
Qed.

(** Move appends one entry when it moves the plane; with a selection that
    does not hold exactly one vertex it does nothing. *)
Lemma move_pushes (w w' : World Hidden) :
  onClickMove H w = (Ok tt, w') ->
  w' = w \/ exists s, states w' = states w ++ [s].
Proof.
  unfold onClickMove. rewrite bind_get.
  destruct (selection w) as [|s0 sel].
  - intros E. right. revert E. apply grows_one_run. unfold grows. grows_tac.
  - destruct (picked_vertices (s0 :: sel)) as [|so [|so' l]].
    + intros [= <-]. left. reflexivity.
    + intros E. right. revert E. apply grows_one_run. unfold grows. grows_tac.
    + intros [= <-]. left. reflexivity.
Qed.

(** C2: the history is never empty once the command has been activated.
    [Activated] leaves it non-empty, and when it found it empty the first
    entry is the working plane as [setup()] left it; [display], [handle]
    returning [True], the canonical buttons, Align, Auto and a Move that
    moves the plane append exactly
    one entry when they return; "previous" removes exactly the last entry
    when there are more than one and does nothing at all (same state, so
    same history and same working plane) when there is at most one; and
    after [Activated] no sequence of events empties the history. *)
Theorem history_never_empty :
  (forall w, states (snd (Activated H w)) <> []) /\
  (forall w, states w = [] ->
     exists l, states (snd (Activated H w))
               = snapshot (wp_setup H (camera w) (wp w)) :: l) /\
  (forall w w' arg, display H arg w = (Ok tt, w') ->
     states w' = states w ++ [snapshot (wp w)]) /\
  (forall w w', handle H w = (Ok true, w') ->
     exists s, states w' = states w ++ [s]) /\
  (forall c,
     In c [onClickTop H; onClickFront H; onClickSide H; onClickAlign H; onClickAuto H] ->
     forall w w', c w = (Ok tt, w') -> exists s, states w' = states w ++ [s]) /\
  (forall w w', onClickMove H w = (Ok tt, w') ->
     w' = w \/ exists s, states w' = states w ++ [s]) /\
  (forall w, 1 < length (states w) ->
     states (snd (onClickPrevious H w)) = removelast (states w)) /\
  (forall w, length (states w) <= 1 -> onClickPrevious H w = (Ok tt, w)) /\
  (forall evs w, states (run H (EvActivated :: evs) w) <> []).
Proof.
  assert (A : forall w, states (snd (Activated H w)) <> []).
  { intros w. destruct (Activated_history w) as [l ->].
    destruct (states w); discriminate. }
  split; [exact A|].
  split.
  { intros w E. destruct (Activated_history w) as [l El].
    rewrite E in El. exists l. exact El. }
  split; [intros w w' arg; apply display_pushes|].
  split.
  { intros w w' E. destruct (growsP_handle H w) as (l & El & Hl).
    rewrite E in El, Hl. specialize (Hl true eq_refl).
    destruct l as [|s [|]]; try discriminate. exists s. exact El. }
  split.
  { intros c Hc w w' E.
    assert (G : grows 1 c).
    { simpl in Hc.
      destruct Hc as [<-|[<-|[<-|[<-|[<-|[]]]]]];
        first [ apply grows_canonical | apply grows_onClickAlign
              | apply grows_onClickAuto ]. }
    exact (grows_one_run c w w' tt G E). }
  split; [exact move_pushes|].
  split; [exact previous_pops|].
  split; [exact previous_floor|].
  intros evs w. apply (run_nonempty evs (step H EvActivated w)), A.
Qed.

End Invariant.

(** C2 on the state before the first use: "previous" does nothing there,
    and once activated two more "previous" leave the seed in place. *)
Lemma history_never_empty_witness :
  length (states Sample.world0) <= 1 /\
  onClickPrevious Sample.host Sample.world0 = (Ok tt, Sample.world0) /\
  states (run Sample.host [EvActivated; EvClickPrevious; EvClickPrevious] Sample.world0)
    <> [].
Proof.
  assert (Hl : length (states Sample.world0) <= 1) by (vm_compute; lia).
  destruct (history_never_empty Sample.host) as (_ & _ & _ & _ & _ & _ & _ & F & R).
  split; [exact Hl|]. split; [exact (F Sample.world0 Hl)|].
  exact (R [EvClickPrevious; EvClickPrevious] Sample.world0).
Defined.

(* ===================================================================== *)
(** ** Selections that [handle] turns down, and failures it does not see *)
(* ===================================================================== *)

Section Shapes.
Context {Hidden : Type} (H : Host Hidden).
Local Open Scope list_scope.

(** The shapes of selection that build a working plane, in the words of
    the tool's messages: an axis object, a working-plane proxy (or building
    part), a section plane, a single face (picked, or the only face of an
    unpicked Part feature), the Plane sub-element, three vertices (of one
    object, or gathered over several). *)
Definition is_axis_object (sel : list SelectionObject) : bool :=
  match sel with
  | [s] => (DraftType (Object s) =? "Axis")%string
  | _ => false
  end.

Definition is_plane_proxy (sel : list SelectionObject) : bool :=
  match sel with
  | [s] => (DraftType (Object s) =? "WorkingPlaneProxy")%string
           || (DraftType (Object s) =? "BuildingPart")%string
  | _ => false
  end.

Definition is_section_plane (sel : list SelectionObject) : bool :=
  match sel with
  | [s] => (DraftType (Object s) =? "SectionPlane")%string
  | _ => false
  end.

Definition is_single_face (sel : list SelectionObject) : bool :=
  match sel with
  | [s] =>
      if HasSubObjects s then
        match SubElementNames s with
        | [n0] => str_in "Face" n0
        | _ => false
        end
      else
        isPartFeature (Object s) && shape_bool H (Shape (Object s))
        && (length (Faces (Shape (Object s))) =? 1)%nat
  | _ => false
  end.

Definition is_plane_subelement (sel : list SelectionObject) : bool :=
  match sel with
  | [s] =>
      HasSubObjects s &&
      match SubElementNames s with
      | [n0] => (n0 =? "Plane")%string
      | _ => false
      end
  | _ => false
  end.

Definition is_three_vertices (sel : list SelectionObject) : bool :=
  match sel with
  | [] => false
  | [s] =>
      HasSubObjects s &&
      match SubElementNames s with
      | [n0; n1; n2] => str_in "Vertex" n0 && str_in "Vertex" n1 && str_in "Vertex" n2
      | _ => false
      end
  | _ => (length (picked_vertices sel) =? 3)%nat
  end.

Definition recognized (sel : list SelectionObject) : bool :=
  is_axis_object sel || is_plane_proxy sel || is_section_plane sel
  || is_single_face sel || is_plane_subelement sel || is_three_vertices sel.

(** A selection of none of these shapes is turned down: [handle] returns
    [False] and nothing has changed, so [checkSelection] leaves the session
    as it was (dialog, callback, plane and history). *)
Lemma handle_unrecognized (w : World Hidden) :
  recognized (selection w) = false ->
  handle H w = (Ok false, w) /\ checkSelection H w = (Ok tt, w).
Proof.
  intros Hr.
  assert (E : handle H w = (Ok false, w)).
  { unfold recognized in Hr.
    repeat (apply orb_false_elim in Hr; destruct Hr as [Hr ?]).
    unfold handle. rewrite bind_get.
    destruct (selection w) as [|s [|s' rest]]; [reflexivity| |].
    - unfold is_axis_object, is_plane_proxy, is_section_plane, is_single_face,
        is_plane_subelement, is_three_vertices in *.
      cbv zeta.
      repeat match goal with
             | E : ?b = false |- context [if ?b then _ else _] => rewrite E
             end.
      destruct (HasSubObjects s).
      + destruct (SubElementNames s) as [|n0 [|n1 [|n2 [|n3 l]]]];
          try reflexivity; simpl in *;
          repeat match goal with
                 | E : ?b = false |- context [if ?b then _ else _] => rewrite E
                 end; reflexivity.
      + destruct (isPartFeature (Object s)); [|reflexivity].
        destruct (shape_bool H (Shape (Object s))); [|reflexivity].
        destruct (Faces (Shape (Object s))) as [|f [|f' l]];
          try reflexivity; simpl in *; discriminate.
    - unfold is_three_vertices in *.
      destruct (picked_vertices (s :: s' :: rest)) as [|a [|b [|c [|d l]]]];
        try reflexivity; simpl in *; discriminate. }
  split; [exact E|].
  unfold checkSelection. rewrite (bind_Ok _ _ _ _ _ E). reflexivity.
Qed.

(** Three picked vertices of one plain object: with a readable offset and a
    Snapper, [handle] returns [True] and records the plane, whatever the
    aligner returned. *)
Lemma handle_three_vertices (w : World Hidden) (s : SelectionObject)
  (n0 n1 n2 : string) (p0 p1 p2 : Vector) (o : float) :
  selection w = [s] ->
  is_axis_object [s] = false -> is_plane_proxy [s] = false ->
  is_section_plane [s] = false ->
  HasSubObjects s = true -> SubElementNames s = [n0; n1; n2] ->
  str_in "Vertex" n0 && str_in "Vertex" n1 && str_in "Vertex" n2 = true ->
  SubObjects s = [ShVertex p0; ShVertex p1; ShVertex p2] ->
  getOffset H w = (Ok o, w) -> snapper w = true ->
  exists w',
    handle H w = (Ok true, w') /\
    wp w' = fst (wp_alignTo3Points H p0 p1 p2 o (wp w)) /\
    states w' = states w ++ [snapshot (wp w')].
Proof.
  intros Hsel Ha Hp Hsp Hsub Hn Hv Hso Ho Hs.
  set (w1 := set_wp (fst (wp_alignTo3Points H p0 p1 p2 o (wp w))) w).
  assert (Ho1 : getOffset H w1 = (Ok o, w1))
    by (apply getOffset_frame with (w := w); [reflexivity | exact Ho]).
  destruct (display_run H w1 (ArgVector (axis (wp w1))) o Ho1 Hs)
    as (w' & Ed & D1 & D2 & _).
  exists w'. split.
  - unfold handle. rewrite bind_get, Hsel. cbv zeta.
    unfold is_axis_object, is_plane_proxy, is_section_plane in *.
    rewrite Ha, Hp, Hsp, Hsub, Hn, Hv, Hso.
    unfold getitem. cbn [nth_error].
    repeat (rewrite bind_ret; cbv beta; cbn [Point_of]).
    rewrite (bind_Ok _ _ _ _ _ Ho).
    rewrite (bind_Ok _ _ w w1 (snd (wp_alignTo3Points H p0 p1 p2 o (wp w))))
      by reflexivity.
    rewrite (bind_Ok _ _ w1 w' tt) by exact Ed. reflexivity.
  - rewrite D2, D1. split; reflexivity.
Qed.

End Shapes.

(** C3, the failing run: the session waits with 5 in the offset field and
    three vertices on one line are picked.  The aligner reports failure
    and leaves the plane alone, yet [handle] returns [True] and adds a
    copy of the current plane to the history, and the queued
    [checkSelection] then finishes the command: the dialog is closed and
    the callback removed. *)
Theorem handle_misses_failed_alignment :
  Sample.alignTo3Points (mkVector 0 0 0) (mkVector 1 0 0) (mkVector 2 0 0) 5
    (wp Sessions.awaiting_offset5)
  = (wp Sessions.awaiting_offset5, false) /\
  (exists w',
     handle Sample.host
       (set_selection Sessions.collinear_pick Sessions.awaiting_offset5)
     = (Ok true, w') /\
     wp w' = wp Sessions.awaiting_offset5 /\
     states w' = (states Sessions.awaiting_offset5
                  ++ [snapshot (wp Sessions.awaiting_offset5)])%list) /\
  dialog Sessions.awaiting_offset5 = true /\
  callbacks Sessions.awaiting_offset5 = [0] /\
  (exists w'',
     checkSelection Sample.host
       (set_selection Sessions.collinear_pick Sessions.awaiting_offset5)
     = (Ok tt, w'') /\
     dialog w'' = false /\ call w'' = CallNone /\ callbacks w'' = []).
Proof.
  split; [vm_compute; reflexivity|].
  split; [eexists; split; [vm_compute; reflexivity|];
          split; vm_compute; reflexivity|].
  split; [vm_compute; reflexivity|].
  split; [vm_compute; reflexivity|].
  eexists; split; [vm_compute; reflexivity|].
  repeat split; vm_compute; reflexivity.
Qed.

(* ===================================================================== *)
(** ** More about the command: preferences and the task panel *)
(* ===================================================================== *)

Section MoreFrames.
Context {Hidden : Type} (H : Host Hidden).
Local Open Scope list_scope.

Lemma bind_assoc {A B C} (c : M Hidden A) (f : A -> M Hidden B)
  (k : B -> M Hidden C) (w : World Hidden) :
  bind (bind c f) k w = bind c (fun a => bind (f a) k) w.
Proof.
  unfold bind. destruct (c w) as [[a|e] w1]; [|reflexivity].
  destruct (f a w1) as [[b|e] w2]; reflexivity.
Qed.

(** The loop over the visibility map writes visibilities and the trace,
    nothing else. *)
Lemma preserves_restore_visibility {X} (obs : World Hidden -> X)
  (items : list (string * string)) :
  (forall k b w,
     obs (mkWorld (states w) (taskd w) (call w) (wp w) (param w) (selection w)
            (camera w) (dialog w) (wpText w) (wpToolTip w) (callbacks w)
            (next_callback w) (itinerary w) (trace w) (snapper w)
            (view_alive w) (<[k := b]> (visibility w))) = obs w) ->
  (forall l w, obs (set_trace l w) = obs w) ->
  preserves obs (restore_visibility H items).
Proof.
  intros Hv Ht. induction items as [|[k val] rest IH]; simpl.
  - apply preserves_ret.
  - apply preserves_bind; [apply preserves_get|]. intros w.
    apply preserves_bind; [|intros; exact IH].
    destruct (visibility w !! k) as [vis|]; [|apply preserves_ret].
    destruct (negb _); [|apply preserves_ret].
    unfold doCommandGui, log, run_command.
    apply preserves_bind; [apply preserves_modify; intros; apply Ht|]. intros _.
    destruct (py_eval_bool H val); [|apply preserves_raise].
    apply preserves_modify. intros w0. apply Hv.
Qed.

End MoreFrames.

#[export] Hint Extern 1 (preserves _ (restore_visibility _ _)) =>
  apply preserves_restore_visibility; intros; reflexivity : preserves.

Section Preferences.
Context {Hidden : Type} (H : Host Hidden).
Local Open Scope list_scope.

(** The task panel as [Activated] fills it from the preferences. *)
Definition panel_of (p : Params) : Form :=
  mkForm (GetBool "CenterPlaneOnView" false p)
         (ui_offset_text H)
         (quantity_user_string H (GetFloat "gridSpacing" 1 p))
         (GetInt "gridEvery" 10 p)
         (GetInt "snapRange" 8 p).

Lemma handle_preserves_taskd : preserves taskd (handle H).
Proof. preserves_tac. Qed.

Lemma handle_preserves_param : preserves param (handle H).
Proof. preserves_tac. Qed.

(** Whatever else [Activated] does, it leaves a new task panel filled from
    the preferences as they were. *)
Lemma Activated_panel (w : World Hidden) :
  taskd (snd (Activated H w)) = Some (panel_of (param w)).
Proof.
  unfold Activated. rewrite bind_modify, bind_get. cbv beta.
  destruct (states (set_wp (wp_setup H (camera w) (wp w)) w));
    [rewrite bind_modify | rewrite bind_ret]; cbv beta;
    unfold log at 1; rewrite bind_modify;
    unfold closeDialog at 1; rewrite bind_assoc, bind_modify;
    unfold log at 1; rewrite bind_modify, bind_modify; cbv beta;
    match goal with
    | |- taskd (snd (?c ?w0)) = _ =>
        assert (P : preserves taskd c) by preserves_tac; rewrite (P w0)
    end;
    reflexivity.
Qed.

Lemma GetBool_SetBool (name : string) (b d : bool) (p : Params) :
  GetBool name d (SetBool name b p) = b.
Proof. unfold GetBool, SetBool. cbn [p_bool]. rewrite lookup_insert_eq. reflexivity. Qed.

Lemma finish_param (w : World Hidden) (form : Form) :
  taskd w = Some form ->
  param (snd (finish H w)) = SetBool "CenterPlaneOnView" (checkCenter form) (param w).
Proof.
  intros Ht. unfold finish.
  rewrite (bind_Ok _ _ w w form) by (unfold the_form, bind, get; rewrite Ht; reflexivity).
  rewrite bind_modify. cbv beta.
  match goal with
  | |- param (snd (?c ?w0)) = _ =>
      assert (P : preserves param c) by preserves_tac; rewrite (P w0)
  end.
  reflexivity.
Qed.

(** X1: the centering tick is carried from one session to the next through
    the preferences, while the offset field starts again from the text the
    panel is built with. *)
Theorem centering_tick_survives (w : World Hidden) (form : Form) :
  taskd w = Some form ->
  exists form',
    taskd (snd (Activated H (snd (finish H w)))) = Some form' /\
    checkCenter form' = checkCenter form /\
    fieldOffset form' = ui_offset_text H /\
    fieldGridMainLine form' = GetInt "gridEvery" 10 (param w) /\
    fieldSnapRadius form' = GetInt "snapRange" 8 (param w).
Proof.
  intros Ht. eexists. split; [apply Activated_panel|].
  rewrite (finish_param w form Ht). unfold panel_of.
  cbn [checkCenter fieldOffset fieldGridMainLine fieldSnapRadius].
  rewrite GetBool_SetBool. repeat split; reflexivity.
Qed.

Lemma onSetMainline_param (w : World Hidden) (i : Z) :
  param (snd (onSetMainline i w))
  = if (1 <? i)%Z then SetInt "gridEvery" i (param w) else param w.
Proof.
  unfold onSetMainline. destruct (1 <? i)%Z; [|reflexivity].
  rewrite bind_modify, bind_get.
  change (snapper (set_param (SetInt "gridEvery" i (param w)) w)) with (snapper w).
  destruct (snapper w) eqn:Es; [|reflexivity].
  unfold Snapper_setGrid. rewrite bind_get.
  change (snapper (set_param (SetInt "gridEvery" i (param w)) w)) with (snapper w).
  rewrite Es. reflexivity.
Qed.

Lemma onSetSnapRadius_run (w : World Hidden) (i : Z) :
  onSetSnapRadius i w
  = (Ok tt,
     if snapper w
     then set_trace (trace w ++ [ShowRadius])
            (set_param (SetInt "snapRange" i (param w)) w)
     else set_param (SetInt "snapRange" i (param w)) w).
Proof.
  unfold onSetSnapRadius. rewrite bind_modify, bind_get.
  change (snapper (set_param (SetInt "snapRange" i (param w)) w)) with (snapper w).
  destruct (snapper w) eqn:Es; [|reflexivity].
  unfold Snapper_showradius. rewrite bind_get.
  change (snapper (set_param (SetInt "snapRange" i (param w)) w)) with (snapper w).
  rewrite Es. reflexivity.
Qed.

Lemma onSetGridSize_run (w : World Hidden) (text : string) :
  onSetGridSize H text w
  = (Ok tt,
     match quantity_value H text with
     | None => w
     | Some q =>
         if snapper w
         then set_trace (trace w ++ [SetGrid])
                (set_param (SetFloat "gridSpacing" q (param w)) w)
         else set_param (SetFloat "gridSpacing" q (param w)) w
     end).
Proof.
  unfold onSetGridSize. destruct (quantity_value H text) as [q|]; [|reflexivity].
  rewrite bind_modify, bind_get.
  change (snapper (set_param (SetFloat "gridSpacing" q (param w)) w)) with (snapper w).
  destruct (snapper w) eqn:Es; [|reflexivity].
  unfold Snapper_setGrid. rewrite bind_get.
  change (snapper (set_param (SetFloat "gridSpacing" q (param w)) w)) with (snapper w).
  rewrite Es. reflexivity.
Qed.

(** X2: a grid size text that is no quantity is ignored without a word: the
    slot returns normally and the state is what it was.  A text that is a
    quantity is stored under [gridSpacing], no other preference changes,
    and the grid is redrawn when there is a Snapper. *)
Theorem onSetGridSize_gate (w : World Hidden) (text : string) :
  (quantity_value H text = None -> onSetGridSize H text w = (Ok tt, w)) /\
  (forall q, quantity_value H text = Some q ->
     fst (onSetGridSize H text w) = Ok tt /\
     GetFloat "gridSpacing" 1 (param (snd (onSetGridSize H text w))) = q /\
     p_int (param (snd (onSetGridSize H text w))) = p_int (param w) /\
     p_bool (param (snd (onSetGridSize H text w))) = p_bool (param w) /\
     states (snd (onSetGridSize H text w)) = states w /\
     wp (snd (onSetGridSize H text w)) = wp w /\
     trace (snd (onSetGridSize H text w))
       = trace w ++ (if snapper w then [SetGrid] else [])).
Proof.
  rewrite onSetGridSize_run. split.
  - intros ->. reflexivity.
  - intros q ->. cbn [fst snd].
    destruct (snapper w); cbn [param set_trace set_param states wp trace];
      unfold GetFloat, SetFloat; cbn [p_float p_int p_bool];
      rewrite lookup_insert_eq, ?app_nil_r; repeat split; reflexivity.
Qed.

(** X3: what the user sets in one panel is what the next panel shows: after
    a main-line interval [i > 1], a snap radius [j] (any integer, there is
    no lower bound on this one) and a grid size text that reads as the
    quantity [q], the panel built by the next [Activated] holds [i], [j]
    and the user string of [q]; the centering tick is untouched. *)
Theorem next_panel_shows_settings (w : World Hidden) (i j : Z) (text : string)
  (q : float) :
  (1 < i)%Z -> quantity_value H text = Some q ->
  taskd (snd (Activated H
           (snd (onSetGridSize H text
              (snd (onSetSnapRadius j (snd (onSetMainline i w))))))))
  = Some (mkForm (GetBool "CenterPlaneOnView" false (param w))
                 (ui_offset_text H) (quantity_user_string H q) i j).
Proof.
  intros Hi Hq. rewrite Activated_panel. f_equal.
  assert (P : param (snd (onSetGridSize H text
                (snd (onSetSnapRadius j (snd (onSetMainline i w))))))
              = SetFloat "gridSpacing" q
                  (SetInt "snapRange" j (SetInt "gridEvery" i (param w)))).
  { rewrite onSetGridSize_run, Hq. cbn [snd].
    assert (P1 : forall w0 : World Hidden,
              param (if snapper w0
                     then set_trace (trace w0 ++ [SetGrid])
                            (set_param (SetFloat "gridSpacing" q (param w0)) w0)
                     else set_param (SetFloat "gridSpacing" q (param w0)) w0)
              = SetFloat "gridSpacing" q (param w0))
      by (intros w0; destruct (snapper w0); reflexivity).
    rewrite P1, onSetSnapRadius_run. cbn [snd].
    assert (P2 : forall w0 : World Hidden,
              param (if snapper w0
                     then set_trace (trace w0 ++ [ShowRadius])
                            (set_param (SetInt "snapRange" j (param w0)) w0)
                     else set_param (SetInt "snapRange" j (param w0)) w0)
              = SetInt "snapRange" j (param w0))
      by (intros w0; destruct (snapper w0); reflexivity).
    rewrite P2, onSetMainline_param.
    apply Z.ltb_lt in Hi. rewrite Hi. reflexivity. }
  rewrite P. unfold panel_of, GetBool, GetInt, GetFloat, SetFloat, SetInt.
  cbn [p_bool p_int p_float].
  rewrite !lookup_insert_eq, lookup_insert_ne by discriminate.
  rewrite lookup_insert_eq. reflexivity.
Qed.

End Preferences.

(** The tick set in the first session shows in the panel of the second. *)
Lemma centering_tick_survives_witness :
  taskd Sessions.looking_along_Z = Some Sessions.panel_centered /\
  exists form',
    taskd (snd (Activated Sample.host (snd (finish Sample.host Sessions.looking_along_Z))))
      = Some form' /\
    checkCenter form' = true.
Proof.
  assert (Ht : taskd Sessions.looking_along_Z = Some Sessions.panel_centered)
    by (vm_compute; reflexivity).
  split; [exact Ht|].
  destruct (centering_tick_survives Sample.host Sessions.looking_along_Z
              Sessions.panel_centered Ht) as (form' & E & C & _).
  exists form'. split; [exact E | exact C].
Defined.

(** A text that is no quantity, and one that is. *)
Lemma onSetGridSize_gate_witness :
  onSetGridSize Sample.host "wide" Sample.world0 = (Ok tt, Sample.world0) /\
  GetFloat "gridSpacing" 1
    (param (snd (onSetGridSize Sample.host "25 mm" Sample.world0))) = 25%float.
Proof.
  split.
  - apply (proj1 (onSetGridSize_gate Sample.host Sample.world0 "wide")).
    reflexivity.
  - apply (proj2 (onSetGridSize_gate Sample.host Sample.world0 "25 mm") 25%float).
    reflexivity.
Defined.

Lemma next_panel_shows_settings_witness :
  (1 < 5)%Z /\
  quantity_value Sample.host "25 mm" = Some 25%float /\
  taskd (snd (Activated Sample.host
           (snd (onSetGridSize Sample.host "25 mm"
              (snd (onSetSnapRadius 0 (snd (onSetMainline 5 Sample.world0))))))))
  = Some (mkForm false "0" "25.0 mm" 5 0).
Proof.
  assert (Hi : (1 < 5)%Z) by reflexivity.
  assert (Hq : quantity_value Sample.host "25 mm" = Some 25%float) by reflexivity.
  split; [exact Hi|]. split; [exact Hq|].
  exact (next_panel_shows_settings Sample.host Sample.world0 5 0 "25 mm" 25%float Hi Hq).
Defined.

(* ===================================================================== *)
(** ** More about the command: the session and its edges *)
(* ===================================================================== *)

Section SessionEdges.
Context {Hidden : Type} (H : Host Hidden).
Local Open Scope list_scope.

Lemma filter_ne_absent (id : nat) (l : list nat) :
  id ∉ l -> filter (fun i => i ≠ id) l = l.
Proof.
  induction l as [|a l IH]; intros Hn; [reflexivity|].
  apply not_elem_of_cons in Hn as [Ha Hl].
  rewrite filter_cons_True by congruence. rewrite IH by exact Hl. reflexivity.
Qed.

(** What [finish] does to the callbacks of the view. *)
Lemma finish_callback_run (w : World Hidden) (form : Form) (id : nat) :
  taskd w = Some form -> call w = Callback id ->
  exists w',
    finish H w = (Ok true, w') /\
    call w' = CallNone /\ dialog w' = false /\
    callbacks w'
      = (if view_alive w then filter (fun i => i ≠ id) (callbacks w)
         else callbacks w) /\
    (view_alive w = true -> id ∉ callbacks w') /\
    (forall j, j ≠ id -> (j ∈ callbacks w' <-> j ∈ callbacks w)).
Proof.
  intros Ht Hc.
  unfold finish, the_form, closeDialog, log, bind, get, modify, ret.
  cbn. rewrite Ht. cbn. rewrite Hc. cbn.
  destruct (view_alive w); cbn; (eexists; split; [reflexivity|]); cbn;
    repeat split; try tauto; try discriminate.
  - intros _ Hin. apply list_elem_of_filter in Hin as [Hne _]. congruence.
  - intros Hin. apply list_elem_of_filter in Hin. tauto.
  - intros Hin. apply list_elem_of_filter. tauto.
Qed.

(** X4: [finish] removes from the view the callback that [self.call] holds
    and no other; when the view is gone the removal fails, the failure is
    swallowed and [finish] completes all the same. *)
Theorem finish_removes_its_callback (w : World Hidden) (form : Form) (id : nat) :
  taskd w = Some form -> call w = Callback id ->
  exists w',
    finish H w = (Ok true, w') /\
    call w' = CallNone /\ dialog w' = false /\
    callbacks w'
      = (if view_alive w then filter (fun i => i ≠ id) (callbacks w)
         else callbacks w) /\
    (view_alive w = true -> id ∉ callbacks w') /\
    (forall j, j ≠ id -> (j ∈ callbacks w' <-> j ∈ callbacks w)) /\
    states w' = states w /\ wp w' = wp_restore H (wp w).
Proof.
  intros Ht Hc.
  destruct (finish_callback_run w form id Ht Hc) as (w' & E & C & D & B & N & O).
  destruct (finish_run H w form Ht) as (w2 & E2 & S2 & P2 & _);
    [rewrite Hc; discriminate|].
  rewrite E in E2. injection E2 as <-.
  exists w'. repeat split; auto; apply O; assumption.
Qed.

(** X5: the view callback reacts to the ESCAPE key and to BUTTON1 going
    down and to nothing else: any other key, any other mouse button or
    state, and any other kind of event leave the state exactly as it was;
    ESCAPE does what [finish] does. *)
Theorem action_ignores_other_events (w : World Hidden) :
  (forall key st, key <> "ESCAPE" -> action H (SoKeyboardEvent key st) w = (Ok tt, w)) /\
  (forall st b, st <> "DOWN" \/ b <> "BUTTON1" ->
     action H (SoMouseButtonEvent st b) w = (Ok tt, w)) /\
  (forall t, action H (SoOtherEvent t) w = (Ok tt, w)) /\
  (forall st,
     snd (action H (SoKeyboardEvent "ESCAPE" st) w) = snd (finish H w) /\
     (forall e, fst (finish H w) = Raise e ->
        fst (action H (SoKeyboardEvent "ESCAPE" st) w) = Raise e) /\
     (forall r, fst (finish H w) = Ok r ->
        fst (action H (SoKeyboardEvent "ESCAPE" st) w) = Ok tt)).
Proof.
  split; [|split; [|split]].
  - intros key st Hk. unfold action. apply String.eqb_neq in Hk. rewrite Hk. reflexivity.
  - intros st b Hsb. unfold action.
    destruct Hsb as [Hn|Hn]; apply String.eqb_neq in Hn; rewrite Hn;
      rewrite ?andb_false_r; reflexivity.
  - intros t. reflexivity.
  - intros st. unfold action. cbn. unfold bind.
    destruct (finish H w) as [[r|e] w1]; cbn; repeat split; intros; congruence.
Qed.

(** The offset field when neither [float()] nor [Quantity()] reads it. *)
Lemma getOffset_unreadable (w : World Hidden) (form : Form) :
  taskd w = Some form ->
  py_float H (fieldOffset form) = None ->
  quantity_value H (fieldOffset form) = None ->
  getOffset H w = (Raise ValueError, w).
Proof.
  intros Ht Hf Hq. unfold getOffset, the_form, bind, get, ret, raise.
  rewrite Ht, Hf, Hq. reflexivity.
Qed.

(** X6: with an offset field that neither [float()] nor [Quantity()] can
    read, [display] and the canonical buttons raise at once and the state
    is what it was: no command is sent, no text set, nothing recorded, the
    dialog stays.  A face pick raises before the plane is aligned.  Auto
    has already reset the plane when [display] raises: the plane is the
    reset one, but it is not recorded and the session is not finished. *)
Theorem unreadable_offset_stops (w : World Hidden) (form : Form) :
  taskd w = Some form ->
  py_float H (fieldOffset form) = None ->
  quantity_value H (fieldOffset form) = None ->
  (forall arg, display H arg w = (Raise ValueError, w)) /\
  onClickTop H w = (Raise ValueError, w) /\
  onClickFront H w = (Raise ValueError, w) /\
  onClickSide H w = (Raise ValueError, w) /\
  (forall s n0 so rest,
     selection w = [s] -> is_axis_object [s] = false ->
     is_plane_proxy [s] = false -> is_section_plane [s] = false ->
     HasSubObjects s = true -> SubElementNames s = [n0] ->
     str_in "Face" n0 = true -> SubObjects s = so :: rest ->
     handle H w = (Raise ValueError, w)) /\
  (fst (onClickAuto H w) = Raise ValueError /\
   wp (snd (onClickAuto H w)) = wp_reset H (wp w) /\
   states (snd (onClickAuto H w)) = states w /\
   dialog (snd (onClickAuto H w)) = dialog w /\
   call (snd (onClickAuto H w)) = call w).
Proof.
  intros Ht Hf Hq.
  pose proof (getOffset_unreadable w form Ht Hf Hq) as Eo.
  assert (D : forall arg, display H arg w = (Raise ValueError, w)).
  { intros arg. unfold display. rewrite (bind_Raise _ _ _ _ _ Eo). reflexivity. }
  assert (C : forall x y z name, canonical H x y z name w = (Raise ValueError, w)).
  { intros. unfold canonical. rewrite (bind_Raise _ _ _ _ _ Eo). reflexivity. }
  split; [exact D|].
  split; [apply C|]. split; [apply C|]. split; [apply C|].
  split.
  - intros s n0 so rest Hsel Ha Hp Hsp Hsub Hn Hface Hso.
    unfold handle. rewrite bind_get, Hsel. cbv zeta.
    unfold is_axis_object, is_plane_proxy, is_section_plane in *.
    rewrite Ha, Hp, Hsp, Hsub, Hn, Hface, Hso.
    unfold getitem. cbn [nth_error]. rewrite bind_ret. cbv beta.
    rewrite (bind_Raise _ _ _ _ _ Eo). reflexivity.
  - unfold onClickAuto, doCommandGui, log, run_command.
    rewrite bind_assoc, bind_modify, bind_modify. cbv beta.
    set (w1 := set_wp _ _).
    assert (E1 : getOffset H w1 = (Raise ValueError, w1))
      by (apply getOffset_unreadable with (form := form); auto).
    unfold display. rewrite bind_assoc, (bind_Raise _ _ _ _ _ E1).
    repeat split; reflexivity.
Qed.

End SessionEdges.

(** A session that waits: its callback is the one that goes. *)
Lemma finish_removes_its_callback_witness :
  taskd Sessions.awaiting_offset5 = Some (mkForm false "5" "1.0 mm" 10 8) /\
  call Sessions.awaiting_offset5 = Callback 0 /\
  exists w',
    finish Sample.host Sessions.awaiting_offset5 = (Ok true, w') /\
    call w' = CallNone /\ dialog w' = false.
Proof.
  assert (Ht : taskd Sessions.awaiting_offset5 = Some (mkForm false "5" "1.0 mm" 10 8))
    by (vm_compute; reflexivity).
  assert (Hc : call Sessions.awaiting_offset5 = Callback 0)
    by (vm_compute; reflexivity).
  split; [exact Ht|]. split; [exact Hc|].
  destruct (finish_removes_its_callback Sample.host Sessions.awaiting_offset5 _ 0 Ht Hc)
    as (w' & E & C & D & _).
  exists w'. split; [exact E|]. split; [exact C|exact D].
Defined.

(** A key that is not ESCAPE, and the second mouse button. *)
Lemma action_ignores_other_events_witness :
  "RETURN" <> "ESCAPE" /\
  action Sample.host (SoKeyboardEvent "RETURN" "DOWN") Sessions.awaiting_offset5
    = (Ok tt, Sessions.awaiting_offset5) /\
  action Sample.host (SoMouseButtonEvent "DOWN" "BUTTON2") Sessions.awaiting_offset5
    = (Ok tt, Sessions.awaiting_offset5).
Proof.
  assert (Hk : "RETURN" <> "ESCAPE") by discriminate.
  destruct (action_ignores_other_events Sample.host Sessions.awaiting_offset5)
    as (K & M & _).
  split; [exact Hk|]. split; [exact (K "RETURN" "DOWN" Hk)|].
  apply M. right. discriminate.
Defined.

(** The offset field reads [five]: Top raises and nothing has changed. *)
Lemma unreadable_offset_stops_witness :
  taskd (step Sample.host (EvEditOffset "five") Sessions.awaiting_offset5)
    = Some (mkForm false "five" "1.0 mm" 10 8) /\
  onClickTop Sample.host (step Sample.host (EvEditOffset "five") Sessions.awaiting_offset5)
    = (Raise ValueError,
       step Sample.host (EvEditOffset "five") Sessions.awaiting_offset5).
Proof.
  assert (Ht : taskd (step Sample.host (EvEditOffset "five") Sessions.awaiting_offset5)
               = Some (mkForm false "five" "1.0 mm" 10 8))
    by (vm_compute; reflexivity).
  split; [exact Ht|].
  exact (proj1 (proj2 (unreadable_offset_stops Sample.host _ _ Ht eq_refl eq_refl))).
Defined.

Ltac world_simpl :=
  cbn [states taskd call wp param selection camera dialog wpText wpToolTip
       callbacks next_callback itinerary trace snapper view_alive visibility
       set_states set_taskd set_call set_wp set_param set_selection set_camera
       set_dialog set_wpText set_wpToolTip set_callbacks set_itinerary
       set_trace fst snd].

Ltac world_simpl_in Hyp :=
  cbn [states taskd call wp param selection camera dialog wpText wpToolTip
       callbacks next_callback itinerary trace snapper view_alive visibility
       set_states set_taskd set_call set_wp set_param set_selection set_camera
       set_dialog set_wpText set_wpToolTip set_callbacks set_itinerary
       set_trace fst snd] in Hyp.

Section Activation.
Context {Hidden : Type} (H : Host Hidden).
Local Open Scope list_scope.

(** [Activated] when neither [handle] nor [alignToSelection] finds a plane:
    the panel is shown and a new callback is installed. *)
Lemma Activated_awaits (w : World Hidden) :
  recognized H (selection w) = false ->
  snd (wp_alignToSelection H (selection w) (wp_setup H (camera w) (wp w))) = false ->
  exists w1,
    Activated H w = (Ok tt, w1) /\
    dialog w1 = true /\
    call w1 = Callback (next_callback w) /\
    callbacks w1 = callbacks w ++ [next_callback w] /\
    next_callback w1 = S (next_callback w) /\
    taskd w1 = Some (panel_of H (param w)) /\
    states w1 = match states w with
                | [] => [snapshot (wp_setup H (camera w) (wp w))]
                | l => l
                end /\
    wp w1 = fst (wp_alignToSelection H (selection w) (wp_setup H (camera w) (wp w))) /\
    selection w1 = selection w /\ view_alive w1 = view_alive w /\
    param w1 = param w.
Proof.
  intros Hr Ha.
  unfold Activated. rewrite bind_modify, bind_get. cbv beta. world_simpl.
  destruct (states w) as [|s0 l0] eqn:E;
    [rewrite bind_modify | rewrite bind_ret]; cbv beta;
    unfold log at 1; rewrite bind_modify;
    unfold closeDialog at 1; rewrite bind_assoc, bind_modify;
    unfold log at 1; rewrite bind_modify, bind_modify; cbv beta;
    match goal with
    | |- context [bind (handle H) _ ?W] =>
        rewrite (bind_Ok _ _ W W false) by (apply handle_unrecognized; exact Hr)
    end;
    cbv beta iota; rewrite bind_get; cbv beta;
    match goal with
    | |- context [bind (align ?f) _ ?W] =>
        rewrite (bind_Ok _ _ W (set_wp (fst (f (wp W))) W) (snd (f (wp W))))
          by reflexivity
    end;
    world_simpl; rewrite Ha;
    unfold showDialog; rewrite bind_assoc, bind_modify; unfold log;
    rewrite bind_modify; cbv beta;
    (eexists; split; [reflexivity|]); world_simpl; rewrite ?E;
    repeat split; reflexivity.
Qed.

Lemma finish_preserves_selection : preserves selection (finish H).
Proof. preserves_tac. Qed.

Lemma display_preserves_selection (arg : DisplayArg) :
  preserves selection (display H arg).
Proof. preserves_tac. Qed.

Lemma display_preserves_param (arg : DisplayArg) : preserves param (display H arg).
Proof. preserves_tac. Qed.

(** X7: activating and then cancelling leaves the view's callbacks as they
    were.  When the selection is of no recognized shape and
    [alignToSelection] fails too, [Activated] shows the panel and installs
    one new callback; [reject] then closes the panel and removes that
    callback and no other.  History and selection are what [Activated]
    left. *)
Theorem activate_then_cancel (w : World Hidden) :
  recognized H (selection w) = false ->
  snd (wp_alignToSelection H (selection w) (wp_setup H (camera w) (wp w))) = false ->
  view_alive w = true -> next_callback w ∉ callbacks w ->
  exists w1 w2,
    Activated H w = (Ok tt, w1) /\
    dialog w1 = true /\ next_callback w ∈ callbacks w1 /\
    reject H w1 = (Ok true, w2) /\
    callbacks w2 = callbacks w /\ dialog w2 = false /\ call w2 = CallNone /\
    states w2 = states w1 /\ selection w2 = selection w.
Proof.
  intros Hr Ha Hv Hn.
  destruct (Activated_awaits w Hr Ha)
    as (w1 & E1 & D1 & C1 & B1 & _ & T1 & _ & _ & S1 & V1 & _).
  destruct (finish_callback_run H w1 _ _ T1 C1)
    as (w2 & E2 & C2 & D2 & B2 & _).
  exists w1, w2. split; [exact E1|]. split; [exact D1|].
  split; [rewrite B1; apply elem_of_app; right; apply list_elem_of_singleton; reflexivity|].
  split; [unfold reject; rewrite (bind_Ok _ _ _ _ _ E2); reflexivity|].
  split.
  { rewrite B2, V1, Hv, B1, filter_app, (filter_ne_absent _ _ Hn).
    rewrite filter_cons_False by tauto. rewrite filter_nil. apply app_nil_r. }
  split; [exact D2|]. split; [exact C2|].
  pose proof (finish_preserves_states H w1) as Ps.
  pose proof (finish_preserves_selection w1) as Pl.
  rewrite E2 in Ps, Pl. cbn [snd] in Ps, Pl.
  split; [exact Ps | rewrite Pl; exact S1].
Qed.

(** [finish] on a command whose [call] was never assigned. *)
Lemma finish_unset (w : World Hidden) (form : Form) :
  taskd w = Some form -> call w = CallUnset ->
  finish H w
  = (Raise AttributeError,
     set_param (SetBool "CenterPlaneOnView" (checkCenter form) (param w)) w).
Proof.
  intros Ht Hc. unfold finish.
  rewrite (bind_Ok _ _ w w form) by (unfold the_form, bind, get; rewrite Ht; reflexivity).
  rewrite bind_modify, bind_get. world_simpl. rewrite Hc. reflexivity.
Qed.

(** X8: [self.call] is assigned only where [Activated] installs the
    callback.  On a command that has never installed one, an activation in
    which [handle] finds nothing but [alignToSelection] succeeds reaches
    [finish] with [call] unassigned and raises AttributeError: by then the
    plane is aligned and recorded, the selection cleared and the centering
    preference stored, but the plane's [restore()] is not called and
    [call] stays unassigned. *)
Theorem first_activation_without_call (w : World Hidden) (o : float) :
  call w = CallUnset ->
  recognized H (selection w) = false ->
  snd (wp_alignToSelection H (selection w) (wp_setup H (camera w) (wp w))) = true ->
  py_float H (ui_offset_text H) = Some o -> snapper w = true ->
  exists w',
    Activated H w = (Raise AttributeError, w') /\
    call w' = CallUnset /\ dialog w' = false /\ selection w' = [] /\
    wp w' = fst (wp_alignToSelection H (selection w) (wp_setup H (camera w) (wp w))) /\
    states w' = match states w with
                | [] => [snapshot (wp_setup H (camera w) (wp w))]
                | l => l
                end ++ [snapshot (wp w')] /\
    param w' = SetBool "CenterPlaneOnView"
                 (GetBool "CenterPlaneOnView" false (param w)) (param w).
Proof.
  intros Hc Hr Ha Hf Hs.
  unfold Activated. rewrite bind_modify, bind_get. cbv beta. world_simpl.
  destruct (states w) as [|s0 l0] eqn:E;
    [rewrite bind_modify | rewrite bind_ret]; cbv beta;
    unfold log at 1; rewrite bind_modify;
    unfold closeDialog at 1; rewrite bind_assoc, bind_modify;
    unfold log at 1; rewrite bind_modify, bind_modify; cbv beta;
    match goal with
    | |- context [bind (handle H) _ ?W] =>
        rewrite (bind_Ok _ _ W W false) by (apply handle_unrecognized; exact Hr)
    end;
    cbv beta iota; rewrite bind_get; cbv beta;
    match goal with
    | |- context [bind (align ?f) _ ?W] =>
        rewrite (bind_Ok _ _ W (set_wp (fst (f (wp W))) W) (snd (f (wp W))))
          by reflexivity
    end;
    world_simpl; rewrite Ha;
    rewrite bind_modify; unfold log at 1; rewrite bind_modify; cbv beta;
    match goal with
    | |- context [bind (display_axis H) _ ?W] =>
        assert (Eo : getOffset H W = (Ok o, W))
          by (unfold getOffset, the_form, bind, get, ret; world_simpl;
              cbn [fieldOffset]; rewrite Hf; reflexivity);
        destruct (display_run H W (ArgVector (axis (wp W))) o Eo Hs)
          as (w4 & Ed & D1 & D2 & D3 & D4 & _ & _ & _ & D8 & _);
        pose proof (display_preserves_selection (ArgVector (axis (wp W))) W) as Dsel;
        pose proof (display_preserves_param (ArgVector (axis (wp W))) W) as Dpar;
        rewrite Ed in Dsel, Dpar;
        rewrite (bind_Ok _ _ W w4 tt) by exact Ed
    end;
    rewrite (bind_Raise _ _ _ _ _ (finish_unset w4 _ D3 (eq_trans D4 Hc)));
    (eexists; split; [reflexivity|]); world_simpl;
    world_simpl_in D1; world_simpl_in D2; world_simpl_in D8;
    world_simpl_in Dsel; world_simpl_in Dpar;
    rewrite D1, D2, D8, Dsel, Dpar, ?E; cbn [checkCenter];
    repeat split; auto; rewrite D4; exact Hc.
Qed.

End Activation.

(** The sample host again, with an [alignToSelection] that always finds a
    plane (it keeps the plane and reports success). *)
Definition aligning_host : Host unit :=
  {| py_str_float := py_str_float Sample.host;
     py_float := py_float Sample.host;
     quantity_value := quantity_value Sample.host;
     quantity_user_string := quantity_user_string Sample.host;
     py_cos := py_cos Sample.host;
     translate := translate Sample.host;
     ui_offset_text := ui_offset_text Sample.host;
     shape_bool := shape_bool Sample.host;
     py_eval_bool := py_eval_bool Sample.host;
     vec_project := vec_project Sample.host;
     vec_getAngle := vec_getAngle Sample.host;
     vec_Length := vec_Length Sample.host;
     vec_scaleTo := vec_scaleTo Sample.host;
     getViewDirection := getViewDirection Sample.host;
     wp_setup := wp_setup Sample.host;
     wp_setup_force := wp_setup_force Sample.host;
     wp_reset := wp_reset Sample.host;
     wp_restore := wp_restore Sample.host;
     wp_alignToEdges := wp_alignToEdges Sample.host;
     wp_setFromPlacement := wp_setFromPlacement Sample.host;
     wp_alignToFace := wp_alignToFace Sample.host;
     wp_alignTo3Points := wp_alignTo3Points Sample.host;
     wp_alignToSelection := fun _ p => (p, true);
     wp_basis := wp_basis Sample.host;
     wp_projectPoint := wp_projectPoint Sample.host;
     wp_getRotationQ := wp_getRotationQ Sample.host |}.

(** Activated on the untouched command with nothing selected, then
    cancelled. *)
Lemma activate_then_cancel_witness :
  recognized Sample.host (selection Sample.world0) = false /\
  view_alive Sample.world0 = true /\
  (next_callback Sample.world0 ∉ callbacks Sample.world0) /\
  exists w1 w2,
    Activated Sample.host Sample.world0 = (Ok tt, w1) /\
    reject Sample.host w1 = (Ok true, w2) /\
    callbacks w2 = callbacks Sample.world0.
Proof.
  assert (Hn : next_callback Sample.world0 ∉ callbacks Sample.world0)
    by apply not_elem_of_nil.
  split; [reflexivity|]. split; [reflexivity|]. split; [exact Hn|].
  destruct (activate_then_cancel Sample.host Sample.world0 eq_refl eq_refl eq_refl Hn)
    as (w1 & w2 & E1 & _ & _ & E2 & B & _).
  exists w1, w2. split; [exact E1|]. split; [exact E2 | exact B].
Defined.

(** The first activation ever, with a selection that only
    [alignToSelection] understands. *)
Lemma first_activation_without_call_witness :
  call Sample.world0 = CallUnset /\
  py_float aligning_host (ui_offset_text aligning_host) = Some 0%float /\
  exists w',
    Activated aligning_host Sample.world0 = (Raise AttributeError, w') /\
    call w' = CallUnset /\ dialog w' = false.
Proof.
  split; [reflexivity|]. split; [reflexivity|].
  destruct (first_activation_without_call aligning_host Sample.world0 0%float
              eq_refl eq_refl eq_refl eq_refl eq_refl)
    as (w' & E & C & D & _).
  exists w'. split; [exact E|]. split; [exact C | exact D].
Defined.

Section MorePicks.
Context {Hidden : Type} (H : Host Hidden).
Local Open Scope list_scope.
Local Open Scope py_scope.

(** A computation that does not return [False]. *)
Definition never_false (c : M Hidden bool) : Prop :=
  forall w w', c w <> (Ok false, w').

Lemma never_false_bind {A} (c : M Hidden A) (k : A -> M Hidden bool) :
  (forall a, never_false (k a)) -> never_false (bind c k).
Proof.
  intros Hk w w'. unfold bind. destruct (c w) as [[a|e] w1].
  - apply Hk.
  - discriminate.
Qed.

Lemma never_false_ret_true : never_false (@ret Hidden bool true).
Proof. intros w w'. discriminate. Qed.

Ltac never_false_tac :=
  repeat first
    [ apply never_false_ret_true
    | apply never_false_bind; intros ].

(** X9: [handle] returns [False] for the selections of no recognized shape
    and for no other: when it returns [False] the selection was of none of
    the shapes and the state is untouched; on a selection of a recognized
    shape it returns [True] or raises. *)
Theorem handle_false_iff_unrecognized (w w' : World Hidden) :
  handle H w = (Ok false, w') <-> (recognized H (selection w) = false /\ w' = w).
Proof.
  split.
  2:{ intros [Hr ->]. apply handle_unrecognized, Hr. }
  intros E.
  destruct (recognized H (selection w)) eqn:Hr.
  2:{ split; [reflexivity|].
      rewrite (proj1 (handle_unrecognized H w Hr)) in E. congruence. }
  exfalso. revert E. unfold handle. rewrite bind_get.
  unfold recognized, is_axis_object, is_plane_proxy, is_section_plane,
    is_single_face, is_plane_subelement, is_three_vertices in Hr.
  destruct (selection w) as [|s [|s' rest]]; [discriminate Hr| |].
  - cbv zeta.
    destruct (DraftType (Object s) =? "Axis")%string;
      [eapply never_false_bind; intros; never_false_tac|].
    destruct ((DraftType (Object s) =? "WorkingPlaneProxy")%string
              || (DraftType (Object s) =? "BuildingPart")%string);
      [eapply never_false_bind; intros; never_false_tac|].
    destruct (DraftType (Object s) =? "SectionPlane")%string;
      [eapply never_false_bind; intros; never_false_tac|].
    destruct (HasSubObjects s).
    + destruct (SubElementNames s) as [|n0 [|n1 [|n2 [|n3 l]]]];
        try discriminate Hr.
      * destruct (str_in "Face" n0);
          [eapply never_false_bind; intros; never_false_tac|].
        destruct (n0 =? "Plane")%string;
          [eapply never_false_bind; intros; never_false_tac|].
        discriminate Hr.
      * destruct (str_in "Vertex" n0 && str_in "Vertex" n1 && str_in "Vertex" n2);
          [eapply never_false_bind; intros; never_false_tac|].
        discriminate Hr.
    + destruct (isPartFeature (Object s)); [|discriminate Hr].
      destruct (shape_bool H (Shape (Object s))); [|discriminate Hr].
      destruct (Faces (Shape (Object s))) as [|f [|f' l]]; try discriminate Hr.
      eapply never_false_bind; intros; never_false_tac.
  - destruct (picked_vertices (s :: s' :: rest)) as [|a [|b [|c [|d l]]]];
      try discriminate Hr.
    eapply never_false_bind; intros; never_false_tac.
Qed.

End MorePicks.

(* ===================================================================== *)
(** ** More about the command: camera and visibilities of a proxy *)
(* ===================================================================== *)

Section ProxyState.
Context {Hidden : Type} (H : Host Hidden).
Local Open Scope list_scope.

(** X10: the camera restored from a proxy, by the indices of [ViewData].
    Without [RestoreView], without [ViewData] or with fewer than 12 values
    nothing happens.  With 12 values or more the camera is perspective
    exactly when there are 13 values and the last one equals 1 (so 14
    values or more give an orthographic camera); position, orientation,
    near, far, aspect and focal distance are the values 0 to 10, and value
    11 is the height of an orthographic camera or the height angle of a
    perspective one, the other of the two being left as it was.  The
    camera type is switched by the view only when it differs. *)
Theorem restore_view_by_index (vobj : ViewObject) (w : World Hidden) :
  ((RestoreView vobj <> Some true \/ ViewData vobj = None \/
    (exists d, ViewData vobj = Some d /\ length d < 12)) ->
   restore_view vobj w = (Ok tt, w)) /\
  (forall d, RestoreView vobj = Some true -> ViewData vobj = Some d ->
     12 <= length d ->
     let persp := (length d =? 13)%nat && (nth 12 d 0%float =? 1)%float in
     let c := camera (snd (restore_view vobj w)) in
     fst (restore_view vobj w) = Ok tt /\
     cam_kind c = (if persp then SoPerspectiveCamera else SoOrthographicCamera) /\
     cam_position c = mkVector (nth 0 d 0%float) (nth 1 d 0%float) (nth 2 d 0%float) /\
     cam_orientation c = mkQuat (nth 3 d 0%float) (nth 4 d 0%float) (nth 5 d 0%float) (nth 6 d 0%float) /\
     nearDistance c = nth 7 d 0%float /\ farDistance c = nth 8 d 0%float /\
     aspectRatio c = nth 9 d 0%float /\ focalDistance c = nth 10 d 0%float /\
     height c = (if persp then height (camera w) else nth 11 d 0%float) /\
     heightAngle c = (if persp then nth 11 d 0%float else heightAngle (camera w)) /\
     states (snd (restore_view vobj w)) = states w /\
     wp (snd (restore_view vobj w)) = wp w /\
     trace (snd (restore_view vobj w))
       = trace w ++
         match cam_kind (camera w), persp with
         | SoOrthographicCamera, true => [SetCameraType "Perspective"]
         | SoPerspectiveCamera, false => [SetCameraType "Orthographic"]
         | _, _ => []
         end).
Proof.
  split.
  - intros Hoff. unfold restore_view.
    destruct (RestoreView vobj) as [[|]|]; try reflexivity.
    destruct Hoff as [Hn|[->|(d & -> & Hl)]]; [congruence|reflexivity|].
    do 12 (destruct d as [|? d]; [reflexivity|]). simpl in Hl. lia.
  - intros d Hrv Hvd Hl. unfold restore_view. rewrite Hrv, Hvd.
    do 12 (destruct d as [|? d]; [simpl in Hl; lia|]).
    destruct d as [|d12 [|d13 d]];
      cbn [length Nat.eqb andb nth];
      unfold bind, get, modify, log, ret;
      destruct (cam_kind (camera w)) eqn:Ek;
      try (destruct (d12 =? 1)%float eqn:E12);
      cbn; rewrite ?Ek, ?app_nil_r; repeat split; reflexivity.
Qed.

(** The first step of the loop over the visibility map. *)
Lemma visibility_step (k val : string) (w : World Hidden) :
  exists r w1,
    (match visibility w !! k with
     | Some vis =>
         if negb (Bool.eqb vis (val =? "True")%string)
         then doCommandGui H (CmdSetVisibility k val)
         else ret tt
     | None => ret tt
     end) w = (r, w1) /\
    (forall j, visibility w !! j = None -> visibility w1 !! j = None) /\
    (forall j, j <> k -> visibility w1 !! j = visibility w !! j) /\
    (forall b, visibility w !! k = Some b -> b = (val =? "True")%string ->
       r = Ok tt /\ w1 = w).
Proof.
  destruct (visibility w !! k) as [vis|] eqn:Ek.
  2:{ exists (Ok tt), w. repeat split; auto; discriminate. }
  destruct (negb (Bool.eqb vis (val =? "True")%string)) eqn:Ed.
  2:{ exists (Ok tt), w. repeat split; auto. }
  unfold doCommandGui, log, run_command. rewrite bind_modify.
  destruct (py_eval_bool H val) as [b|].
  - eexists _, _. split; [reflexivity|]. cbn [visibility set_trace].
    split; [|split].
    + intros j Hj. rewrite lookup_insert_ne; [exact Hj|]. intros ->. congruence.
    + intros j Hj. apply lookup_insert_ne. congruence.
    + intros b0 [= <-] ->. rewrite Bool.eqb_reflx in Ed. discriminate Ed.
  - eexists _, _. split; [reflexivity|]. cbn [visibility set_trace].
    split; [auto|]. split; [auto|].
    intros b0 [= <-] ->. rewrite Bool.eqb_reflx in Ed. discriminate Ed.
Qed.

Lemma restore_visibility_cons (k val : string) (rest : list (string * string))
  (w : World Hidden) :
  restore_visibility H ((k, val) :: rest) w
  = bind (match visibility w !! k with
          | Some vis =>
              if negb (Bool.eqb vis (val =? "True")%string)
              then doCommandGui H (CmdSetVisibility k val)
              else ret tt
          | None => ret tt
          end) (fun _ => restore_visibility H rest) w.
Proof. reflexivity. Qed.

(** X11: restoring the visibilities of a proxy touches only objects that are
    named in the map and exist in the document: an object that does not
    exist is not created, an object the map does not name keeps its
    visibility, and history, working plane and camera are not involved.
    When every named object already has the visibility the map asks for
    ([True] for the text [True], [False] for any other text) no command is
    sent at all. *)
Theorem restore_visibility_scope (items : list (string * string)) (w : World Hidden) :
  (forall j, visibility w !! j = None ->
     visibility (snd (restore_visibility H items w)) !! j = None) /\
  (forall j, j ∉ map fst items ->
     visibility (snd (restore_visibility H items w)) !! j = visibility w !! j) /\
  states (snd (restore_visibility H items w)) = states w /\
  wp (snd (restore_visibility H items w)) = wp w /\
  camera (snd (restore_visibility H items w)) = camera w /\
  ((forall k val b, (k, val) ∈ items -> visibility w !! k = Some b ->
      b = (val =? "True")%string) ->
   restore_visibility H items w = (Ok tt, w)).
Proof.
  split; [|split; [|split; [|split; [|split]]]].
  - revert w. induction items as [|[k val] rest IH]; intros w j Hj; [exact Hj|].
    rewrite restore_visibility_cons. unfold bind.
    destruct (visibility_step k val w) as (r & w1 & -> & N & _).
    destruct r; [apply IH|]; apply N, Hj.
  - revert w. induction items as [|[k val] rest IH]; intros w j Hj; [reflexivity|].
    rewrite restore_visibility_cons. unfold bind.
    destruct (visibility_step k val w) as (r & w1 & -> & _ & O & _).
    cbn [map fst] in Hj. apply not_elem_of_cons in Hj as [Hjk Hj].
    destruct r; [rewrite (IH w1 j Hj)|]; apply O, Hjk.
  - apply (preserves_restore_visibility H states); reflexivity.
  - apply (preserves_restore_visibility H wp); reflexivity.
  - apply (preserves_restore_visibility H camera); reflexivity.
  - induction items as [|[k val] rest IH]; intros Hsame; [reflexivity|].
    rewrite restore_visibility_cons.
    assert (Hrest : forall k' val' b', (k', val') ∈ rest ->
                      visibility w !! k' = Some b' -> b' = (val' =? "True")%string)
      by (intros k' val' b' Hin; apply Hsame, list_elem_of_further, Hin).
    destruct (visibility w !! k) as [b|] eqn:Ek.
    + rewrite (Hsame k val b (list_elem_of_here _ _) Ek), Bool.eqb_reflx.
      cbn [negb]. rewrite bind_ret. apply IH, Hrest.
    + rewrite bind_ret. apply IH, Hrest.
Qed.

End ProxyState.

Section MoveAndCenter.
Context {Hidden : Type} (H : Host Hidden).
Local Open Scope list_scope.

(** Moving the plane to [target], recording it and finishing. *)
Lemma move_to_run (w : World Hidden) (form : Form) (o : float) (target : Vector) :
  taskd w = Some form -> getOffset H w = (Ok o, w) -> snapper w = true ->
  call w <> CallUnset ->
  exists w',
    bind (modify (fun w => set_wp (set_position target (wp w)) w))
      (fun _ => bind (display H (ArgVector target))
         (fun _ => bind (finish H) (fun _ => ret tt))) w = (Ok tt, w') /\
    states w' = states w ++ [snapshot (set_position target (wp w))] /\
    wp w' = wp_restore H (set_position target (wp w)) /\
    wpText w' = translate H "draft" "Custom" /\
    dialog w' = false.
Proof.
  intros Ht Ho Hs Hc. rewrite bind_modify.
  set (w1 := set_wp (set_position target (wp w)) w).
  assert (Ho1 : getOffset H w1 = (Ok o, w1))
    by (apply getOffset_frame with (w := w); [reflexivity | exact Ho]).
  destruct (display_run H w1 (ArgVector target) o Ho1 Hs)
    as (w2 & Ed & D1 & D2 & D3 & D4 & _ & _ & _ & _ & _ & T1 & _).
  destruct (finish_run H w2 form) as (w' & Ef & F1 & F2 & _ & _ & F5 & F6 & _).
  { rewrite D3. exact Ht. }
  { rewrite D4. exact Hc. }
  exists w'. split.
  - rewrite (bind_Ok _ _ _ _ _ Ed), (bind_Ok _ _ _ _ _ Ef). reflexivity.
  - rewrite F1, D1, F2, D2, F6, T1. repeat split; auto.
Qed.

(** X12: Move changes the origin of the working plane and nothing else of
    it.  With nothing selected the origin becomes the projection of the
    camera position on the plane along the view direction; with a
    selection that holds exactly one vertex it becomes that vertex; the
    plane recorded in the history has the old [u], [v] and [axis].  With
    a selection that holds no vertex or several, Move does nothing at all:
    the session is not even finished. *)
Theorem move_changes_origin_only (w : World Hidden) (form : Form) (o : float) :
  taskd w = Some form -> getOffset H w = (Ok o, w) -> snapper w = true ->
  call w <> CallUnset ->
  let moved target (w' : World Hidden) :=
    onClickMove H w = (Ok tt, w') /\
    (exists s,
       states w' = states w ++ [s] /\
       s_position s = target /\
       s_u s = u (wp w) /\ s_v s = v (wp w) /\ s_axis s = axis (wp w)) /\
    wp w' = wp_restore H (set_position target (wp w)) /\
    dialog w' = false in
  (selection w = [] ->
   exists w',
     moved (wp_projectPoint H (wp w) (cam_position (camera w))
              (Some (getViewDirection H (camera w)))) w') /\
  (forall target,
     selection w <> [] -> picked_vertices (selection w) = [ShVertex target] ->
     exists w', moved target w') /\
  (selection w <> [] -> length (picked_vertices (selection w)) <> 1 ->
   onClickMove H w = (Ok tt, w)).
Proof.
  intros Ht Ho Hs Hc moved.
  assert (K : forall target,
            exists w',
              bind (modify (fun w => set_wp (set_position target (wp w)) w))
                (fun _ => bind (display H (ArgVector target))
                   (fun _ => bind (finish H) (fun _ => ret tt))) w = (Ok tt, w') /\
              (exists s,
                 states w' = states w ++ [s] /\
                 s_position s = target /\
                 s_u s = u (wp w) /\ s_v s = v (wp w) /\ s_axis s = axis (wp w)) /\
              wp w' = wp_restore H (set_position target (wp w)) /\
              dialog w' = false).
  { intros target.
    destruct (move_to_run w form o target Ht Ho Hs Hc) as (w' & E & S & P & _ & D).
    exists w'. split; [exact E|]. split; [|split; [exact P|exact D]].
    eexists. split; [exact S|]. repeat split; reflexivity. }
  split; [|split].
  - intros Hsel. unfold moved, onClickMove. rewrite bind_get, Hsel. apply K.
  - intros target Hne Hv. unfold moved, onClickMove. rewrite bind_get.
    destruct (selection w) as [|s0 sel]; [congruence|].
    rewrite Hv. cbn [Point_of]. rewrite bind_ret. apply K.
  - intros Hne Hl. unfold onClickMove. rewrite bind_get.
    destruct (selection w) as [|s0 sel]; [congruence|].
    destruct (picked_vertices (s0 :: sel)) as [|so [|so' l]];
      [reflexivity | simpl in Hl; congruence | reflexivity].
Qed.

(** X13: Center moves the camera and not the plane history: the camera takes
    the rotation of the working plane and its position loses the
    projection of that position on the plane; its type, clipping
    distances, aspect ratio, focal distance and height are kept, the
    history and the text of the button are untouched, and the command is
    finished. *)
Theorem center_moves_camera_only (w : World Hidden) (form : Form) :
  taskd w = Some form -> call w <> CallUnset ->
  exists w',
    onClickCenter H w = (Ok tt, w') /\
    cam_orientation (camera w') = wp_getRotationQ H (wp w) /\
    cam_position (camera w')
      = vec_add (cam_position (camera w))
          (vec_negative (wp_projectPoint H (wp w) (cam_position (camera w)) None)) /\
    cam_kind (camera w') = cam_kind (camera w) /\
    nearDistance (camera w') = nearDistance (camera w) /\
    farDistance (camera w') = farDistance (camera w) /\
    aspectRatio (camera w') = aspectRatio (camera w) /\
    focalDistance (camera w') = focalDistance (camera w) /\
    height (camera w') = height (camera w) /\
    heightAngle (camera w') = heightAngle (camera w) /\
    states w' = states w /\ wpText w' = wpText w /\ wpToolTip w' = wpToolTip w /\
    wp w' = wp_restore H (wp w) /\ dialog w' = false.
Proof.
  intros Ht Hc. unfold onClickCenter. rewrite bind_get. cbv zeta.
  rewrite bind_modify.
  match goal with
  | |- context [bind (finish H) _ ?W] =>
      destruct (finish_run H W form Ht Hc)
        as (w' & Ef & F1 & F2 & _ & _ & F5 & F6 & F7 & F8 & _)
  end.
  exists w'. split; [rewrite (bind_Ok _ _ _ _ _ Ef); reflexivity|].
  rewrite F8, F1, F2, F6, F7. repeat split; auto.
Qed.

End MoveAndCenter.

Section ProxyPick.
Context {Hidden : Type} (H : Host Hidden).
Local Open Scope list_scope.

(** [restore_view] returns normally and writes the camera and the trace
    only. *)
Lemma restore_view_frame (vobj : ViewObject) (w : World Hidden) :
  exists c t, restore_view vobj w = (Ok tt, set_trace t (set_camera c w)).
Proof.
  assert (Same : (Ok tt, w) = (Ok tt, set_trace (trace w) (set_camera (camera w) w)))
    by (destruct w; reflexivity).
  unfold restore_view.
  destruct (RestoreView vobj) as [[|]|]; try (eexists _, _; exact Same).
  destruct (ViewData vobj) as [d|]; [|eexists _, _; exact Same].
  do 12 (destruct d as [|? d]; [eexists _, _; exact Same|]).
  unfold bind, get, modify, log, ret.
  destruct d as [|d12 [|d13 d]]; destruct (cam_kind (camera w));
    try (destruct (d12 =? 1)%float); cbn; eexists _, _; reflexivity.
Qed.

Lemma restore_state_off (vobj : ViewObject) (w : World Hidden) :
  RestoreState vobj <> Some true -> restore_state H vobj w = (Ok tt, w).
Proof.
  intros Hn. unfold restore_state.
  destruct (RestoreState vobj) as [[|]|]; [congruence|reflexivity|reflexivity].
Qed.

(** X14: picking a working-plane proxy or a building part (whose stored
    object states are not to be restored), with a readable offset and a
    Snapper: [handle] returns [True]; the plane is the one
    [setFromPlacement] makes from the placement of the object; it is weak
    exactly when the object has [AutoWorkingPlane] set; it is recorded in
    the history; and the button shows the label of the object, not
    [Custom]. *)
Theorem handle_proxy (w : World Hidden) (s : SelectionObject) (o : float) :
  selection w = [s] ->
  is_axis_object [s] = false -> is_plane_proxy [s] = true ->
  RestoreState (ViewObj (Object s)) <> Some true ->
  getOffset H w = (Ok o, w) -> snapper w = true ->
  exists w',
    handle H w = (Ok true, w') /\
    weak (wp w') = match AutoWorkingPlane (ViewObj (Object s)) with
                   | Some true => true
                   | _ => false
                   end /\
    snapshot (wp w')
      = snapshot (fst (wp_setFromPlacement H (ObjPlacement (Object s)) (wp w))) /\
    states w' = states w ++ [snapshot (wp w')] /\
    wpText w' = Label (Object s) /\
    wpToolTip w'
      = translate H "draft" "Current working plane" +:+ ": " +:+ Label (Object s).
Proof.
  intros Hsel Ha Hp Hrs Ho Hs.
  unfold handle. rewrite bind_get, Hsel. cbv zeta.
  unfold is_axis_object, is_plane_proxy in *. rewrite Ha, Hp.
  match goal with
  | |- context [bind (align ?f) _ ?W] =>
      rewrite (bind_Ok _ _ W (set_wp (fst (f (wp W))) W) (snd (f (wp W))))
        by reflexivity
  end.
  rewrite bind_modify. world_simpl.
  set (p0 := fst (wp_setFromPlacement H (ObjPlacement (Object s)) (wp w))).
  set (auto := match AutoWorkingPlane (ViewObj (Object s)) with
               | Some true => true
               | _ => false
               end).
  assert (E1 : exists w1,
            (match AutoWorkingPlane (ViewObj (Object s)) with
             | Some true => modify (fun w => set_wp (set_weak true (wp w)) w)
             | _ => ret tt
             end) (set_wp (set_weak false p0) (set_wp p0 w)) = (Ok tt, w1) /\
            taskd w1 = taskd w /\ snapper w1 = snapper w /\ states w1 = states w /\
            wp w1 = set_weak auto p0).
  { subst auto. destruct (AutoWorkingPlane (ViewObj (Object s))) as [[|]|];
      eexists; (split; [reflexivity|]); repeat split; reflexivity. }
  destruct E1 as (w1 & E1 & T1 & S1 & H1 & P1).
  rewrite (bind_Ok _ _ _ _ _ E1).
  assert (E2 : exists w2,
            (match CutView (ViewObj (Object s)), AutoCutView (ViewObj (Object s)) with
             | Some _, Some true => log (SetCutView (Name (Object s)))
             | _, _ => ret tt
             end) w1 = (Ok tt, w2) /\
            taskd w2 = taskd w1 /\ snapper w2 = snapper w1 /\ states w2 = states w1 /\
            wp w2 = wp w1).
  { destruct (CutView (ViewObj (Object s))) as [cv|];
      destruct (AutoCutView (ViewObj (Object s))) as [[|]|];
      eexists; (split; [reflexivity|]); repeat split; reflexivity. }
  destruct E2 as (w2 & E2 & T2 & S2 & H2 & P2).
  rewrite (bind_Ok _ _ _ _ _ E2).
  destruct (restore_view_frame (ViewObj (Object s)) w2) as (c & t & E3).
  rewrite (bind_Ok _ _ _ _ _ E3).
  rewrite (bind_Ok _ _ _ _ _ (restore_state_off _ _ Hrs)).
  set (w3 := set_trace t (set_camera c w2)).
  assert (Ho3 : getOffset H w3 = (Ok o, w3)).
  { apply getOffset_frame with (w := w); [|exact Ho].
    subst w3. world_simpl. rewrite T2, T1. reflexivity. }
  assert (Hs3 : snapper w3 = true)
    by (subst w3; world_simpl; rewrite S2, S1; exact Hs).
  destruct (display_run H w3 (ArgVector (axis (wp w3))) o Ho3 Hs3)
    as (w4 & Ed & D1 & D2 & _).
  rewrite (bind_Ok _ _ w3 w4 tt) by exact Ed.
  unfold label_button.
  rewrite bind_assoc, bind_modify, bind_assoc, bind_get, bind_modify.
  eexists. split; [reflexivity|]. world_simpl.
  subst w3. world_simpl_in D1. world_simpl_in D2.
  rewrite D2, D1, P2, P1, H2, H1.
  subst auto. destruct p0. repeat split; reflexivity.
Qed.

End ProxyPick.

Section Reactivation.
Context {Hidden : Type} (H : Host Hidden).
Local Open Scope list_scope.

(** X15: the history outlives the session.  Activating the command on a
    history that is not empty adds no seed: the old entries stay in front,
    in order, and when [Activated] returns at most one entry has been
    added (the plane found from the selection). *)
Theorem Activated_keeps_history (w : World Hidden) :
  states w <> [] ->
  exists l,
    states (snd (Activated H w)) = states w ++ l /\
    (forall r, fst (Activated H w) = Ok r -> length l <= 1).
Proof.
  intros Hne. unfold Activated. rewrite bind_modify, bind_get. cbv beta.
  world_simpl. destruct (states w) as [|s0 l0] eqn:E; [congruence|].
  rewrite bind_ret. cbv beta.
  match goal with
  | |- exists l, states (snd (?c ?W)) = _ /\ _ =>
      assert (G : growsP (fun _ k => k <= 1) c)
  end.
  { grows_tac.
    apply growsP_bind_gen with (Q := fun (b : bool) k => k = if b then 1 else 0);
      [apply growsP_handle|].
    intros [|]; grows_tac. }
  match goal with
  | |- exists l, states (snd (?c ?W)) = _ /\ _ =>
      destruct (G W) as (l & El & Hl)
  end.
  exists l. split.
  - rewrite El. world_simpl. rewrite E. reflexivity.
  - exact Hl.
Qed.

End Reactivation.

(* ===================================================================== *)
(** ** More sample sessions *)
(* ===================================================================== *)

Module MoreSessions.
Import Sample.

(** An edge of a box: no shape that builds a plane. *)
Definition edge_pick : SelectionObject :=
  mkSelectionObject (Sessions.plain_object "Box" "Part" (mkShape [] []))
    true ["Edge3"] [ShEdge (mkEdge (mkVector 0 0 0) (mkVector 1 0 0))].

(** One picked vertex. *)
Definition vertex_pick : SelectionObject :=
  mkSelectionObject (Sessions.plain_object "Box" "Part" (mkShape [] []))
    true ["Vertex2"] [ShVertex (mkVector 3 4 0)].

(** A proxy at (1,2,3) with [AutoWorkingPlane] set and a stored
    perspective view. *)
Definition proxy_view : ViewObject :=
  mkViewObject (Some true) None None (Some true)
    (Some [1; 2; 3; 0; 0; 0; 1; 1; 100; 1; 10; 45; 1]%float) None None.

Definition proxy_pick : SelectionObject :=
  mkSelectionObject
    (mkDocObject "WPProxy" "Ground floor" "WorkingPlaneProxy" false
       (mkPlacement (mkVector 1 2 3) (mkQuat 0 0 0 1)) (mkShape [] []) proxy_view)
    false [] [].

(** A document with a visible box. *)
Definition with_box : World unit :=
  mkWorld (states world0) (taskd world0) (call world0) (wp world0) (param world0)
    (selection world0) (camera world0) (dialog world0) (wpText world0)
    (wpToolTip world0) (callbacks world0) (next_callback world0)
    (itinerary world0) (trace world0) (snapper world0) (view_alive world0)
    (<["Box" := true]> ∅).

End MoreSessions.

Lemma handle_false_iff_unrecognized_witness :
  recognized Sample.host [MoreSessions.edge_pick] = false /\
  handle Sample.host (set_selection [MoreSessions.edge_pick] Sessions.awaiting_offset5)
  = (Ok false, set_selection [MoreSessions.edge_pick] Sessions.awaiting_offset5).
Proof.
  split; [reflexivity|].
  apply (proj2 (handle_false_iff_unrecognized Sample.host
                  (set_selection [MoreSessions.edge_pick] Sessions.awaiting_offset5)
                  (set_selection [MoreSessions.edge_pick] Sessions.awaiting_offset5))).
  split; reflexivity.
Defined.

Lemma restore_view_by_index_witness :
  RestoreView MoreSessions.proxy_view = Some true /\
  cam_kind (camera (snd (restore_view MoreSessions.proxy_view Sample.world0)))
  = SoPerspectiveCamera /\
  heightAngle (camera (snd (restore_view MoreSessions.proxy_view Sample.world0)))
  = 45%float.
Proof.
  split; [reflexivity|].
  destruct (proj2 (restore_view_by_index MoreSessions.proxy_view Sample.world0)
              _ eq_refl eq_refl) as (_ & K & _ & _ & _ & _ & _ & _ & _ & A & _).
  { vm_compute. lia. }
  split; [exact K | exact A].
Defined.

Lemma restore_visibility_scope_witness :
  MoreSessions.with_box.(visibility) !! "Ghost" = None /\
  visibility (snd (restore_visibility Sample.host
                     [("Box", "False"); ("Ghost", "True")] MoreSessions.with_box))
    !! "Ghost" = None.
Proof.
  assert (Hg : MoreSessions.with_box.(visibility) !! "Ghost" = None)
    by (vm_compute; reflexivity).
  split; [exact Hg|].
  exact (proj1 (restore_visibility_scope Sample.host
                  [("Box", "False"); ("Ghost", "True")] MoreSessions.with_box)
           "Ghost" Hg).
Defined.

Lemma move_changes_origin_only_witness :
  taskd (set_selection [MoreSessions.vertex_pick] Sessions.awaiting_offset5)
    = Some (mkForm false "5" "1.0 mm" 10 8) /\
  snapper (set_selection [MoreSessions.vertex_pick] Sessions.awaiting_offset5) = true /\
  exists w',
    onClickMove Sample.host
      (set_selection [MoreSessions.vertex_pick] Sessions.awaiting_offset5)
    = (Ok tt, w') /\
    wp w' = set_position (mkVector 3 4 0) (wp Sessions.awaiting_offset5).
Proof.
  set (w := set_selection [MoreSessions.vertex_pick] Sessions.awaiting_offset5).
  assert (Ht : taskd w = Some (mkForm false "5" "1.0 mm" 10 8))
    by (vm_compute; reflexivity).
  assert (Ho : getOffset Sample.host w = (Ok 5%float, w)) by (vm_compute; reflexivity).
  assert (Hs : snapper w = true) by (vm_compute; reflexivity).
  assert (Hc : call w <> CallUnset) by (vm_compute; discriminate).
  split; [exact Ht|]. split; [exact Hs|].
  destruct (proj1 (proj2 (move_changes_origin_only Sample.host w _ _ Ht Ho Hs Hc))
              (mkVector 3 4 0)) as (w' & E & _ & P & _).
  { discriminate. }
  { reflexivity. }
  exists w'. split; [exact E | exact P].
Defined.

Lemma center_moves_camera_only_witness :
  taskd Sessions.awaiting_offset5 = Some (mkForm false "5" "1.0 mm" 10 8) /\
  call Sessions.awaiting_offset5 <> CallUnset /\
  exists w',
    onClickCenter Sample.host Sessions.awaiting_offset5 = (Ok tt, w') /\
    states w' = states Sessions.awaiting_offset5.
Proof.
  assert (Ht : taskd Sessions.awaiting_offset5 = Some (mkForm false "5" "1.0 mm" 10 8))
    by (vm_compute; reflexivity).
  assert (Hc : call Sessions.awaiting_offset5 <> CallUnset)
    by (vm_compute; discriminate).
  split; [exact Ht|]. split; [exact Hc|].
  destruct (center_moves_camera_only Sample.host Sessions.awaiting_offset5 _ Ht Hc)
    as (w' & E & _ & _ & _ & _ & _ & _ & _ & _ & _ & S & _).
  exists w'. split; [exact E | exact S].
Defined.

Lemma handle_proxy_witness :
  getOffset Sample.host
    (set_selection [MoreSessions.proxy_pick] Sessions.awaiting_offset5)
  = (Ok 5%float, set_selection [MoreSessions.proxy_pick] Sessions.awaiting_offset5) /\
  exists w',
    handle Sample.host
      (set_selection [MoreSessions.proxy_pick] Sessions.awaiting_offset5)
    = (Ok true, w') /\
    weak (wp w') = true /\ wpText w' = "Ground floor".
Proof.
  set (w := set_selection [MoreSessions.proxy_pick] Sessions.awaiting_offset5).
  assert (Ho : getOffset Sample.host w = (Ok 5%float, w)) by (vm_compute; reflexivity).
  assert (Hs : snapper w = true) by (vm_compute; reflexivity).
  split; [exact Ho|].
  destruct (handle_proxy Sample.host w MoreSessions.proxy_pick 5%float
              eq_refl eq_refl eq_refl) as (w' & E & W & _ & _ & T & _);
    [discriminate | exact Ho | exact Hs |].
  exists w'. split; [exact E|]. split; [exact W | exact T].
Defined.

Lemma Activated_keeps_history_witness :
  states Sessions.after_front <> [] /\
  exists l,
    states (snd (Activated Sample.host Sessions.after_front))
    = (states Sessions.after_front ++ l)%list.
Proof.
  assert (Hne : states Sessions.after_front <> []) by (vm_compute; discriminate).
  split; [exact Hne|].
  destruct (Activated_keeps_history Sample.host Sessions.after_front Hne)
    as (l & E & _).
  exists l. exact E.
Defined.

Section FacePick.
Context {Hidden : Type} (H : Host Hidden).
Local Open Scope list_scope.

(** X16: a picked face ends the session.  For one selected object that is
    no axis, proxy or section plane, with exactly one picked sub-element
    whose name contains [Face], the queued [checkSelection] aligns the
    plane to the first picked sub-object with the offset of the offset
    field, records the aligned plane, shows [Custom] on the button and
    finishes the command: the dialog is closed, the callback cleared and
    the plane handed to its own [restore()]. *)
Theorem face_pick_finishes (w : World Hidden) (form : Form) (s : SelectionObject)
  (n0 : string) (so : SubShape) (rest : list SubShape) (o : float) :
  selection w = [s] ->
  is_axis_object [s] = false -> is_plane_proxy [s] = false ->
  is_section_plane [s] = false ->
  HasSubObjects s = true -> SubElementNames s = [n0] ->
  str_in "Face" n0 = true -> SubObjects s = so :: rest ->
  taskd w = Some form -> getOffset H w = (Ok o, w) -> snapper w = true ->
  call w <> CallUnset ->
  exists w',
    checkSelection H w = (Ok tt, w') /\
    wp w' = wp_restore H (fst (wp_alignToFace H so o (wp w))) /\
    states w' = states w ++ [snapshot (fst (wp_alignToFace H so o (wp w)))] /\
    dialog w' = false /\ call w' = CallNone /\
    wpText w' = translate H "draft" "Custom".
Proof.
  intros Hsel Ha Hp Hsp Hsub Hn Hface Hso Ht Ho Hs Hc.
  set (w1 := set_wp (fst (wp_alignToFace H so o (wp w))) w).
  assert (Ho1 : getOffset H w1 = (Ok o, w1))
    by (apply getOffset_frame with (w := w); [reflexivity | exact Ho]).
  destruct (display_run H w1 (ArgVector (axis (wp w1))) o Ho1 Hs)
    as (w2 & Ed & D1 & D2 & D3 & D4 & _ & _ & _ & _ & _ & T1 & _).
  destruct (finish_run H w2 form) as (w' & Ef & F1 & F2 & _ & F4 & F5 & F6 & _).
  { rewrite D3. exact Ht. }
  { rewrite D4. exact Hc. }
  assert (Eh : handle H w = (Ok true, w2)).
  { unfold handle. rewrite bind_get, Hsel. cbv zeta.
    unfold is_axis_object, is_plane_proxy, is_section_plane in *.
    rewrite Ha, Hp, Hsp, Hsub, Hn, Hface, Hso.
    unfold getitem. cbn [nth_error]. rewrite bind_ret. cbv beta.
    rewrite (bind_Ok _ _ _ _ _ Ho).
    rewrite (bind_Ok _ _ w w1 (snd (wp_alignToFace H so o (wp w)))) by reflexivity.
    rewrite (bind_Ok _ _ w1 w2 tt) by exact Ed. reflexivity. }
  exists w'. split.
  - unfold checkSelection. rewrite (bind_Ok _ _ _ _ _ Eh).
    rewrite (bind_Ok _ _ _ _ _ Ef). reflexivity.
  - rewrite F2, D2, F1, D1, F6, T1. repeat split; auto.
Qed.

End FacePick.

Lemma face_pick_finishes_witness :
  getOffset Sample.host (set_selection Sessions.face_pick Sessions.awaiting_offset5)
  = (Ok 5%float, set_selection Sessions.face_pick Sessions.awaiting_offset5) /\
  exists w',
    checkSelection Sample.host
      (set_selection Sessions.face_pick Sessions.awaiting_offset5) = (Ok tt, w') /\
    position (wp w') = mkVector 0 0 7 /\ dialog w' = false.
Proof.
  set (w := set_selection Sessions.face_pick Sessions.awaiting_offset5).
  assert (Ht : taskd w = Some (mkForm false "5" "1.0 mm" 10 8))
    by (vm_compute; reflexivity).
  assert (Ho : getOffset Sample.host w = (Ok 5%float, w)) by (vm_compute; reflexivity).
  assert (Hs : snapper w = true) by (vm_compute; reflexivity).
  assert (Hc : call w <> CallUnset) by (vm_compute; discriminate).
  split; [exact Ho|].
  destruct (face_pick_finishes Sample.host w _
              (mkSelectionObject
                 (Sessions.plain_object "Box" "Part" (mkShape [] []))
                 true ["Face6"] [ShFace (mkFace Sample.Z_ (mkVector 0 0 2))])
              "Face6" (ShFace (mkFace Sample.Z_ (mkVector 0 0 2))) [] 5%float
              eq_refl eq_refl eq_refl eq_refl eq_refl eq_refl eq_refl eq_refl
              Ht Ho Hs Hc)
    as (w' & E & P & _ & D & _).
  exists w'. split; [exact E|]. split; [rewrite P; vm_compute; reflexivity | exact D].
Defined.

(* ===================================================================== *)
(** ** Cancelling *)
(* ===================================================================== *)

Section Cancelling.
Context {Hidden : Type} (H : Host Hidden).
Local Open Scope list_scope.

(** [finish] neither reads nor writes the history: run on another history
    it does the same and leaves that history. *)
Lemma finish_ignores_states (l : list Snapshot) (w : World Hidden) :
  finish H (set_states l w) = (fst (finish H w), set_states l (snd (finish H w))).
Proof.
  unfold finish, the_form, closeDialog, log, bind, get, modify, ret, raise. cbn.
  destruct (taskd w); cbn; [|reflexivity].
  destruct (call w); cbn; try reflexivity.
  destruct (view_alive w); reflexivity.
Qed.

Lemma reject_finish (w : World Hidden) (form : Form) :
  taskd w = Some form -> call w <> CallUnset ->
  reject H w = finish H w.
Proof.
  intros Ht Hc. destruct (finish_run H w form Ht Hc) as (w' & E & _).
  unfold reject. rewrite (bind_Ok _ _ _ _ _ E), E. reflexivity.
Qed.

(** C1, as amended: cancelling ([reject], that is [finish]) neither reads
    nor changes the history: whatever it holds stays, and on another
    history [reject] does the same.  On a command that has a task panel
    and an assigned [call] it returns [True] after storing the centering
    tick as the preference [CenterPlaneOnView], removing the callback that
    [call] holds from the view (when the view still exists), closing the
    dialog and handing the working plane to the plane's own [restore()]:
    the plane it leaves is what [restore()] makes of the current plane. *)
Theorem cancel_keeps_history (w : World Hidden) :
  states (snd (reject H w)) = states w /\
  states (snd (finish H w)) = states w /\
  (forall l,
     reject H (set_states l w) = (fst (reject H w), set_states l (snd (reject H w)))) /\
  (forall form, taskd w = Some form -> call w <> CallUnset ->
     fst (reject H w) = Ok true /\
     reject H w = finish H w /\
     param (snd (reject H w))
       = SetBool "CenterPlaneOnView" (checkCenter form) (param w) /\
     callbacks (snd (reject H w))
       = match call w with
         | Callback id =>
             if view_alive w then filter (fun i => i ≠ id) (callbacks w)
             else callbacks w
         | _ => callbacks w
         end /\
     wp (snd (reject H w)) = wp_restore H (wp w) /\
     dialog (snd (reject H w)) = false /\
     call (snd (reject H w)) = CallNone /\
     trace (snd (reject H w)) = trace w ++ [CloseDialog; ResetEdit]).
Proof.
  split; [apply reject_preserves_states|].
  split; [apply finish_preserves_states|].
  split.
  { intros l. unfold reject, bind. rewrite finish_ignores_states.
    destruct (finish H w) as [[b|e] w1]; reflexivity. }
  intros form Ht Hc.
  rewrite (reject_finish w form Ht Hc).
  unfold finish, the_form, closeDialog, log, bind, get, modify, ret.
  cbn. rewrite Ht. cbn.
  destruct (call w) as [| |id] eqn:Ec; [congruence| |]; cbn.
  - rewrite <- app_assoc. repeat split; try reflexivity; exact Ec.
  - destruct (view_alive w); cbn; rewrite <- app_assoc; repeat split; reflexivity.
Qed.

End Cancelling.

(** A command without a Snapper, whose Front click is interrupted. *)
Module Interrupted.
Import Sample.

Definition before : World unit :=
  {| states := [];
     taskd := None;
     call := CallUnset;
     wp := mkWorkingPlane X Y Z_ Vector0 false tt;
     param := mkParams ∅ ∅ ∅;
     selection := [];
     camera := camera0;
     dialog := false;
     wpText := "";
     wpToolTip := "";
     callbacks := [];
     next_callback := 0;
     itinerary := [];
     trace := [];
     snapper := false;
     view_alive := true;
     visibility := ∅ |}.

Definition awaiting : World unit := run host [EvActivated] before.

Definition front_interrupted : World unit := run host [EvClickFront] awaiting.

End Interrupted.

(** C1 at a waiting session with two entries in the history: the callback
    is removed and the centering tick stored. *)
Lemma cancel_keeps_history_witness :
  taskd Sessions.awaiting_again = Some Sessions.panel /\
  call Sessions.awaiting_again <> CallUnset /\
  callbacks Sessions.awaiting_again = [1] /\
  fst (reject Sample.host Sessions.awaiting_again) = Ok true /\
  callbacks (snd (reject Sample.host Sessions.awaiting_again)) = [] /\
  p_bool (param (snd (reject Sample.host Sessions.awaiting_again)))
    !! "CenterPlaneOnView" = Some false.
Proof.
  assert (Ht : taskd Sessions.awaiting_again = Some Sessions.panel)
    by (vm_compute; reflexivity).
  assert (Hc : call Sessions.awaiting_again <> CallUnset)
    by (vm_compute; discriminate).
  split; [exact Ht|]. split; [exact Hc|].
  split; [vm_compute; reflexivity|].
  pose proof (proj2 (proj2 (proj2
           (cancel_keeps_history Sample.host Sessions.awaiting_again)))
           Sessions.panel Ht Hc) as (R & _ & P & B & _).
  split; [exact R|].
  split; [rewrite B; vm_compute; reflexivity|].
  rewrite P. vm_compute. reflexivity.
Defined.

(** C1 as stated fails.  On a command without a Snapper (the source
    provides for it: [onSetMainline] tests [hasattr(FreeCADGui, "Snapper")])
    the Front button aligns the plane and records it, then raises in
    [display] before it gets to [finish]: the session still waits, with the plane that was active
    before [Activated] as first entry of the history and the Front plane as
    second.  Cancelling it returns normally, keeps both entries and leaves
    the Front plane, not the plane that was active before.  So does the
    [finish] that ends a Front click on a command with a Snapper. *)
Lemma cancel_does_not_rewind :
  fst (onClickFront Sample.host Interrupted.awaiting) = Raise AttributeError /\
  dialog Interrupted.front_interrupted = true /\
  call Interrupted.front_interrupted = Callback 0 /\
  states Interrupted.awaiting = [snapshot (wp Interrupted.before)] /\
  states Interrupted.front_interrupted
    = [snapshot (wp Interrupted.before); snapshot (wp Interrupted.front_interrupted)] /\
  axis (wp Interrupted.before) = mkVector 0 0 1 /\
  axis (wp Interrupted.front_interrupted) = mkVector 0 (-1) 0 /\
  fst (reject Sample.host Interrupted.front_interrupted) = Ok true /\
  states (snd (reject Sample.host Interrupted.front_interrupted))
    = states Interrupted.front_interrupted /\
  wp (snd (reject Sample.host Interrupted.front_interrupted))
    = wp Interrupted.front_interrupted /\
  snapshot (wp (snd (reject Sample.host Interrupted.front_interrupted)))
    <> snapshot (wp Interrupted.before) /\
  length (states (run Sample.host [EvActivated; EvClickFront] Sample.world0)) = 2 /\
  dialog (run Sample.host [EvActivated; EvClickFront] Sample.world0) = false /\
  axis (wp (run Sample.host [EvActivated; EvClickFront] Sample.world0))
    = mkVector 0 (-1) 0.
Proof.
  repeat (split; [vm_compute; reflexivity|]).
  split; [differ_by (fun s => (vy (s_axis s) =? 0)%float)|].
  repeat split; vm_compute; reflexivity.
Qed.

(* ===================================================================== *)
(** ** The canonical buttons *)
(* ===================================================================== *)

Section CanonicalButtons.
Context {Hidden : Type} (H : Host Hidden).
Local Open Scope list_scope.

(** [getCenterPoint] only reads. *)
Lemma getCenterPoint_state (w : World Hidden) (x y z : Z) :
  snd (getCenterPoint H x y z w) = w.
Proof.
  unfold getCenterPoint, the_form, bind, get, ret, raise.
  destruct (taskd w) as [form|]; [|reflexivity].
  destruct (checkCenter form); cbn; [|reflexivity].
  repeat match goal with
         | |- context [if ?b then _ else _] => destruct b
         end; reflexivity.
Qed.

Lemma vector_of_triple_of_vector (a : Vector) :
  vector_of_triple (triple_of_vector a) = a.
Proof. destruct a. reflexivity. Qed.

(** The text a label leaves on the button and in its tooltip. *)
Definition label_text (s : string) (o : float) : string :=
  s +:+ (if float_truthy o then if (0 <? o)%float then " +O" else " -O" else "").

Definition label_tip (s : string) (o : float) (a : Vector) : string :=
  translate H "draft" "Current working plane" +:+ ": " +:+ label_text s o
    +:+ (if negb (o =? 0)%float
         then " " +:+ translate H "draft" "Offset" +:+ ": " +:+ py_str_float H o
         else "")
    +:+ dir_text H a.

(** A canonical button whose numbers all have a literal for text: the
    command is sent and run, the label displayed, the command finished. *)
Lemma canonical_literal (w : World Hidden) (form : Form) (o : float) (cp : Vector)
  (x y z : Z) (name : string) :
  taskd w = Some form -> getOffset H w = (Ok o, w) ->
  getCenterPoint H x y z w = (Ok cp, w) ->
  triple_finite (triple_of_vector cp) && float_finite o = true ->
  snapper w = true -> call w <> CallUnset ->
  let p := alignToPointAndAxis H cp (vector_of_triple (triple_of_ints x y z)) o (wp w) in
  exists w',
    canonical H x y z name w = (Ok tt, w') /\
    trace w' =
      trace w ++
      [Command (command_text H (CmdAlignToPointAndAxis (triple_of_vector cp)
                                  (triple_of_ints x y z) o));
       Command "FreeCADGui.Snapper.setGrid()"; SetGrid; CloseDialog; ResetEdit] /\
    states w' = states w ++ [snapshot p] /\
    wp w' = wp_restore H p /\
    wpText w' = label_text name o /\
    wpToolTip w' = label_tip name o (axis p) /\
    dialog w' = false /\ call w' = CallNone.
Proof.
  intros Ht Ho Hcp Hfin Hs Hcall p.
  set (cmd := CmdAlignToPointAndAxis (triple_of_vector cp) (triple_of_ints x y z) o).
  set (w1 := set_wp p (set_trace (trace w ++ [Command (command_text H cmd)]) w)).
  assert (Ho1 : getOffset H w1 = (Ok o, w1))
    by (apply getOffset_frame with (w := w); [reflexivity | exact Ho]).
  destruct (display_run H w1 (ArgStr name) o Ho1 Hs)
    as (w2 & Ed & D1 & D2 & D3 & D4 & D5 & D6 & D7 & D8 & D9 & T1 & T2).
  destruct (finish_run H w2 form)
    as (w' & Ef & F1 & F2 & F3 & F4 & F5 & F6 & F7 & F8 & F9 & F10).
  { rewrite D3. exact Ht. }
  { rewrite D4. exact Hcall. }
  exists w'. split.
  - unfold canonical. rewrite (bind_Ok _ _ _ _ _ Ho), (bind_Ok _ _ _ _ _ Hcp).
    cbv zeta. fold cmd.
    rewrite (bind_Ok _ _ w w1 tt).
    + rewrite (bind_Ok _ _ _ _ _ Ed), (bind_Ok _ _ _ _ _ Ef). reflexivity.
    + unfold doCommandGui, log. rewrite bind_modify. unfold cmd, run_command.
      fold cmd.
      change (triple_finite (triple_of_ints x y z)) with true.
      rewrite andb_true_r, Hfin, vector_of_triple_of_vector. reflexivity.
  - rewrite F10, D9, F1, D1, F2, D2, F6, F7, T2, T1, F5, F4. cbn.
    rewrite <- !app_assoc. repeat split; auto.
Qed.

(** With a number whose [str] is no literal ([inf], [nan]) the command
    text is sent and the interpreter turns it down: nothing is aligned. *)
Lemma canonical_not_literal (w : World Hidden) (o : float) (cp : Vector)
  (x y z : Z) (name : string) :
  getOffset H w = (Ok o, w) -> getCenterPoint H x y z w = (Ok cp, w) ->
  triple_finite (triple_of_vector cp) && float_finite o = false ->
  canonical H x y z name w
  = (Raise NameError,
     set_trace (trace w ++
       [Command (command_text H (CmdAlignToPointAndAxis (triple_of_vector cp)
                                   (triple_of_ints x y z) o))]) w).
Proof.
  intros Ho Hcp Hfin. unfold canonical.
  rewrite (bind_Ok _ _ _ _ _ Ho), (bind_Ok _ _ _ _ _ Hcp). cbv zeta.
  unfold doCommandGui at 1, log. rewrite bind_assoc, bind_modify.
  unfold run_command.
  change (triple_finite (triple_of_ints x y z)) with true.
  rewrite andb_true_r, Hfin. reflexivity.
Qed.

Lemma canonical_no_center (w : World Hidden) (o : float) (e : PyExn)
  (x y z : Z) (name : string) :
  getOffset H w = (Ok o, w) -> getCenterPoint H x y z w = (Raise e, w) ->
  canonical H x y z name w = (Raise e, w).
Proof.
  intros Ho Hcp. unfold canonical.
  rewrite (bind_Ok _ _ _ _ _ Ho), (bind_Raise _ _ _ _ _ Hcp). reflexivity.
Qed.

(** C6, as amended: with a readable offset [o], a Snapper and an assigned
    [call], each canonical button sends [alignToPointAndAxis] with the
    center point [getCenterPoint] returns (centering ticked or not), its
    own direction (Top (0,0,1), Front (0,-1,0), Side (1,0,0)) and [o] as
    offset.  When the center point and the offset are finite the command
    runs: the button returns normally, the plane recorded in the history is
    the plane so aligned (its normal is the direction, its origin the
    center point plus [o] times the direction), and the working plane is
    that plane after [finish] handed it to [restore()].  When one of them
    is not finite its [str] is no literal: the button raises NameError
    after sending the text, and nothing is aligned, recorded or finished.
    When [getCenterPoint] raises, so does the button, before it sends
    anything.  With centering off the center point is the zero vector;
    aligned on Top with offset 0 the plane has normal (0,0,1) and origin
    (0,0,0); on Front it has normal (0,-1,0). *)
Theorem canonical_buttons (w : World Hidden) (form : Form) (o : float) :
  taskd w = Some form -> getOffset H w = (Ok o, w) ->
  snapper w = true -> call w <> CallUnset ->
  let sent (cp : Vector) (dir : string) :=
    Command (ac +:+ "(" +:+ tostr H (triple_of_vector cp) +:+ ", " +:+ dir
               +:+ ", " +:+ py_str_float H o +:+ ")") in
  let aligned (cp d : Vector) := alignToPointAndAxis H cp d o (wp w) in
  let clicked (c : M Hidden unit) (x y z : Z) (dir : string) (d : Vector) :=
    match fst (getCenterPoint H x y z w) with
    | Ok cp =>
        if triple_finite (triple_of_vector cp) && float_finite o then
          exists w',
            c w = (Ok tt, w') /\
            trace w' = trace w ++ [sent cp dir; Command "FreeCADGui.Snapper.setGrid()";
                                   SetGrid; CloseDialog; ResetEdit] /\
            states w' = states w ++ [snapshot (aligned cp d)] /\
            wp w' = wp_restore H (aligned cp d) /\
            axis (aligned cp d) = d /\
            position (aligned cp d) = vec_add cp (vec_scale o d)
        else
          c w = (Raise NameError, set_trace (trace w ++ [sent cp dir]) w)
    | Raise e => c w = (Raise e, w)
    end in
  clicked (onClickTop H) 0%Z 0%Z 1%Z "FreeCAD.Vector(0, 0, 1)" (mkVector 0 0 1) /\
  clicked (onClickFront H) 0%Z (-1)%Z 0%Z "FreeCAD.Vector(0, -1, 0)" (mkVector 0 (-1) 0) /\
  clicked (onClickSide H) 1%Z 0%Z 0%Z "FreeCAD.Vector(1, 0, 0)" (mkVector 1 0 0) /\
  (checkCenter form = false ->
   forall x y z, getCenterPoint H x y z w = (Ok Vector0, w)) /\
  (forall p : WorkingPlane Hidden,
     axis (alignToPointAndAxis H Vector0 (mkVector 0 0 1) 0 p) = mkVector 0 0 1 /\
     position (alignToPointAndAxis H Vector0 (mkVector 0 0 1) 0 p) = Vector0 /\
     axis (alignToPointAndAxis H Vector0 (mkVector 0 (-1) 0) o p) = mkVector 0 (-1) 0).
Proof.
  intros Ht Ho Hs Hcall sent aligned clicked.
  assert (K : forall x y z name,
            match fst (getCenterPoint H x y z w) with
            | Ok cp =>
                if triple_finite (triple_of_vector cp) && float_finite o then
                  exists w',
                    canonical H x y z name w = (Ok tt, w') /\
                    trace w' = trace w ++
                      [Command (command_text H
                                  (CmdAlignToPointAndAxis (triple_of_vector cp)
                                     (triple_of_ints x y z) o));
                       Command "FreeCADGui.Snapper.setGrid()";
                       SetGrid; CloseDialog; ResetEdit] /\
                    states w' = states w
                      ++ [snapshot (aligned cp (vector_of_triple (triple_of_ints x y z)))] /\
                    wp w' = wp_restore H
                              (aligned cp (vector_of_triple (triple_of_ints x y z))) /\
                    axis (aligned cp (vector_of_triple (triple_of_ints x y z)))
                      = vector_of_triple (triple_of_ints x y z) /\
                    position (aligned cp (vector_of_triple (triple_of_ints x y z)))
                      = vec_add cp (vec_scale o (vector_of_triple (triple_of_ints x y z)))
                else
                  canonical H x y z name w
                  = (Raise NameError,
                     set_trace (trace w ++
                       [Command (command_text H
                                   (CmdAlignToPointAndAxis (triple_of_vector cp)
                                      (triple_of_ints x y z) o))]) w)
            | Raise e => canonical H x y z name w = (Raise e, w)
            end).
  { intros x y z name.
    pose proof (getCenterPoint_state w x y z) as Hst.
    destruct (getCenterPoint H x y z w) as [[cp|e] w1] eqn:Ecp;
      cbn [fst snd] in *; subst w1.
    - destruct (triple_finite (triple_of_vector cp) && float_finite o) eqn:Hfin.
      + destruct (canonical_literal w form o cp x y z name Ht Ho Ecp Hfin Hs Hcall)
          as (w' & E & T & S & P & _).
        exists w'. repeat split; assumption.
      + apply canonical_not_literal; assumption.
    - apply canonical_no_center with (o := o); assumption. }
  split; [exact (K 0 0 1 "Top")%Z|].
  split; [exact (K 0 (-1) 0 "Front")%Z|].
  split; [exact (K 1 0 0 "Side")%Z|].
  split; [intros Hc x y z; apply getCenterPoint_unchecked with (form := form); assumption|].
  intros p. repeat split; reflexivity.
Qed.

End CanonicalButtons.

(** The sample host again, with the text [inf]: [float] reads it as the
    infinite float and [str] writes that float back as [inf] (and its
    opposite as [-inf]), as Python does. *)
Definition host_with_inf : Host unit :=
  {| py_str_float := fun x =>
       if PrimFloat.is_infinity x
       then (if PrimFloat.get_sign x then "-inf" else "inf")
       else py_str_float Sample.host x;
     py_float := fun t =>
       if (t =? "inf")%string then Some PrimFloat.infinity
       else py_float Sample.host t;
     quantity_value := quantity_value Sample.host;
     quantity_user_string := quantity_user_string Sample.host;
     py_cos := py_cos Sample.host;
     translate := translate Sample.host;
     ui_offset_text := ui_offset_text Sample.host;
     shape_bool := shape_bool Sample.host;
     py_eval_bool := py_eval_bool Sample.host;
     vec_project := vec_project Sample.host;
     vec_getAngle := vec_getAngle Sample.host;
     vec_Length := vec_Length Sample.host;
     vec_scaleTo := vec_scaleTo Sample.host;
     getViewDirection := getViewDirection Sample.host;
     wp_setup := wp_setup Sample.host;
     wp_setup_force := wp_setup_force Sample.host;
     wp_reset := wp_reset Sample.host;
     wp_restore := wp_restore Sample.host;
     wp_alignToEdges := wp_alignToEdges Sample.host;
     wp_setFromPlacement := wp_setFromPlacement Sample.host;
     wp_alignToFace := wp_alignToFace Sample.host;
     wp_alignTo3Points := wp_alignTo3Points Sample.host;
     wp_alignToSelection := wp_alignToSelection Sample.host;
     wp_basis := wp_basis Sample.host;
     wp_projectPoint := wp_projectPoint Sample.host;
     wp_getRotationQ := wp_getRotationQ Sample.host |}.

Module CanonicalSessions.
Import Sample.

(** The command waits, the camera sits at (3, 4, 10) and centering is
    ticked. *)
Definition centered : World unit :=
  run host [EvActivated; EvToggleCenter true]
    (set_camera (mkCamera SoOrthographicCamera (mkVector 3 4 10)
                   (mkQuat 0 0 0 1) 1 100 1 10 20 0) world0).

(** The command waits and the offset field reads [inf]. *)
Definition awaiting_inf : World unit :=
  run host_with_inf [EvActivated; EvEditOffset "inf"] world0.

End CanonicalSessions.


(** C6 on a fresh session (Top, offset field at its default 0, centering
    off) and on a session with centering ticked (Top again: the center
    point found is passed, the direction and the offset are the same). *)
Lemma canonical_buttons_witness :
  taskd (run Sample.host [EvActivated] Sample.world0) = Some Sessions.panel /\
  checkCenter Sessions.panel = false /\
  (exists w',
     onClickTop Sample.host (run Sample.host [EvActivated] Sample.world0) = (Ok tt, w') /\
     In (Command "FreeCAD.DraftWorkingPlane.alignToPointAndAxis(FreeCAD.Vector(0.0, 0.0, 0.0), FreeCAD.Vector(0, 0, 1), 0.0)")
        (trace w') /\
     axis (wp w') = mkVector 0 0 1 /\ position (wp w') = Vector0) /\
  taskd CanonicalSessions.centered = Some Sessions.panel_centered /\
  checkCenter Sessions.panel_centered = true /\
  (exists w',
     onClickTop Sample.host CanonicalSessions.centered = (Ok tt, w') /\
     In (Command "FreeCAD.DraftWorkingPlane.alignToPointAndAxis(FreeCAD.Vector(3.0, 4.0, 20.0), FreeCAD.Vector(0, 0, 1), 0.0)")
        (trace w') /\
     axis (wp w') = mkVector 0 0 1 /\ position (wp w') = mkVector 3 4 20).
Proof.
  set (w := run Sample.host [EvActivated] Sample.world0).
  assert (Ht : taskd w = Some Sessions.panel) by (vm_compute; reflexivity).
  assert (Ho : getOffset Sample.host w = (Ok 0%float, w)) by (vm_compute; reflexivity).
  assert (Hs : snapper w = true) by (vm_compute; reflexivity).
  assert (Hc : call w <> CallUnset) by (vm_compute; discriminate).
  assert (Ecp : getCenterPoint Sample.host 0 0 1 w = (Ok Vector0, w))
    by (vm_compute; reflexivity).
  set (v := CanonicalSessions.centered).
  assert (Ht' : taskd v = Some Sessions.panel_centered) by (vm_compute; reflexivity).
  assert (Ho' : getOffset Sample.host v = (Ok 0%float, v)) by (vm_compute; reflexivity).
  assert (Hs' : snapper v = true) by (vm_compute; reflexivity).
  assert (Hc' : call v <> CallUnset) by (vm_compute; discriminate).
  assert (Ecp' : getCenterPoint Sample.host 0 0 1 v = (Ok (mkVector 3 4 20), v))
    by (vm_compute; reflexivity).
  split; [exact Ht|]. split; [reflexivity|].
  split.
  { pose proof (proj1 (canonical_buttons Sample.host w Sessions.panel 0%float
                         Ht Ho Hs Hc)) as K.
    cbv zeta in K. rewrite Ecp in K. cbn [fst] in K.
    change (triple_finite (triple_of_vector Vector0) && float_finite 0) with true in K.
    cbv iota in K.
    destruct K as (w' & E & T & _ & P & _).
    exists w'. split; [exact E|].
    split; [rewrite T; apply in_or_app; right; left; reflexivity|].
    rewrite P. split; reflexivity. }
  split; [exact Ht'|]. split; [reflexivity|].
  pose proof (proj1 (canonical_buttons Sample.host v Sessions.panel_centered 0%float
                       Ht' Ho' Hs' Hc')) as K.
  cbv zeta in K. rewrite Ecp' in K. cbn [fst] in K.
  change (triple_finite (triple_of_vector (mkVector 3 4 20)) && float_finite 0)
    with true in K.
  cbv iota in K.
  destruct K as (w' & E & T & _ & P & _).
  exists w'. split; [exact E|].
  split; [rewrite T; apply in_or_app; right; left; reflexivity|].
  rewrite P. split; reflexivity.
Defined.

(** C6 as stated fails: the offset field reads [inf], which [float]
    accepts.  Front sends its command with the offset written [inf]; the
    interpreter knows no such name, the button raises NameError, and the
    working plane keeps its normal (0,0,1): nothing is aligned, recorded
    or finished. *)
Lemma infinite_offset_not_aligned :
  getOffset host_with_inf CanonicalSessions.awaiting_inf
    = (Ok PrimFloat.infinity, CanonicalSessions.awaiting_inf) /\
  exists w',
    onClickFront host_with_inf CanonicalSessions.awaiting_inf = (Raise NameError, w') /\
    trace w' = (trace CanonicalSessions.awaiting_inf ++
      [Command "FreeCAD.DraftWorkingPlane.alignToPointAndAxis(FreeCAD.Vector(0.0, 0.0, 0.0), FreeCAD.Vector(0, -1, 0), inf)"])%list /\
    axis (wp w') = mkVector 0 0 1 /\
    wp w' = wp CanonicalSessions.awaiting_inf /\
    states w' = states CanonicalSessions.awaiting_inf /\
    dialog w' = true.
Proof.
  split; [vm_compute; reflexivity|].
  eexists. split; [vm_compute; reflexivity|].
  repeat split; vm_compute; reflexivity.
Qed.

(* ===================================================================== *)
(** ** The status text *)
(* ===================================================================== *)

Section Status.
Context {Hidden : Type} (H : Host Hidden).
Local Open Scope list_scope.

(** The tooltip that goes with [Custom]: the vector, then the direction. *)
Definition custom_tip (a d : Vector) : string :=
  translate H "draft" "Current working plane" +:+ ": "
    +:+ triple_text H 6 a +:+ dir_text H d.

(** What the button shows: a label, [Custom] with a vector, or the label
    of a picked object. *)
Definition shows_label (s : string) (o : float) (d : Vector) (w : World Hidden) : Prop :=
  wpText w = label_text s o /\ wpToolTip w = label_tip H s o d.

Definition shows_custom (a d : Vector) (w : World Hidden) : Prop :=
  wpText w = translate H "draft" "Custom" /\ wpToolTip w = custom_tip a d.

Definition shows_object (lbl : string) (w : World Hidden) : Prop :=
  wpText w = lbl /\
  wpToolTip w = translate H "draft" "Current working plane" +:+ ": " +:+ lbl.

(** [display] returns only with a readable offset and a Snapper. *)
Lemma display_inv (w w' : World Hidden) (arg : DisplayArg) :
  display H arg w = (Ok tt, w') ->
  exists o, getOffset H w = (Ok o, w) /\ snapper w = true.
Proof.
  intros E.
  destruct (getOffset H w) as [[o|e] w1] eqn:Eo.
  - pose proof (getOffset_taskd H _ _ _ Eo) as ->.
    exists o. split; [reflexivity|].
    destruct (snapper w) eqn:Es; [reflexivity|].
    exfalso. revert E. unfold display. rewrite (bind_Ok _ _ _ _ _ Eo).
    unfold doCommandGui, log, run_command, Snapper_setGrid, bind, get, modify, ret.
    destruct arg; cbn; rewrite Es; discriminate.
  - exfalso. revert E. unfold display. rewrite (bind_Raise _ _ _ _ _ Eo).
    discriminate.
Qed.

(** [display(FreeCAD.DraftWorkingPlane.axis)]: the vector shown is the
    direction of the plane. *)
Lemma display_axis_shows (w w' : World Hidden) :
  display_axis H w = (Ok tt, w') ->
  shows_custom (axis (wp w')) (axis (wp w')) w'.
Proof.
  unfold display_axis. rewrite bind_get. intros E.
  destruct (display_inv _ _ _ E) as (o & Ho & Hs).
  destruct (display_run H w (ArgVector (axis (wp w))) o Ho Hs)
    as (w2 & E2 & _ & D2 & _ & _ & _ & _ & _ & _ & _ & T1 & T2).
  rewrite E2 in E. injection E as <-.
  rewrite D2. split; [exact T1 | exact T2].
Qed.

(** [ends Q c]: when [c] returns [True], the state it leaves satisfies
    [Q]. *)
Definition ends (Q : World Hidden -> Prop) (c : M Hidden bool) : Prop :=
  forall w w', c w = (Ok true, w') -> Q w'.

Lemma ends_bind {A} (Q : World Hidden -> Prop) (c : M Hidden A) (k : A -> M Hidden bool) :
  (forall a, ends Q (k a)) -> ends Q (bind c k).
Proof.
  intros Hk w w'. unfold bind. destruct (c w) as [[a|e] w1].
  - apply Hk.
  - discriminate.
Qed.

Lemma ends_ret_false (Q : World Hidden -> Prop) : ends Q (ret false).
Proof. intros w w'. discriminate. Qed.

Lemma ends_display_axis :
  ends (fun w' => shows_custom (axis (wp w')) (axis (wp w')) w')
    (bind (display_axis H) (fun _ => ret true)).
Proof.
  intros w w'. unfold bind.
  destruct (display_axis H w) as [[[]|e] w1] eqn:E; [|discriminate].
  intros [= <-]. exact (display_axis_shows _ _ E).
Qed.

Lemma ends_label_button (lbl : string) :
  ends (shows_object lbl) (bind (label_button H lbl) (fun _ => ret true)).
Proof. intros w w' [= <-]. split; reflexivity. Qed.

(** The status a pick leaves, by the shape of the selection. *)
Definition pick_status (sel : list SelectionObject) (w' : World Hidden) : Prop :=
  match sel with
  | [s] =>
      if is_axis_object sel then shows_custom (axis (wp w')) (axis (wp w')) w'
      else if is_plane_proxy sel || is_section_plane sel
           then shows_object (Label (Object s)) w'
           else shows_custom (axis (wp w')) (axis (wp w')) w'
  | _ => shows_custom (axis (wp w')) (axis (wp w')) w'
  end.

Ltac ends_tac :=
  repeat first
    [ apply ends_ret_false
    | apply ends_display_axis
    | apply ends_label_button
    | apply ends_bind; intros ].

Lemma handle_shows (w w' : World Hidden) :
  handle H w = (Ok true, w') -> pick_status (selection w) w'.
Proof.
  unfold handle. rewrite bind_get. unfold pick_status.
  destruct (selection w) as [|s [|s' rest]]; [discriminate| |].
  - cbv zeta. unfold is_axis_object, is_plane_proxy, is_section_plane.
    destruct (DraftType (Object s) =? "Axis")%string;
      [revert w w'; ends_tac|].
    destruct ((DraftType (Object s) =? "WorkingPlaneProxy")%string
              || (DraftType (Object s) =? "BuildingPart")%string);
      [revert w w'; cbn [orb]; ends_tac|].
    destruct (DraftType (Object s) =? "SectionPlane")%string;
      [revert w w'; cbn [orb]; ends_tac|].
    cbn [orb]. revert w w'.
    destruct (HasSubObjects s).
    + destruct (SubElementNames s) as [|n0 [|n1 [|n2 [|n3 l]]]];
        try apply ends_ret_false.
      * destruct (str_in "Face" n0); [ends_tac|].
        destruct (n0 =? "Plane")%string; ends_tac.
      * destruct (str_in "Vertex" n0 && str_in "Vertex" n1 && str_in "Vertex" n2);
          ends_tac.
    + destruct (isPartFeature (Object s)); [|apply ends_ret_false].
      destruct (shape_bool H (Shape (Object s))); [|apply ends_ret_false].
      destruct (Faces (Shape (Object s))) as [|f [|f' l]]; ends_tac.
  - revert w w'.
    destruct (picked_vertices (s :: s' :: rest)) as [|a [|b [|c [|d l]]]];
      ends_tac.
Qed.


(** A picked section plane, with a readable offset and a Snapper: the
    plane is set from its placement and the button relabelled. *)
Lemma handle_section_plane (w : World Hidden) (s : SelectionObject) (o : float) :
  selection w = [s] ->
  is_axis_object [s] = false -> is_plane_proxy [s] = false ->
  is_section_plane [s] = true ->
  getOffset H w = (Ok o, w) -> snapper w = true ->
  exists w',
    handle H w = (Ok true, w') /\
    wp w' = set_weak false (fst (wp_setFromPlacement H (ObjPlacement (Object s)) (wp w))) /\
    shows_object (Label (Object s)) w'.
Proof.
  intros Hsel Ha Hp Hsp Ho Hs.
  unfold handle. rewrite bind_get, Hsel. cbv zeta.
  unfold is_axis_object, is_plane_proxy, is_section_plane in *.
  rewrite Ha, Hp, Hsp.
  match goal with
  | |- context [bind (align ?f) _ ?W] =>
      rewrite (bind_Ok _ _ W (set_wp (fst (f (wp W))) W) (snd (f (wp W))))
        by reflexivity
  end.
  rewrite bind_modify. world_simpl.
  match goal with
  | |- context [bind (display_axis H) _ ?W] => set (w1 := W)
  end.
  assert (Ho1 : getOffset H w1 = (Ok o, w1))
    by (apply getOffset_frame with (w := w); [reflexivity | exact Ho]).
  assert (Ed : exists w2, display_axis H w1 = (Ok tt, w2) /\ wp w2 = wp w1).
  { unfold display_axis. rewrite bind_get.
    destruct (display_run H w1 (ArgVector (axis (wp w1))) o Ho1 Hs)
      as (w2 & Ed & _ & D2 & _).
    exists w2. split; [exact Ed | exact D2]. }
  destruct Ed as (w2 & Ed & D2).
  rewrite (bind_Ok _ _ w1 w2 tt) by exact Ed.
  unfold label_button.
  rewrite bind_assoc, bind_modify, bind_assoc, bind_get, bind_modify.
  eexists. split; [reflexivity|]. world_simpl.
  split; [exact D2|]. split; reflexivity.
Qed.

(** [display] followed by [finish], as every button ends. *)
Lemma display_finish_run (w : World Hidden) (form : Form) (o : float)
  (arg : DisplayArg) :
  taskd w = Some form -> getOffset H w = (Ok o, w) -> snapper w = true ->
  call w <> CallUnset ->
  exists w',
    bind (display H arg) (fun _ => bind (finish H) (fun _ => ret tt)) w = (Ok tt, w') /\
    states w' = states w ++ [snapshot (wp w)] /\
    wp w' = wp_restore H (wp w) /\
    dialog w' = false /\ call w' = CallNone /\
    match arg with
    | ArgStr s => shows_label s o (axis (wp w)) w'
    | ArgVector a => shows_custom a (axis (wp w)) w'
    end.
Proof.
  intros Ht Ho Hs Hc.
  destruct (display_run H w arg o Ho Hs)
    as (w2 & Ed & D1 & D2 & D3 & D4 & _ & _ & _ & _ & _ & T).
  destruct (finish_run H w2 form)
    as (w' & Ef & F1 & F2 & _ & F4 & F5 & F6 & F7 & _).
  { rewrite D3. exact Ht. }
  { rewrite D4. exact Hc. }
  exists w'. split.
  - rewrite (bind_Ok _ _ _ _ _ Ed), (bind_Ok _ _ _ _ _ Ef). reflexivity.
  - rewrite F1, D1, F2, D2. repeat split; auto.
    destruct arg as [s|a]; destruct T as [T1 T2]; split;
      rewrite ?F6, ?F7, ?T2, ?T1; reflexivity.
Qed.

Lemma auto_run (w : World Hidden) (form : Form) (o : float) :
  taskd w = Some form -> getOffset H w = (Ok o, w) -> snapper w = true ->
  call w <> CallUnset ->
  exists w',
    onClickAuto H w = (Ok tt, w') /\
    wp w' = wp_restore H (wp_reset H (wp w)) /\
    shows_label "Auto" o (axis (wp_reset H (wp w))) w'.
Proof.
  intros Ht Ho Hs Hc.
  set (w1 := set_wp (wp_reset H (wp w))
               (set_trace (trace w ++ [Command (command_text H CmdReset)]) w)).
  assert (Ho1 : getOffset H w1 = (Ok o, w1))
    by (apply getOffset_frame with (w := w); [reflexivity | exact Ho]).
  destruct (display_finish_run w1 form o (ArgStr "Auto") Ht Ho1 Hs Hc)
    as (w' & E & _ & P & _ & _ & T).
  exists w'. split; [|split; [exact P | exact T]].
  unfold onClickAuto. rewrite (bind_Ok _ _ w w1 tt) by reflexivity. exact E.
Qed.

Lemma align_run (w : World Hidden) (form : Form) (o : float) :
  taskd w = Some form -> getOffset H w = (Ok o, w) -> snapper w = true ->
  call w <> CallUnset ->
  exists w',
    onClickAlign H w = (Ok tt, w') /\
    wp w' = wp_restore H (wp_setup_force H (camera w) (wp w)) /\
    shows_custom (vec_negative (getViewDirection H (camera w)))
      (axis (wp_setup_force H (camera w) (wp w))) w'.
Proof.
  intros Ht Ho Hs Hc.
  set (w1 := set_wp (wp_setup_force H (camera w) (wp w))
               (set_trace (trace w ++ [Command (command_text H CmdSetupForce)]) w)).
  assert (Ho1 : getOffset H w1 = (Ok o, w1))
    by (apply getOffset_frame with (w := w); [reflexivity | exact Ho]).
  destruct (display_finish_run w1 form o
              (ArgVector (vec_negative (getViewDirection H (camera w)))) Ht Ho1 Hs Hc)
    as (w' & E & _ & P & _ & _ & T).
  exists w'. split; [|split; [exact P | exact T]].
  unfold onClickAlign. rewrite (bind_Ok _ _ w w1 tt) by reflexivity.
  rewrite (bind_Ok _ _ w1 w1 form)
    by (unfold the_form, bind, get; change (taskd w1) with (taskd w);
        rewrite Ht; reflexivity).
  rewrite bind_get. exact E.
Qed.

Lemma move_shows (w : World Hidden) (form : Form) (o : float) (target : Vector) :
  taskd w = Some form -> getOffset H w = (Ok o, w) -> snapper w = true ->
  call w <> CallUnset ->
  exists w',
    bind (modify (fun w => set_wp (set_position target (wp w)) w))
      (fun _ => bind (display H (ArgVector target))
         (fun _ => bind (finish H) (fun _ => ret tt))) w = (Ok tt, w') /\
    shows_custom target (axis (wp w)) w'.
Proof.
  intros Ht Ho Hs Hc. rewrite bind_modify.
  set (w1 := set_wp (set_position target (wp w)) w).
  assert (Ho1 : getOffset H w1 = (Ok o, w1))
    by (apply getOffset_frame with (w := w); [reflexivity | exact Ho]).
  destruct (display_finish_run w1 form o (ArgVector target) Ht Ho1 Hs Hc)
    as (w' & E & _ & _ & _ & _ & T).
  exists w'. split; [exact E | exact T].
Qed.


(** [Activated] when [handle] finds nothing and [alignToSelection] finds a
    plane: the plane is displayed as a vector and the command finished. *)
Lemma Activated_aligns (w : World Hidden) (o : float) :
  call w <> CallUnset ->
  recognized H (selection w) = false ->
  snd (wp_alignToSelection H (selection w) (wp_setup H (camera w) (wp w))) = true ->
  py_float H (ui_offset_text H) = Some o -> snapper w = true ->
  let p := fst (wp_alignToSelection H (selection w) (wp_setup H (camera w) (wp w))) in
  exists w',
    Activated H w = (Ok tt, w') /\
    wp w' = wp_restore H p /\
    shows_custom (axis p) (axis p) w'.
Proof.
  intros Hc Hr Ha Hf Hs p.
  unfold Activated. rewrite bind_modify, bind_get. cbv beta. world_simpl.
  destruct (states w) as [|s0 l0] eqn:E;
    [rewrite bind_modify | rewrite bind_ret]; cbv beta;
    unfold log at 1; rewrite bind_modify;
    unfold closeDialog at 1; rewrite bind_assoc, bind_modify;
    unfold log at 1; rewrite bind_modify, bind_modify; cbv beta;
    match goal with
    | |- context [bind (handle H) _ ?W] =>
        rewrite (bind_Ok _ _ W W false) by (apply handle_unrecognized; exact Hr)
    end;
    cbv beta iota; rewrite bind_get; cbv beta;
    match goal with
    | |- context [bind (align ?f) _ ?W] =>
        rewrite (bind_Ok _ _ W (set_wp (fst (f (wp W))) W) (snd (f (wp W))))
          by reflexivity
    end;
    world_simpl; rewrite Ha;
    rewrite bind_modify; unfold log at 1; rewrite bind_modify; cbv beta;
    unfold display_axis; rewrite bind_assoc, bind_get; cbv beta;
    match goal with
    | |- context [bind (display H ?arg) _ ?W] =>
        assert (Eo : getOffset H W = (Ok o, W))
          by (unfold getOffset, the_form, bind, get, ret; world_simpl;
              cbn [fieldOffset]; rewrite Hf; reflexivity);
        destruct (display_finish_run W _ o arg eq_refl Eo Hs Hc)
          as (w' & Ed & _ & P & _ & _ & T)
    end;
    exists w'; (split; [exact Ed|]); split; [exact P | exact T | exact P | exact T].
Qed.

End Status.

Section StatusText.
Context {Hidden : Type} (H : Host Hidden).
Local Open Scope list_scope.

(** C8, as amended.  When the offset field reads [o] and there is a
    Snapper, [display] returns normally, records the plane, and leaves a
    tooltip that ends with the direction of the working plane, each
    coordinate [str] cut to 4 characters.  Given a label, the button shows
    the label and the tooltip the label and the direction, with a [+O] or
    [-O] suffix and an [Offset:] entry exactly when [o] is not zero.  Given
    a vector, the button shows [Custom] and the tooltip the vector (6
    characters a coordinate) and the direction: the offset is not shown.
    Top, Front, Side (when their command runs) and Auto pass their label,
    and the direction shown is the one of the plane they aligned or reset.  Align
    (the opposite of the view direction), Move (the new origin), every pick
    for which [handle] returns [True] and the [alignToSelection] of
    [Activated] (the direction of the plane) pass a vector; for a picked
    proxy, building part or section plane [handle] then relabels the
    button: text and tooltip show the label of the object and no
    direction.  Previous changes the plane and leaves text and tooltip as
    they were. *)
Theorem display_status (w : World Hidden) (arg : DisplayArg) (o : float) :
  getOffset H w = (Ok o, w) -> snapper w = true ->
  (* display itself *)
  (exists w',
    display H arg w = (Ok tt, w') /\
    states w' = states w ++ [snapshot (wp w)] /\
    (forall lbl w0,
       wpText (snd (label_button H lbl w0)) = lbl /\
       wpToolTip (snd (label_button H lbl w0))
         = translate H "draft" "Current working plane" +:+ ": " +:+ lbl) /\
    (exists pre, wpToolTip w' = pre +:+ triple_text H 4 (axis (wp w))) /\
    match arg with
    | ArgStr s =>
        ((o =? 0)%float = true ->
           wpText w' = s /\
           wpToolTip w' =
             translate H "draft" "Current working plane" +:+ ": " +:+ s
               +:+ dir_text H (axis (wp w))) /\
        ((o =? 0)%float = false ->
           wpText w' = s +:+ (if (0 <? o)%float then " +O" else " -O") /\
           wpToolTip w' =
             translate H "draft" "Current working plane" +:+ ": "
               +:+ (s +:+ (if (0 <? o)%float then " +O" else " -O"))
               +:+ (" " +:+ translate H "draft" "Offset" +:+ ": " +:+ py_str_float H o)
               +:+ dir_text H (axis (wp w)))
    | ArgVector a =>
        wpText w' = translate H "draft" "Custom" /\
        wpToolTip w' =
          translate H "draft" "Current working plane" +:+ ": "
            +:+ triple_text H 6 a +:+ dir_text H (axis (wp w))
    end) /\
  (* the three kinds of status text, spelled out *)
  (forall s d,
     ((o =? 0)%float = true ->
        label_text s o = s /\
        label_tip H s o d =
          translate H "draft" "Current working plane" +:+ ": " +:+ s
            +:+ dir_text H d) /\
     ((o =? 0)%float = false ->
        label_text s o = s +:+ (if (0 <? o)%float then " +O" else " -O") /\
        label_tip H s o d =
          translate H "draft" "Current working plane" +:+ ": "
            +:+ (s +:+ (if (0 <? o)%float then " +O" else " -O"))
            +:+ (" " +:+ translate H "draft" "Offset" +:+ ": " +:+ py_str_float H o)
            +:+ dir_text H d)) /\
  (forall a d,
     custom_tip H a d =
       translate H "draft" "Current working plane" +:+ ": "
         +:+ triple_text H 6 a
         +:+ (" " +:+ translate H "draft" "Dir" +:+ ": " +:+ triple_text H 4 d)) /\
  (* the buttons that pass a label *)
  (call w <> CallUnset ->
   let labelled (c : M Hidden unit) (x y z : Z) (name : string) (d : Vector) :=
     forall cp,
       getCenterPoint H x y z w = (Ok cp, w) ->
       triple_finite (triple_of_vector cp) && float_finite o = true ->
       exists w',
         c w = (Ok tt, w') /\
         shows_label H name o (axis (alignToPointAndAxis H cp d o (wp w))) w' in
   labelled (onClickTop H) 0%Z 0%Z 1%Z "Top" (mkVector 0 0 1) /\
   labelled (onClickFront H) 0%Z (-1)%Z 0%Z "Front" (mkVector 0 (-1) 0) /\
   labelled (onClickSide H) 1%Z 0%Z 0%Z "Side" (mkVector 1 0 0) /\
   (exists w',
      onClickAuto H w = (Ok tt, w') /\
      shows_label H "Auto" o (axis (wp_reset H (wp w))) w')) /\
  (* the buttons that pass a vector *)
  (call w <> CallUnset ->
   (exists w',
      onClickAlign H w = (Ok tt, w') /\
      shows_custom H (vec_negative (getViewDirection H (camera w)))
        (axis (wp_setup_force H (camera w) (wp w))) w') /\
   (selection w = [] ->
    exists w',
      onClickMove H w = (Ok tt, w') /\
      shows_custom H
        (wp_projectPoint H (wp w) (cam_position (camera w))
           (Some (getViewDirection H (camera w))))
        (axis (wp w)) w') /\
   (forall target,
      selection w <> [] -> picked_vertices (selection w) = [ShVertex target] ->
      exists w',
        onClickMove H w = (Ok tt, w') /\ shows_custom H target (axis (wp w)) w')) /\
  (* the picks *)
  (forall w0 w', handle H w0 = (Ok true, w') -> pick_status H (selection w0) w') /\
  (forall s,
     selection w = [s] -> is_axis_object [s] = false ->
     is_plane_proxy [s] = false -> is_section_plane [s] = true ->
     exists w',
       handle H w = (Ok true, w') /\ shows_object H (Label (Object s)) w') /\
  (forall w0 o0,
     call w0 <> CallUnset -> recognized H (selection w0) = false ->
     snd (wp_alignToSelection H (selection w0) (wp_setup H (camera w0) (wp w0))) = true ->
     py_float H (ui_offset_text H) = Some o0 -> snapper w0 = true ->
     let p := fst (wp_alignToSelection H (selection w0)
                     (wp_setup H (camera w0) (wp w0))) in
     exists w',
       Activated H w0 = (Ok tt, w') /\ shows_custom H (axis p) (axis p) w') /\
  (* Previous *)
  (call w <> CallUnset -> 1 < length (states w) ->
   exists s w',
     onClickPrevious H w = (Ok tt, w') /\
     last (removelast (states w)) = Some s /\
     wp w' = wp_restore H (apply_snapshot s (wp w)) /\
     wpText w' = wpText w /\ wpToolTip w' = wpToolTip w).
Proof.
  intros Ho Hs.
  destruct (getOffset_Ok_taskd H w w o Ho) as [form Ht].
  split.
  { destruct (display_run H w arg o Ho Hs)
      as (w' & Ed & D1 & _ & _ & _ & _ & _ & _ & _ & _ & D10).
    exists w'. split; [exact Ed|]. split; [exact D1|].
    split; [intros lbl w0; split; reflexivity|].
    destruct arg as [s|a]; destruct D10 as [T1 T2].
    - split.
      + rewrite T2. unfold dir_text.
        eexists. rewrite <- !append_assoc. reflexivity.
      + rewrite T2, T1. unfold float_truthy.
        split; intros ->; cbn [negb]; rewrite ?append_empty_r; auto.
    - split; [|auto].
      rewrite T2. unfold dir_text.
      eexists. rewrite <- !append_assoc. reflexivity. }
  split.
  { intros s d. unfold label_tip, label_text, float_truthy.
    split; intros ->; cbn [negb]; rewrite ?append_empty_r; auto. }
  split; [intros a d; reflexivity|].
  split.
  { intros Hc labelled.
    assert (K : forall x y z name cp,
              getCenterPoint H x y z w = (Ok cp, w) ->
              triple_finite (triple_of_vector cp) && float_finite o = true ->
              exists w',
                canonical H x y z name w = (Ok tt, w') /\
                shows_label H name o
                  (axis (alignToPointAndAxis H cp
                           (vector_of_triple (triple_of_ints x y z)) o (wp w))) w').
    { intros x y z name cp Ecp Hfin.
      destruct (canonical_literal H w form o cp x y z name Ht Ho Ecp Hfin Hs Hc)
        as (w' & E & _ & _ & _ & T1 & T2 & _).
      exists w'. split; [exact E|]. split; [exact T1 | exact T2]. }
    split; [exact (K 0 0 1 "Top")%Z|].
    split; [exact (K 0 (-1) 0 "Front")%Z|].
    split; [exact (K 1 0 0 "Side")%Z|].
    destruct (auto_run H w form o Ht Ho Hs Hc) as (w' & E & _ & T).
    exists w'. split; [exact E | exact T]. }
  split.
  { intros Hc. split; [|split].
    - destruct (align_run H w form o Ht Ho Hs Hc) as (w' & E & _ & T).
      exists w'. split; [exact E | exact T].
    - intros Hsel. unfold onClickMove. rewrite bind_get, Hsel.
      apply (move_shows H w form o _ Ht Ho Hs Hc).
    - intros target Hne Hv. unfold onClickMove. rewrite bind_get.
      destruct (selection w) as [|s0 sel]; [congruence|].
      rewrite Hv. cbn [Point_of]. rewrite bind_ret.
      apply (move_shows H w form o _ Ht Ho Hs Hc). }
  split; [exact (handle_shows H)|].
  split.
  { intros s Hsel Ha Hp Hsp.
    destruct (handle_section_plane H w s o Hsel Ha Hp Hsp Ho Hs) as (w' & E & _ & T).
    exists w'. split; [exact E | exact T]. }
  split.
  { intros w0 o0 Hc Hr Ha Hf Hs0 p.
    destruct (Activated_aligns H w0 o0 Hc Hr Ha Hf Hs0) as (w' & E & _ & T).
    exists w'. split; [exact E | exact T]. }
  intros Hc Hl.
  destruct (previous_run H w form Hl Hs Ht Hc)
    as (s & w' & P1 & P2 & _ & P4 & P5 & P6 & _).
  exists s, w'. repeat split; assumption.
Qed.

End StatusText.

(** C8 on the waiting session with 5 in the offset field: the label Top
    displayed, the Front button clicked, and a working-plane proxy
    picked. *)
Lemma display_status_witness :
  getOffset Sample.host Sessions.awaiting_offset5
    = (Ok 5%float, Sessions.awaiting_offset5) /\
  snapper Sessions.awaiting_offset5 = true /\
  call Sessions.awaiting_offset5 <> CallUnset /\
  (exists w',
     display Sample.host (ArgStr "Top") Sessions.awaiting_offset5 = (Ok tt, w') /\
     wpText w' = "Top +O") /\
  (exists w',
     onClickFront Sample.host Sessions.awaiting_offset5 = (Ok tt, w') /\
     wpText w' = "Front +O" /\
     wpToolTip w' = "Current working plane: Front +O Offset: 5.0 Dir: (0.0,-1.0,0.0)") /\
  (exists w',
     handle Sample.host
       (set_selection [MoreSessions.proxy_pick] Sessions.awaiting_offset5)
     = (Ok true, w') /\
     wpText w' = "Ground floor" /\
     wpToolTip w' = "Current working plane: Ground floor").
Proof.
  set (w := Sessions.awaiting_offset5).
  assert (Ho : getOffset Sample.host w = (Ok 5%float, w)) by (vm_compute; reflexivity).
  assert (Hs : snapper w = true) by (vm_compute; reflexivity).
  assert (Hc : call w <> CallUnset) by (vm_compute; discriminate).
  assert (Ecp : getCenterPoint Sample.host 0 (-1) 0 w = (Ok Vector0, w))
    by (vm_compute; reflexivity).
  set (wpick := set_selection [MoreSessions.proxy_pick] w).
  assert (Eh : handle Sample.host wpick = (Ok true, snd (handle Sample.host wpick)))
    by (vm_compute; reflexivity).
  split; [exact Ho|]. split; [exact Hs|]. split; [exact Hc|].
  destruct (display_status Sample.host w (ArgStr "Top") 5%float Ho Hs)
    as (D & _ & _ & B & _ & P & _).
  split.
  { destruct D as (w' & Ed & _ & _ & _ & T).
    exists w'. split; [exact Ed|]. exact (proj1 (proj2 T eq_refl)). }
  split.
  { destruct (proj1 (proj2 (B Hc)) Vector0 Ecp eq_refl) as (w' & E & T1 & T2).
    exists w'. split; [exact E|]. rewrite T1, T2. split; vm_compute; reflexivity. }
  exists (snd (handle Sample.host wpick)). split; [exact Eh|].
  exact (P wpick _ Eh).
Defined.

(** C8 as stated fails: with 5 in the offset field a face is picked; the
    plane moves to the face plus the offset and a history entry is added,
    but the button reads [Custom] without suffix and the tooltip has no
    offset entry. *)
Lemma custom_status_omits_offset :
  getOffset Sample.host Sessions.awaiting_offset5
    = (Ok 5%float, Sessions.awaiting_offset5) /\
  exists w',
    handle Sample.host (set_selection Sessions.face_pick Sessions.awaiting_offset5)
      = (Ok true, w') /\
    length (states w') = S (length (states Sessions.awaiting_offset5)) /\
    position (wp w') = mkVector 0 0 7 /\
    wpText w' = "Custom" /\
    wpToolTip w' = "Current working plane: (0.0,0.0,1.0) Dir: (0.0,0.0,1.0)" /\
    str_in "Offset" (wpToolTip w') = false.
Proof.
  split; [vm_compute; reflexivity|].
  eexists. split; [vm_compute; reflexivity|].
  repeat split; vm_compute; reflexivity.
Qed.
